(** * Weather station: the acquisition-and-publish cycle

    A shallow embedding of [meetstation.py] (MicroPython, ESP32) and of
    its configuration module [esp32/config.py], and the properties of
    the cycle that [run] performs: join the network, fetch the forecast,
    collect the sensor readings, publish, and schedule the next cycle.

    Conventions of the embedding:
    - Python values are an inductive type; dictionaries are [gmap]s with
      string keys.
    - Python floats are modelled by exact rationals ([Q]): rounding,
      overflow, infinities and NaN are outside the model.
    - The hardware and the libraries that the program talks to (WLAN,
      HTTP client, I2C bus and sensor drivers, ADC, MQTT client, debug
      pin) are an oracle [Env]; the actions that the program performs on
      them, and what it prints, are recorded in order in a trace of
      [event]s.
    - The string method [format] is modelled on the templates whose
      replacement fields are empty, an index or a keyword name, with the
      brace escapes and the exceptions of Python; what it makes of a
      template with a conversion, a format specification or an attribute
      access is an answer of the oracle.
    - The operations that may fail are those of the HTTP client
      ([urequests.get], [response.json]), of the sensor drivers
      ([measure] and the reads) and of the MQTT client ([connect],
      [publish], [disconnect]); their exceptions are kept apart from the
      exceptions that the program raises itself.  Constructing an object
      ([Pin], [SoftI2C], [ADC], [WLAN], a driver, [MQTTClient]) is not an
      action and does not fail.
    - A computation is a function from the world to an outcome and a new
      world.  It ends with a value, with an exception, or by stopping the
      processor: [machine.reset()] and [machine.deepsleep()] do not
      return. *)

From stdpp Require Import base strings pretty gmap list.
From Stdlib Require Import Ascii QArith Lqa.

Set Warnings "-register-all".
Close Scope Q_scope.

(** ** Python values *)

Inductive value : Type :=
| VNone
| VBool (b : bool)
| VInt (z : Z)
| VFloat (q : Q)
| VStr (s : string)
| VList (l : list value)
| VDict (d : gmap string value).

(** An exception raised inside an external library (network stack,
    urequests, umqtt, a sensor driver): its class name and its message. *)
Record lib_exn := LibExn { exn_class : string; exn_args : string }.

(** The exceptions of the program.  All of them derive from [Exception],
    so [except Exception] catches every one. *)
Inductive exn : Type :=
| RuntimeError (msg : string)
| KeyError (key : string)
| IndexError
| TypeError
| ValueError
| Foreign (e : lib_exn).

(** Result of a pure, fallible Python expression. *)
Inductive result (A : Type) : Type :=
| Ok (a : A)
| Err (e : exn).
Arguments Ok {A} a.
Arguments Err {A} e.

(** Answer of an external collaborator. *)
Inductive reply (A : Type) : Type :=
| Done (a : A)
| Fails (e : lib_exn).
Arguments Done {A} a.
Arguments Fails {A} e.

(** [bool], [int] and [float] are the numeric types; a number used in
    float arithmetic is coerced to a float. *)
Definition to_Q (v : value) : option Q :=
  match v with
  | VBool b => Some (if b then 1 else 0)%Q
  | VInt z => Some (inject_Z z)
  | VFloat q => Some q
  | _ => None
  end.

Definition is_number (v : value) : bool :=
  match to_Q v with Some _ => true | None => false end.

(** [v - c] for a float literal [c]: a float, or [TypeError]. *)
Definition py_sub_float (v : value) (c : Q) : result Q :=
  match to_Q v with
  | Some q => Ok (q - c)%Q
  | None => Err TypeError
  end.

(** [v[k]] for a string key [k]: only a dict can be subscripted by a
    string; a missing key is a [KeyError]. *)
Definition py_getitem (v : value) (k : string) : result value :=
  match v with
  | VDict d =>
      match d !! k with
      | Some x => Ok x
      | None => Err (KeyError k)
      end
  | _ => Err TypeError
  end.

(** [d[k]] for one of the program's own dictionaries. *)
Definition dict_get (d : gmap string value) (k : string) : result value :=
  match d !! k with
  | Some x => Ok x
  | None => Err (KeyError k)
  end.

(** *** The string method [format]

    [str.format] is modelled on the plain templates: literal text, the
    escapes [{{] and [}}], and replacement fields that hold nothing ([{}],
    the next positional argument), a decimal index ([{0}]) or the name of
    a keyword argument ([{lat}]), all arguments being strings.  A field
    with a conversion ([!]), a format specification ([:]), an attribute
    or an index access ([.], [[]) or a nested brace is not plain, and what
    [format] makes of a template with such a field is left to the
    interpreter (see [format_beyond] below). *)

(** How the replacement fields met so far were numbered. *)
Inductive numbering :=
| Unnumbered               (* no [{}] and no [{n}] so far *)
| Automatic (next : nat)   (* [{}] was used; the next one takes argument [next] *)
| Manual.                  (* [{n}] was used *)

Definition is_digit (c : ascii) : bool :=
  (48 <=? nat_of_ascii c) && (nat_of_ascii c <=? 57).

Fixpoint all_digits (s : string) : bool :=
  match s with
  | EmptyString => true
  | String c s' => is_digit c && all_digits s'
  end.

(** The number that the decimal digits [s] denote, after the digits
    that gave [acc]. *)
Fixpoint decimal (s : string) (acc : nat) : nat :=
  match s with
  | EmptyString => acc
  | String c s' => decimal s' (10 * acc + (nat_of_ascii c - 48))
  end.

(** The characters that end the name of a field or open a nested one. *)
Definition is_field_syntax (c : ascii) : bool :=
  Ascii.eqb c "{"%char || Ascii.eqb c "!"%char || Ascii.eqb c ":"%char
  || Ascii.eqb c "."%char || Ascii.eqb c "["%char.

Fixpoint has_field_syntax (s : string) : bool :=
  match s with
  | EmptyString => false
  | String c s' => is_field_syntax c || has_field_syntax s'
  end.

(** The text of a plain field: empty, an index of at most nine digits,
    or a name that does not start with a digit. *)
Definition plain_field (f : string) : bool :=
  negb (has_field_syntax f)
  && match f with
     | EmptyString => true
     | String c _ => if is_digit c then all_digits f && (String.length f <=? 9) else true
     end.

(** The templates all of whose fields are plain.  [field] is [Some f]
    while the scanner is inside a replacement field whose text read so
    far is [f]. *)
Fixpoint plain_go (t : string) (field : option string) : bool :=
  match t with
  | EmptyString =>
      match field with
      | None => true
      | Some f => plain_field f
      end
  | String c t' =>
      match field with
      | None =>
          if Ascii.eqb c "{"%char then
            match t' with
            | String c' t'' =>
                if Ascii.eqb c' "{"%char then plain_go t'' None
                else plain_go t' (Some EmptyString)
            | EmptyString => true
            end
          else if Ascii.eqb c "}"%char then
            match t' with
            | String c' t'' =>
                if Ascii.eqb c' "}"%char then plain_go t'' None else plain_go t' None
            | EmptyString => true
            end
          else plain_go t' None
      | Some f =>
          if Ascii.eqb c "}"%char then plain_field f && plain_go t' None
          else plain_go t' (Some (f +:+ String c EmptyString))
      end
  end.

Definition plain_template (t : string) : bool := plain_go t None.

(** The keyword argument called [name], if there is one. *)
Fixpoint kwarg (name : string) (kwargs : list (string * string)) : option string :=
  match kwargs with
  | [] => None
  | (k, a) :: rest => if String.eqb k name then Some a else kwarg name rest
  end.

(** The argument that the plain field [f] stands for, and the numbering
    after it.  Automatic and manual numbering do not mix ([ValueError]);
    a position that is not there is an [IndexError], a keyword that is
    not there a [KeyError]; a keyword field leaves the numbering as it
    is. *)
Definition field_value (f : string) (n : numbering)
    (args : list string) (kwargs : list (string * string)) : result (string * numbering) :=
  match f with
  | EmptyString =>
      match n with
      | Manual => Err ValueError
      | Unnumbered =>
          match args !! 0 with
          | Some a => Ok (a, Automatic 1)
          | None => Err IndexError
          end
      | Automatic i =>
          match args !! i with
          | Some a => Ok (a, Automatic (S i))
          | None => Err IndexError
          end
      end
  | String c _ =>
      if is_digit c then
        match n with
        | Automatic _ => Err ValueError
        | _ =>
            match args !! decimal f 0 with
            | Some a => Ok (a, Manual)
            | None => Err IndexError
            end
        end
      else
        match kwarg f kwargs with
        | Some a => Ok (a, n)
        | None => Err (KeyError f)
        end
  end.

(** [format] on a plain template, from left to right: the first fault
    met is the exception raised.  A single ["}"] outside a field and a
    field that is not closed are [ValueError]s.  [field] is [Some f] while
    the scanner is inside a replacement field whose text read so far is
    [f]. *)
Fixpoint format_go (t : string) (field : option string) (n : numbering)
    (args : list string) (kwargs : list (string * string)) : result string :=
  match t with
  | EmptyString =>
      match field with
      | None => Ok EmptyString
      | Some _ => Err ValueError
      end
  | String c t' =>
      match field with
      | None =>
          if Ascii.eqb c "{"%char then
            match t' with
            | String c' t'' =>
                if Ascii.eqb c' "{"%char then
                  match format_go t'' None n args kwargs with
                  | Ok r => Ok (String "{"%char r)
                  | Err e => Err e
                  end
                else format_go t' (Some EmptyString) n args kwargs
            | EmptyString => Err ValueError
            end
          else if Ascii.eqb c "}"%char then
            match t' with
            | String c' t'' =>
                if Ascii.eqb c' "}"%char then
                  match format_go t'' None n args kwargs with
                  | Ok r => Ok (String "}"%char r)
                  | Err e => Err e
                  end
                else Err ValueError
            | EmptyString => Err ValueError
            end
          else
            match format_go t' None n args kwargs with
            | Ok r => Ok (String c r)
            | Err e => Err e
            end
      | Some f =>
          if Ascii.eqb c "}"%char then
            match field_value f n args kwargs with
            | Err e => Err e
            | Ok (a, n') =>
                match format_go t' None n' args kwargs with
                | Ok r => Ok (a +:+ r)
                | Err e => Err e
                end
            end
          else format_go t' (Some (f +:+ String c EmptyString)) n args kwargs
      end
  end.

(** [t.format( *args, **kwargs)] for a plain template [t]. *)
Definition py_format (t : string) (args : list string)
    (kwargs : list (string * string)) : result string :=
  format_go t None Unnumbered args kwargs.

(** ** Configuration ([esp32/config.py]) *)

Record Config := {
  STATION_ID : string;
  SCL_PIN : Z;
  SDA_PIN : Z;
  LED_PIN : Z;
  LED_ON : Z;
  LED_OFF : Z;
  DEBUG_PIN : Z;
  VBAT_PIN : Z;
  FAHRENHEIT : bool;
  INTERVAL : Z;
  SSID : string;
  PASS : string;
  MAX_TRIES : Z;
  OPENWEATHERMAP_API : string;
  OPENWEATHERMAP_CITY : string;
  OPENWEATHERMAP_LAT : string;
  OPENWEATHERMAP_LON : string;
  OPENWEATHERMAP_URL : string;
  MQTT_HOST : string;
  MQTT_TOPIC : string;
  MQTT_USER : string;
  MQTT_PASS : string
}.

(** The values of [esp32/config.py] as shipped. *)
Definition config : Config := {|
  STATION_ID := "<Your Station ID>";
  SCL_PIN := 22;
  SDA_PIN := 21;
  LED_PIN := 2;
  LED_ON := 0;
  LED_OFF := 1;
  DEBUG_PIN := 5;
  VBAT_PIN := 33;
  FAHRENHEIT := false;
  INTERVAL := 900;
  SSID := "<Your network SSID>";
  PASS := "<Your network password>";
  MAX_TRIES := 20;
  OPENWEATHERMAP_API := "<Your OpenWeather API key>";
  OPENWEATHERMAP_CITY := "<Your OpenWeather City\,2-letter landcode";
  OPENWEATHERMAP_LAT := "<Your OpenWeather City latitude>";
  OPENWEATHERMAP_LON := "<Your OpenWeather City longitude>";
  OPENWEATHERMAP_URL :=
    "https://api.openweathermap.org/data/2.5/weather?lat={lat}&lon={lon}&appid={api}";
  MQTT_HOST := "<IP address MQTT host>";
  MQTT_TOPIC := "weatherdata";
  MQTT_USER := "<Your MQTT user>";
  MQTT_PASS := "<Your MQTT password>"
|}.

(** ** The outside world *)

Inductive sensor := AM2320 | BMP180 | BH1750.
Inductive quantity := Temperature | Humidity | Pressure | Altitude | Luminance.

(** The reply to [urequests.get]: the status code, and what
    [response.json()] gives. *)
Record Response := { status_code : Z; json : reply value }.

(** What the hardware and the libraries answer during one cycle.  A query
    that the program repeats is indexed by its rank (from 0) among the
    queries of its kind.  [format_beyond] is the interpreter's [format]
    on the templates that are not plain: its result, or the exception
    that it raises (as [Foreign] when the class is none of [exn]). *)
Record Env := {
  wlan_isconnected : nat -> bool;       (* sta_if.isconnected() *)
  wlan_ip : string;                     (* sta_if.ifconfig()[0] *)
  wlan_rssi : Z;                        (* sta_if.status('rssi') *)
  http_get : string -> reply Response;  (* urequests.get(url) *)
  format_beyond : string -> list (string * string) -> result string;
                                        (* template.format( **kwargs) on a
                                           template that is not plain *)
  debug_pin : nat -> Z;                 (* debug.value() *)
  i2c_scan : nat -> list Z;             (* i2c.scan() *)
  sensor_measure : reply unit;          (* am2320.measure() *)
  sensor_read : sensor -> quantity -> reply Q;
  adc_read_u16 : Z;                     (* adc.read_u16() *)
  mqtt_connect : reply unit;            (* client.connect() *)
  mqtt_publish : string -> string -> reply unit;
  mqtt_disconnect : reply unit          (* client.disconnect() *)
}.

(** An argument of a formatted console message: rendered as it is
    ([{}]) or as a fixed-point number ([{:.nf}]). *)
Inductive farg :=
| Plain (v : value)
| Fixed (digits : nat) (v : value).

(** The actions of the program on the outside world. *)
Inductive event :=
| EvPrint (s : string)                      (* print(s) *)
| EvPrintRaw (s : string)                   (* print(s, end='') *)
| EvPrintf (fmt : string) (args : list farg) (* print(fmt.format(args)) *)
| EvPrintException (e : exn)                (* sys.print_exception(e) *)
| EvPin (pin v : Z)                         (* Pin(pin, Pin.OUT).value(v) *)
| EvSleep (seconds : Q)                     (* utime.sleep(seconds) *)
| EvApActive (b : bool)
| EvStaActive (b : bool)
| EvWlanConnect (ssid pass : string)
| EvHttpGet (url : string)
| EvI2CScan
| EvMeasure (s : sensor)
| EvRead (s : sensor) (q : quantity)
| EvAdcAtten
| EvAdcRead
| EvMqttConnect (client_id host : string) (keepalive : Z)
| EvMqttPublish (topic payload : string)
| EvMqttDisconnect
| EvReset                                   (* machine.reset() *)
| EvDeepSleep (ms : Z).                     (* machine.deepsleep(ms) *)

(** The state of a cycle: what was done so far, and how many times each
    repeated query was asked. *)
Record World := {
  trace : list event;
  polls : nat;      (* calls of isconnected() *)
  scans : nat;      (* calls of i2c.scan() *)
  samples : nat     (* reads of the debug pin *)
}.

(** A cold start: no state survives a reset or a deep sleep. *)
Definition boot : World := {| trace := []; polls := 0; scans := 0; samples := 0 |}.

(** The world after the action [e]. *)
Definition logged (e : event) (w : World) : World :=
  {| trace := trace w ++ [e]; polls := polls w; scans := scans w; samples := samples w |}.

(** The world after one more query of each kind. *)
Definition polled (w : World) : World :=
  {| trace := trace w; polls := S (polls w); scans := scans w; samples := samples w |}.

Definition scanned (w : World) : World :=
  {| trace := trace w ++ [EvI2CScan]; polls := polls w;
     scans := S (scans w); samples := samples w |}.

Definition sampled (w : World) : World :=
  {| trace := trace w; polls := polls w; scans := scans w; samples := S (samples w) |}.

(** How the process ends when it does not run to the end of [run]. *)
Inductive power := HardReset | DeepSleep (ms : Z).

Inductive outcome (A : Type) : Type :=
| Ret (a : A)            (* normal completion *)
| Raise (e : exn)        (* an exception is propagating *)
| Stopped (p : power).   (* the processor was reset or put to sleep *)
Arguments Ret {A} a.
Arguments Raise {A} e.
Arguments Stopped {A} p.

(** ** Computations *)

Definition M (A : Type) : Type := World -> outcome A * World.

Definition ret {A} (a : A) : M A := fun w => (Ret a, w).

Definition bind {A B} (m : M A) (f : A -> M B) : M B := fun w =>
  match m w with
  | (Ret a, w') => f a w'
  | (Raise e, w') => (Raise e, w')
  | (Stopped p, w') => (Stopped p, w')
  end.

Declare Scope prog_scope.
Delimit Scope prog_scope with prog.
Bind Scope prog_scope with M.
Notation "x <- m ;; k" := (bind m (fun x => k))
  (at level 100, m at next level, k at level 200, right associativity) : prog_scope.
Notation "m ;; k" := (bind m (fun _ => k))
  (at level 100, k at level 200, right associativity) : prog_scope.
Open Scope prog_scope.

Definition raise {A} (e : exn) : M A := fun w => (Raise e, w).

Definition stop {A} (p : power) : M A := fun w => (Stopped p, w).

(** [try: body  except Exception as exc: handler exc] *)
Definition try_except {A} (body : M A) (handler : exn -> M A) : M A := fun w =>
  match body w with
  | (Raise e, w') => handler e w'
  | r => r
  end.

Definition lift {A} (r : result A) : M A :=
  match r with
  | Ok a => ret a
  | Err e => raise e
  end.

Definition emit (e : event) : M unit := fun w => (Ret tt, logged e w).

(** An action on an external collaborator that may fail: the action is
    recorded, then its failure, if any, is raised. *)
Definition call {A} (e : event) (r : reply A) : M A :=
  emit e ;;
  match r with
  | Done a => ret a
  | Fails x => raise (Foreign x)
  end.

(** A fixed-point replacement field accepts numbers only. *)
Definition farg_ok (a : farg) : bool :=
  match a with
  | Plain _ => true
  | Fixed _ v => is_number v
  end.

(** [print(fmt.format(args))]: the message is formatted, which fails with
    [ValueError] on a fixed-point field given a value that is not a
    number, then printed. *)
Definition printf (fmt : string) (args : list farg) : M unit :=
  if forallb farg_ok args then emit (EvPrintf fmt args) else raise ValueError.

Definition sleep (seconds : Q) : M unit := emit (EvSleep seconds).

(** [for i in range(n): body i], started at [i]. *)
Fixpoint for_range_from (i n : nat) (body : nat -> M unit) : M unit :=
  match n with
  | O => ret tt
  | S n' => body i ;; for_range_from (S i) n' body
  end.

Definition for_range (n : nat) (body : nat -> M unit) : M unit :=
  for_range_from 0 n body.

(** [machine.reset()] and [machine.deepsleep(ms)] do not return. *)
Definition reset : M unit := emit EvReset ;; stop HardReset.

Definition deepsleep (ms : Z) : M unit := emit (EvDeepSleep ms) ;; stop (DeepSleep ms).

(** The record separator of the payload: carriage return, line feed. *)
Definition CRLF : string := String "013"%char (String "010"%char EmptyString).

(** ** The program ([meetstation.py]) *)

Section Station.

Variable cfg : Config.
Variable env : Env.

(** Python's [str()] on the values that are published; its rendering of
    floats is the interpreter's. *)
Variable py_str : value -> string.

(** [sta_if.isconnected()] *)
Definition isconnected : M bool := fun w =>
  (Ret (wlan_isconnected env (polls w)), polled w).

(** [i2c.scan()] *)
Definition scan : M (list Z) := fun w =>
  (Ret (i2c_scan env (scans w)), scanned w).

(** [debug.value()] on the pull-up input [DEBUG_PIN] *)
Definition debug_value : M Z := fun w =>
  (Ret (debug_pin env (samples w)), sampled w).

Definition show_error : M unit :=
  for_range 3 (fun _ =>
    emit (EvPin (LED_PIN cfg) (LED_ON cfg)) ;;
    sleep 0.5 ;;
    emit (EvPin (LED_PIN cfg) (LED_OFF cfg)) ;;
    sleep 0.5).

Definition debug_on : M bool :=
  v <- debug_value ;;
  if (v =? 0)%Z then ret true else ret false.

(** The loop [while not sta_if.isconnected() and tries < MAX_TRIES] of
    [connect_wifi]; [budget] is [MAX_TRIES - tries], which the body
    decreases by one. *)
Fixpoint wait_connected (budget : nat) : M unit :=
  c <- isconnected ;;
  if c then ret tt
  else
    match budget with
    | O => ret tt
    | S budget' =>
        emit (EvPrintRaw ".") ;;
        sleep 1 ;;
        wait_connected budget'
    end.

Definition connect_wifi : M value :=
  emit (EvApActive false) ;;
  c <- isconnected ;;
  (if negb c then
     emit (EvPrint "connecting to WiFi network...") ;;
     emit (EvStaActive true) ;;
     emit (EvWlanConnect (SSID cfg) (PASS cfg)) ;;
     wait_connected (Z.to_nat (MAX_TRIES cfg))
   else ret tt) ;;
  c' <- isconnected ;;
  if c' then
    emit (EvPrint "") ;;
    printf "connected to {} network with ip address {}"
      [Plain (VStr (SSID cfg)); Plain (VStr (wlan_ip env))] ;;
    ret (VInt (wlan_rssi env))
  else
    emit (EvPrint "") ;;
    printf "no connection to {} network" [Plain (VStr (SSID cfg))] ;;
    raise (RuntimeError "WiFi connection failed").

Definition temperature_2_unit (celsius : Q) : Q :=
  if FAHRENHEIT cfg then (celsius * 9 / 5 + 32)%Q
  else celsius.

(** ['F' if config.FAHRENHEIT else 'C'] *)
Definition unit_letter : value := VStr (if FAHRENHEIT cfg then "F" else "C").

(** The webhook url:
    [config.OPENWEATHERMAP_URL.format(lat=..., lon=..., api=...)]. *)
Definition webhook_url : result string :=
  let kwargs := [("lat", OPENWEATHERMAP_LAT cfg); ("lon", OPENWEATHERMAP_LON cfg);
                 ("api", OPENWEATHERMAP_API cfg)] in
  if plain_template (OPENWEATHERMAP_URL cfg)
  then py_format (OPENWEATHERMAP_URL cfg) [] kwargs
  else format_beyond env (OPENWEATHERMAP_URL cfg) kwargs.

Definition get_weather_data : M (gmap string value) :=
  emit (EvPrint "Invoking OpenWeather URL webhook") ;;
  url <- lift webhook_url ;;
  response <- call (EvHttpGet url) (http_get env url) ;;
  (if (status_code response <? 400)%Z then
     emit (EvPrint "Webhook OpenWeather URL success")
   else
     emit (EvPrint "Webhook OpenWeather URL failed") ;;
     raise (RuntimeError "Webhook OpenWeather URL failed")) ;;
  today <- match json response with
          | Done v => ret v
          | Fails x => raise (Foreign x)
          end ;;
  d <- debug_on ;;
  (if d then
     emit (EvPrint "OpenWeather URL data") ;;
     printf "{}" [Plain today]
   else ret tt) ;;
  main <- lift (py_getitem today "main") ;;
  temp <- lift (py_getitem main "temp") ;;
  kelvin <- lift (py_sub_float temp 273.15) ;;
  let ow_temp := temperature_2_unit kelvin in
  main <- lift (py_getitem today "main") ;;
  ow_hum <- lift (py_getitem main "humidity") ;;
  main <- lift (py_getitem today "main") ;;
  ow_pres <- lift (py_getitem main "pressure") ;;
  d <- debug_on ;;
  (if d then
     emit (EvPrint "") ;;
     printf "OpenWeather T: {:.0f} {} - H: {:.0f} % - P: {:.0f} hPa"
       [Fixed 0 (VFloat ow_temp); Plain unit_letter; Fixed 0 ow_hum; Fixed 0 ow_pres]
   else ret tt) ;;
  ret ({[ "ow_temp" := VFloat ow_temp; "ow_hum" := ow_hum; "ow_pres" := ow_pres ]}
          : gmap string value).

Definition get_sensor_readings : M (gmap string value) :=
  emit (EvPrint "Getting sensor readings") ;;
  (* AM2320 temperature and humidity sensor *)
  scan ;;
  found <- scan ;;
  (if bool_decide (92%Z ∉ found) then raise (RuntimeError "Cannot find AM2320 sensor")
   else ret tt) ;;
  call (EvMeasure AM2320) (sensor_measure env) ;;
  t <- call (EvRead AM2320 Temperature) (sensor_read env AM2320 Temperature) ;;
  let am2320_temp := temperature_2_unit t in
  am2320_hum <- call (EvRead AM2320 Humidity) (sensor_read env AM2320 Humidity) ;;
  d <- debug_on ;;
  (if d then
     emit (EvPrint "") ;;
     printf "AM2320      T: {:.0f} {} - H: {:.0f} %"
       [Fixed 0 (VFloat am2320_temp); Plain unit_letter; Fixed 0 (VFloat am2320_hum)]
   else ret tt) ;;
  (* BMP180 temperature, pressure and altitude sensor *)
  found <- scan ;;
  (if bool_decide (119%Z ∉ found) then raise (RuntimeError "Cannot find BMP180 sensor")
   else ret tt) ;;
  t <- call (EvRead BMP180 Temperature) (sensor_read env BMP180 Temperature) ;;
  let bmp180_temp := temperature_2_unit t in
  p <- call (EvRead BMP180 Pressure) (sensor_read env BMP180 Pressure) ;;
  let bmp180_pres := (p / 100)%Q in
  bmp180_alt <- call (EvRead BMP180 Altitude) (sensor_read env BMP180 Altitude) ;;
  d <- debug_on ;;
  (if d then
     printf "BMP180      T: {:.0f} {} - P: {:.0f} hPa - A: {:.0f} m"
       [Fixed 0 (VFloat bmp180_temp); Plain unit_letter;
        Fixed 0 (VFloat bmp180_pres); Fixed 0 (VFloat bmp180_alt)]
   else ret tt) ;;
  (* BH1750 light sensor *)
  found <- scan ;;
  (if bool_decide (35%Z ∉ found) then raise (RuntimeError "Cannot find BH1750 sensor")
   else ret tt) ;;
  bh1750_lum <- call (EvRead BH1750 Luminance) (sensor_read env BH1750 Luminance) ;;
  d <- debug_on ;;
  (if d then printf "BH1750FVI   L: {:.0f} lux" [Fixed 0 (VFloat bh1750_lum)]
   else ret tt) ;;
  (* battery voltage reading *)
  emit EvAdcAtten ;;
  emit EvAdcRead ;;
  let bat_volt := (3.3 * 1.27 * (inject_Z (adc_read_u16 env) / inject_Z (2 ^ 16)))%Q in
  d <- debug_on ;;
  (if d then printf "Battery     V: {:.2f} Volt" [Fixed 2 (VFloat bat_volt)]
   else ret tt) ;;
  ret ({[ "am2320_temp" := VFloat am2320_temp; "am2320_hum" := VFloat am2320_hum;
           "bmp180_temp" := VFloat bmp180_temp; "bmp180_pres" := VFloat bmp180_pres;
           "bmp180_alt" := VFloat bmp180_alt; "bh1750_lum" := VFloat bh1750_lum;
           "bat_volt" := VFloat bat_volt ]} : gmap string value).

(** The two templates of the payload, for influxdb_v2:
    measurement, tag set, space, field set, space, separator. *)
Definition forecasts_template : string :=
  "forecasts,source={},location={} ow_temp={},ow_hum={},ow_pres={} " +:+ CRLF.

Definition actuals_template : string :=
  "actuals,source={},location={} ac_temp={},ac_hum={},ac_pres={},ac_lum={},ac_batv={},ac_rssi={} "
  +:+ CRLF.

(** The payload that [log_readings] constructs from the nine readings. *)
Definition payload (ow_temp ow_hum ow_pres ac_temp ac_hum ac_pres ac_lum ac_batv ac_rssi : value)
    : result string :=
  match
    py_format forecasts_template
      ["OpenWeatherMap"; py_str (VStr (OPENWEATHERMAP_CITY cfg));
       py_str ow_temp; py_str ow_hum; py_str ow_pres] []
  with
  | Err e => Err e
  | Ok forecasts =>
      match
        py_format actuals_template
          [STATION_ID cfg; py_str (VStr (OPENWEATHERMAP_CITY cfg));
           py_str ac_temp; py_str ac_hum; py_str ac_pres; py_str ac_lum;
           py_str ac_batv; py_str ac_rssi] []
      with
      | Err e => Err e
      | Ok actuals => Ok (("" +:+ forecasts) +:+ actuals)
      end
  end.

(** The body of the [try] of [log_readings]. *)
Definition mqtt_session (payload : string) : M unit :=
  call (EvMqttConnect "effevees_weerstation" (MQTT_HOST cfg) 30) (mqtt_connect env) ;;
  call (EvMqttPublish (MQTT_TOPIC cfg) payload) (mqtt_publish env (MQTT_TOPIC cfg) payload) ;;
  call EvMqttDisconnect (mqtt_disconnect env).

Definition log_readings (ow_data sensor_data : gmap string value) (wifi_rssi : value)
    : M unit :=
  emit (EvPrint "Upload readings to MQTT broker") ;;
  ow_temp <- lift (dict_get ow_data "ow_temp") ;;
  ow_hum <- lift (dict_get ow_data "ow_hum") ;;
  ow_pres <- lift (dict_get ow_data "ow_pres") ;;
  ac_temp <- lift (dict_get sensor_data "am2320_temp") ;;
  ac_hum <- lift (dict_get sensor_data "am2320_hum") ;;
  ac_pres <- lift (dict_get sensor_data "bmp180_pres") ;;
  ac_lum <- lift (dict_get sensor_data "bh1750_lum") ;;
  ac_batv <- lift (dict_get sensor_data "bat_volt") ;;
  let ac_rssi := wifi_rssi in
  payload <- lift (payload ow_temp ow_hum ow_pres ac_temp ac_hum ac_pres ac_lum ac_batv ac_rssi) ;;
  try_except (mqtt_session payload)
    (fun exc => emit (EvPrintException exc) ;; show_error) ;;
  d <- debug_on ;;
  if d then printf "MQTT publish : {}" [Plain (VStr payload)] else ret tt.

Definition deepsleep_till_next_cycle : M unit :=
  printf "Going into deepsleep for {} seconds..." [Plain (VInt (INTERVAL cfg))] ;;
  sleep 2 ;;
  deepsleep (INTERVAL cfg * 1000).

(** The four stages inside the [try] of [run]. *)
Definition stages : M unit :=
  wifi_rssi <- connect_wifi ;;
  ow_data <- get_weather_data ;;
  sensor_data <- get_sensor_readings ;;
  log_readings ow_data sensor_data wifi_rssi.

(** The [except Exception] handler of [run]. *)
Definition recover (exc : exn) : M unit :=
  emit (EvPrintException exc) ;;
  show_error ;;
  sleep 5 ;;
  reset.

Definition run : M unit :=
  try_except stages recover ;;
  d <- debug_on ;;
  if negb d then deepsleep_till_next_cycle else ret tt.

End Station.

(** ** Sample configurations and environments *)

(** The shipped configuration with the Fahrenheit preference selected. *)
Definition fahrenheit_config : Config := {|
  STATION_ID := STATION_ID config;
  SCL_PIN := SCL_PIN config;
  SDA_PIN := SDA_PIN config;
  LED_PIN := LED_PIN config;
  LED_ON := LED_ON config;
  LED_OFF := LED_OFF config;
  DEBUG_PIN := DEBUG_PIN config;
  VBAT_PIN := VBAT_PIN config;
  FAHRENHEIT := true;
  INTERVAL := INTERVAL config;
  SSID := SSID config;
  PASS := PASS config;
  MAX_TRIES := MAX_TRIES config;
  OPENWEATHERMAP_API := OPENWEATHERMAP_API config;
  OPENWEATHERMAP_CITY := OPENWEATHERMAP_CITY config;
  OPENWEATHERMAP_LAT := OPENWEATHERMAP_LAT config;
  OPENWEATHERMAP_LON := OPENWEATHERMAP_LON config;
  OPENWEATHERMAP_URL := OPENWEATHERMAP_URL config;
  MQTT_HOST := MQTT_HOST config;
  MQTT_TOPIC := MQTT_TOPIC config;
  MQTT_USER := MQTT_USER config;
  MQTT_PASS := MQTT_PASS config
|}.

(** The shipped configuration with a single closing brace at the end of
    the url template. *)
Definition stray_brace_config : Config := {|
  STATION_ID := STATION_ID config;
  SCL_PIN := SCL_PIN config;
  SDA_PIN := SDA_PIN config;
  LED_PIN := LED_PIN config;
  LED_ON := LED_ON config;
  LED_OFF := LED_OFF config;
  DEBUG_PIN := DEBUG_PIN config;
  VBAT_PIN := VBAT_PIN config;
  FAHRENHEIT := FAHRENHEIT config;
  INTERVAL := INTERVAL config;
  SSID := SSID config;
  PASS := PASS config;
  MAX_TRIES := MAX_TRIES config;
  OPENWEATHERMAP_API := OPENWEATHERMAP_API config;
  OPENWEATHERMAP_CITY := OPENWEATHERMAP_CITY config;
  OPENWEATHERMAP_LAT := OPENWEATHERMAP_LAT config;
  OPENWEATHERMAP_LON := OPENWEATHERMAP_LON config;
  OPENWEATHERMAP_URL := "http://x/{lat}/{lon}/{api}}";
  MQTT_HOST := MQTT_HOST config;
  MQTT_TOPIC := MQTT_TOPIC config;
  MQTT_USER := MQTT_USER config;
  MQTT_PASS := MQTT_PASS config
|}.

(** A stand-in for [str()] with which the model can be run: exact on
    strings, integers, booleans and [None]; a float is shown as the
    fraction that represents it. *)
Definition sample_str (v : value) : string :=
  match v with
  | VNone => "None"
  | VBool b => if b then "True" else "False"
  | VInt z => pretty z
  | VFloat q => pretty (Qnum q) +:+ "/" +:+ pretty (Zpos (Qden q))
  | VStr s => s
  | VList _ => "[...]"
  | VDict _ => "{...}"
  end.

(** A forecast of 283.15 K, 80 %, 1013 hPa. *)
Definition sample_forecast : value :=
  VDict {[ "main" := VDict {[ "temp" := VFloat 283.15;
                              "humidity" := VInt 80;
                              "pressure" := VInt 1013 ]} ]}.

(** The webhook url of the shipped configuration. *)
Definition sample_url : string :=
  "https://api.openweathermap.org/data/2.5/weather?lat=<Your OpenWeather City latitude>&lon=<Your OpenWeather City longitude>&appid=<Your OpenWeather API key>".

Definition sample_response : Response :=
  {| status_code := 200; json := Done sample_forecast |}.

(** Everything works: the network is joined at the third poll, the
    forecast service answers 200, the three sensors are on the bus (the
    AM2320 misses the first scan), every sensor reads 10, the broker
    accepts the message, and the debug pin is high. *)
Definition fair_weather : Env := {|
  wlan_isconnected := fun k => (2 <=? k)%nat;
  wlan_ip := "192.168.1.7";
  wlan_rssi := -61;
  http_get := fun _ => Done sample_response;
  format_beyond := fun _ _ => Err ValueError;
  debug_pin := fun _ => 1%Z;
  i2c_scan := fun k => match k with O => [35; 119]%Z | _ => [35; 92; 119]%Z end;
  sensor_measure := Done tt;
  sensor_read := fun _ _ => Done 10%Q;
  adc_read_u16 := 40000;
  mqtt_connect := Done tt;
  mqtt_publish := fun _ _ => Done tt;
  mqtt_disconnect := Done tt
|}.

(** As [fair_weather], with the debug pin held low. *)
Definition on_the_bench : Env := {|
  wlan_isconnected := wlan_isconnected fair_weather;
  wlan_ip := wlan_ip fair_weather;
  wlan_rssi := wlan_rssi fair_weather;
  http_get := http_get fair_weather;
  format_beyond := format_beyond fair_weather;
  debug_pin := fun _ => 0%Z;
  i2c_scan := i2c_scan fair_weather;
  sensor_measure := sensor_measure fair_weather;
  sensor_read := sensor_read fair_weather;
  adc_read_u16 := adc_read_u16 fair_weather;
  mqtt_connect := mqtt_connect fair_weather;
  mqtt_publish := mqtt_publish fair_weather;
  mqtt_disconnect := mqtt_disconnect fair_weather
|}.

(** As [fair_weather], but the access point is never joined. *)
Definition out_of_range : Env := {|
  wlan_isconnected := fun _ => false;
  wlan_ip := wlan_ip fair_weather;
  wlan_rssi := wlan_rssi fair_weather;
  http_get := http_get fair_weather;
  format_beyond := format_beyond fair_weather;
  debug_pin := debug_pin fair_weather;
  i2c_scan := i2c_scan fair_weather;
  sensor_measure := sensor_measure fair_weather;
  sensor_read := sensor_read fair_weather;
  adc_read_u16 := adc_read_u16 fair_weather;
  mqtt_connect := mqtt_connect fair_weather;
  mqtt_publish := mqtt_publish fair_weather;
  mqtt_disconnect := mqtt_disconnect fair_weather
|}.

(** As [fair_weather], but the forecast service answers [r]. *)
Definition with_forecast (r : reply Response) : Env := {|
  wlan_isconnected := wlan_isconnected fair_weather;
  wlan_ip := wlan_ip fair_weather;
  wlan_rssi := wlan_rssi fair_weather;
  http_get := fun _ => r;
  format_beyond := format_beyond fair_weather;
  debug_pin := debug_pin fair_weather;
  i2c_scan := i2c_scan fair_weather;
  sensor_measure := sensor_measure fair_weather;
  sensor_read := sensor_read fair_weather;
  adc_read_u16 := adc_read_u16 fair_weather;
  mqtt_connect := mqtt_connect fair_weather;
  mqtt_publish := mqtt_publish fair_weather;
  mqtt_disconnect := mqtt_disconnect fair_weather
|}.

(** The forecast service is out of order. *)
Definition error_response : Response :=
  {| status_code := 503; json := Fails (LibExn "ValueError" "syntax error in JSON") |}.

Definition service_down : Env := with_forecast (Done error_response).

(** The forecast service answers 200 with every expected key, but its
    temperature is a string. *)
Definition odd_today : value :=
  VDict {[ "main" := VDict {[ "temp" := VStr "mild";
                              "humidity" := VInt 80;
                              "pressure" := VInt 1013 ]} ]}.

Definition odd_response : Response := {| status_code := 200; json := Done odd_today |}.

Definition odd_forecast : Env := with_forecast (Done odd_response).

(** As [fair_weather], but the broker refuses the connection. *)
Definition broker_down : Env := {|
  wlan_isconnected := wlan_isconnected fair_weather;
  wlan_ip := wlan_ip fair_weather;
  wlan_rssi := wlan_rssi fair_weather;
  http_get := http_get fair_weather;
  format_beyond := format_beyond fair_weather;
  debug_pin := debug_pin fair_weather;
  i2c_scan := i2c_scan fair_weather;
  sensor_measure := sensor_measure fair_weather;
  sensor_read := sensor_read fair_weather;
  adc_read_u16 := adc_read_u16 fair_weather;
  mqtt_connect := Fails (LibExn "OSError" "ECONNREFUSED");
  mqtt_publish := mqtt_publish fair_weather;
  mqtt_disconnect := mqtt_disconnect fair_weather
|}.

(** A forecast set and a reading set. *)
Definition sample_ow_data : gmap string value :=
  {[ "ow_temp" := VFloat 10; "ow_hum" := VInt 80; "ow_pres" := VInt 1013 ]}.

Definition sample_sensor_data : gmap string value :=
  {[ "am2320_temp" := VFloat 10; "am2320_hum" := VFloat 10;
     "bmp180_temp" := VFloat 10; "bmp180_pres" := VFloat 0.1;
     "bmp180_alt" := VFloat 10; "bh1750_lum" := VFloat 10;
     "bat_volt" := VFloat 2.5 ]}.

(** The payload made of [sample_ow_data], [sample_sensor_data] and a
    signal strength of -61. *)
Definition sample_payload : string :=
  match
    payload config sample_str (VFloat 10) (VInt 80) (VInt 1013)
      (VFloat 10) (VFloat 10) (VFloat 0.1) (VFloat 10) (VFloat 2.5) (VInt (-61))
  with
  | Ok pl => pl
  | Err _ => EmptyString
  end.

(** [env] with the answer of the scan of rank [k] replaced by [found]. *)
Definition with_scan (env : Env) (k : nat) (found : list Z) : Env := {|
  wlan_isconnected := wlan_isconnected env;
  wlan_ip := wlan_ip env;
  wlan_rssi := wlan_rssi env;
  http_get := http_get env;
  format_beyond := format_beyond env;
  debug_pin := debug_pin env;
  i2c_scan := fun j => if (j =? k)%nat then found else i2c_scan env j;
  sensor_measure := sensor_measure env;
  sensor_read := sensor_read env;
  adc_read_u16 := adc_read_u16 env;
  mqtt_connect := mqtt_connect env;
  mqtt_publish := mqtt_publish env;
  mqtt_disconnect := mqtt_disconnect env
|}.

(** ** Vocabulary of the properties *)

(** [m] behaves within [P], [Q], [S] and [R]: from any world, every
    action that [m] performs satisfies [P], an exception that [m] raises
    satisfies [Q], a reset or sleep that [m] ends in satisfies [S], and a
    value that [m] returns satisfies [R]. *)
Definition behaves {A} (m : M A) (P : event -> Prop) (Q : exn -> Prop)
    (S : power -> Prop) (R : A -> Prop) : Prop :=
  forall w, exists evs,
    trace (m w).2 = trace w ++ evs /\ Forall P evs /\
    match (m w).1 with
    | Ret a => R a
    | Raise e => Q e
    | Stopped p => S p
    end.

Definition any {X : Type} : X -> Prop := fun _ => True.

Definition none {X : Type} : X -> Prop := fun _ => False.

(** [m'] does what [m] does in every world in which more than [k] scans
    of the bus were made, and the scans made are never forgotten. *)
Definition scan_blind (k : nat) {A} (m m' : M A) : Prop :=
  forall w, k < scans w -> m' w = m w /\ k < scans (m w).2.

(** The parsed response [today] holds [temp], [h] and [p] under the
    keys [main.temp], [main.humidity] and [main.pressure]. *)
Definition forecast_fields (today temp h p : value) : Prop :=
  exists d m,
    today = VDict d /\ d !! "main" = Some (VDict m) /\
    m !! "temp" = Some temp /\ m !! "humidity" = Some h /\ m !! "pressure" = Some p.

(** The expected key [k] is missing from the parsed response [today]. *)
Definition key_missing (today : value) (k : string) : Prop :=
  exists d,
    today = VDict d /\
    ((k = "main" /\ d !! "main" = None)
     \/ (exists m, d !! "main" = Some (VDict m) /\ m !! k = None
                   /\ (k = "temp" \/ k = "humidity" \/ k = "pressure"))).

(** The responses from which [get_weather_data], run from the world [w],
    makes a forecast set: the three fields are there, the temperature is
    a number and, when the debug pin is low at the time of the second
    diagnostic message, so are the humidity and the pressure. *)
Definition accepted (env : Env) (w : World) (today : value) : Prop :=
  exists temp h p t,
    forecast_fields today temp h p /\ to_Q temp = Some t /\
    (debug_pin env (S (samples w)) = 0%Z -> is_number h = true /\ is_number p = true).

(** A failure that is not the failure of an external library. *)
Definition own_failure {A} (o : outcome A) : Prop :=
  exists e, o = Raise e /\ forall x, e <> Foreign x.

(** The failure rule of the forecast stage as the specification words
    it: on an answer that was received and parsed, the stage fails with
    an error of its own exactly when the status code is at least 400 or
    an expected key is missing. *)
Definition fails_exactly_on_status_or_missing_key
    (out : outcome (gmap string value)) (resp : Response) (today : value) : Prop :=
  own_failure out
  <-> ((400 <= status_code resp)%Z \/ exists k, key_missing today k).

(** The first defect that [get_weather_data] meets in the parsed
    response [today] when it takes the three readings out of it, in the
    order of the code: the response, its [main], the temperature and the
    subtraction made on it, the humidity, the pressure; and the exception
    that is raised on it. *)
Inductive first_defect : value -> exn -> Prop :=
| response_not_an_object today :
    (forall d, today <> VDict d) ->
    first_defect today TypeError
| main_missing d :
    d !! "main" = None ->
    first_defect (VDict d) (KeyError "main")
| main_not_an_object d main :
    d !! "main" = Some main -> (forall m, main <> VDict m) ->
    first_defect (VDict d) TypeError
| temp_missing d m :
    d !! "main" = Some (VDict m) -> m !! "temp" = None ->
    first_defect (VDict d) (KeyError "temp")
| temp_not_a_number d m temp :
    d !! "main" = Some (VDict m) -> m !! "temp" = Some temp -> to_Q temp = None ->
    first_defect (VDict d) TypeError
| humidity_missing d m temp t :
    d !! "main" = Some (VDict m) -> m !! "temp" = Some temp -> to_Q temp = Some t ->
    m !! "humidity" = None ->
    first_defect (VDict d) (KeyError "humidity")
| pressure_missing d m temp t h :
    d !! "main" = Some (VDict m) -> m !! "temp" = Some temp -> to_Q temp = Some t ->
    m !! "humidity" = Some h -> m !! "pressure" = None ->
    first_defect (VDict d) (KeyError "pressure").

(** The three readings are in the parsed response [today] and the
    temperature is a number, but the second diagnostic message of
    [get_weather_data], run from the world [w], is printed (the debug pin
    is low) and cannot format the humidity or the pressure as a number. *)
Definition unprintable (env : Env) (w : World) (today : value) : Prop :=
  exists temp h p t,
    forecast_fields today temp h p /\ to_Q temp = Some t /\
    debug_pin env (S (samples w)) = 0%Z /\
    (is_number h = false \/ is_number p = false).

(** The computation ended with a value. *)
Definition returns {A} (x : outcome A * World) : Prop :=
  exists a w', x = (Ret a, w').

(** The number of actions of [evs] that [f] selects. *)
Fixpoint count_events (f : event -> bool) (evs : list event) : nat :=
  match evs with
  | [] => 0
  | e :: evs' => (if f e then 1 else 0) + count_events f evs'
  end.

Definition is_connect_request (e : event) : bool :=
  match e with
  | EvWlanConnect _ _ => true
  | _ => false
  end.

(** One polling attempt of [connect_wifi] is a wait of one second. *)
Definition is_poll_wait (e : event) : bool :=
  match e with
  | EvSleep s => Qeq_bool s 1
  | _ => false
  end.

(** The actions by which the sensor-collection stage shows: its entry
    message and every access to the bus, to a sensor or to the ADC. *)
Definition is_sensing (e : event) : bool :=
  match e with
  | EvPrint s => String.eqb s "Getting sensor readings"
  | EvI2CScan | EvMeasure _ | EvRead _ _ | EvAdcAtten | EvAdcRead => true
  | _ => false
  end.

(** The actions by which the publish stage shows: its entry message and
    every access to the broker. *)
Definition is_publishing (e : event) : bool :=
  match e with
  | EvPrint s => String.eqb s "Upload readings to MQTT broker"
  | EvMqttConnect _ _ _ | EvMqttPublish _ _ | EvMqttDisconnect => true
  | _ => false
  end.

(** The transitions of the power state. *)
Definition is_power_transition (e : event) : bool :=
  match e with
  | EvReset | EvDeepSleep _ => true
  | _ => false
  end.

(** The three pulses of the error signal. *)
Definition error_signal (cfg : Config) : list event :=
  mjoin (replicate 3 [EvPin (LED_PIN cfg) (LED_ON cfg); EvSleep 0.5;
                      EvPin (LED_PIN cfg) (LED_OFF cfg); EvSleep 0.5]).

(** The world after [n] rounds of the polling loop that all find the
    station disconnected, and the check that ends the loop. *)
Definition after_polling (n : nat) (w : World) : World :=
  {| trace := trace w ++ mjoin (replicate n [EvPrintRaw "."; EvSleep 1]);
     polls := S n + polls w; scans := scans w; samples := samples w |}.

(** The readings that [log_readings] takes out of its two dictionaries. *)
Definition read_out (ow_data sensor_data : gmap string value)
    (ow_temp ow_hum ow_pres ac_temp ac_hum ac_pres ac_lum ac_batv : value) : Prop :=
  ow_data !! "ow_temp" = Some ow_temp /\ ow_data !! "ow_hum" = Some ow_hum /\
  ow_data !! "ow_pres" = Some ow_pres /\
  sensor_data !! "am2320_temp" = Some ac_temp /\ sensor_data !! "am2320_hum" = Some ac_hum /\
  sensor_data !! "bmp180_pres" = Some ac_pres /\ sensor_data !! "bh1750_lum" = Some ac_lum /\
  sensor_data !! "bat_volt" = Some ac_batv.

(** The body of the forecasts record, without its separator. *)
Definition forecasts_line (cfg : Config) (py_str : value -> string)
    (ow_temp ow_hum ow_pres : value) : string :=
  "forecasts,source=OpenWeatherMap,location=" +:+ py_str (VStr (OPENWEATHERMAP_CITY cfg))
  +:+ " ow_temp=" +:+ py_str ow_temp
  +:+ ",ow_hum=" +:+ py_str ow_hum
  +:+ ",ow_pres=" +:+ py_str ow_pres +:+ " ".

(** The body of the actuals record, without its separator. *)
Definition actuals_line (cfg : Config) (py_str : value -> string)
    (ac_temp ac_hum ac_pres ac_lum ac_batv ac_rssi : value) : string :=
  "actuals,source=" +:+ STATION_ID cfg
  +:+ ",location=" +:+ py_str (VStr (OPENWEATHERMAP_CITY cfg))
  +:+ " ac_temp=" +:+ py_str ac_temp
  +:+ ",ac_hum=" +:+ py_str ac_hum
  +:+ ",ac_pres=" +:+ py_str ac_pres
  +:+ ",ac_lum=" +:+ py_str ac_lum
  +:+ ",ac_batv=" +:+ py_str ac_batv
  +:+ ",ac_rssi=" +:+ py_str ac_rssi +:+ " ".

(** The string holds a carriage return. *)
Fixpoint has_cr (s : string) : bool :=
  match s with
  | EmptyString => false
  | String c s' => Ascii.eqb c "013"%char || has_cr s'
  end.

(** The number of record separators in a string. *)
Fixpoint count_separators (s : string) : nat :=
  match s with
  | EmptyString => 0
  | String c s' =>
      (if Ascii.eqb c "013"%char then
         match s' with
         | String c' _ => if Ascii.eqb c' "010"%char then 1 else 0
         | EmptyString => 0
         end
       else 0) + count_separators s'
  end.

(** The messages sent to the broker, with their topics, in order. *)
Fixpoint published (evs : list event) : list (string * string) :=
  match evs with
  | [] => []
  | EvMqttPublish topic payload :: evs' => (topic, payload) :: published evs'
  | _ :: evs' => published evs'
  end.

(** What is done to report the exception [e]: it is printed and the
    error signal is given. *)
Definition report (cfg : Config) (e : exn) : list event :=
  EvPrintException e :: error_signal cfg.

(** The actions of the [try] statement of [log_readings] on the payload
    [pl]: the broker session up to its first failure, and the report of
    that failure. *)
Definition session_events (cfg : Config) (env : Env) (pl : string) : list event :=
  EvMqttConnect "effevees_weerstation" (MQTT_HOST cfg) 30 ::
  match mqtt_connect env with
  | Fails x => report cfg (Foreign x)
  | Done _ =>
      EvMqttPublish (MQTT_TOPIC cfg) pl ::
      match mqtt_publish env (MQTT_TOPIC cfg) pl with
      | Fails x => report cfg (Foreign x)
      | Done _ =>
          EvMqttDisconnect ::
          match mqtt_disconnect env with
          | Fails x => report cfg (Foreign x)
          | Done _ => []
          end
      end
  end.

(** The first failure of the broker session on the payload [pl]. *)
Definition session_failure (cfg : Config) (env : Env) (pl : string) : option lib_exn :=
  match mqtt_connect env with
  | Fails x => Some x
  | Done _ =>
      match mqtt_publish env (MQTT_TOPIC cfg) pl with
      | Fails x => Some x
      | Done _ =>
          match mqtt_disconnect env with
          | Fails x => Some x
          | Done _ => None
          end
      end
  end.

(** The world in which [log_readings] ends when it publishes [pl] from
    the world [w]. *)
Definition after_log_readings (cfg : Config) (env : Env) (pl : string) (w : World) : World :=
  {| trace := trace w ++ [EvPrint "Upload readings to MQTT broker"]
              ++ session_events cfg env pl
              ++ (if (debug_pin env (samples w) =? 0)%Z
                  then [EvPrintf "MQTT publish : {}" [Plain (VStr pl)]] else []);
     polls := polls w; scans := scans w; samples := S (samples w) |}.

(** The world in which [run] ends when the stages ended in the world
    [w] with the exception [e]: the exception is reported and, five
    seconds later, the processor is reset. *)
Definition after_recover (cfg : Config) (e : exn) (w : World) : World :=
  {| trace := trace w ++ report cfg e ++ [EvSleep 5; EvReset];
     polls := polls w; scans := scans w; samples := samples w |}.

(** The world in which [run] ends when the stages completed in the world
    [w] and the debug pin is then high. *)
Definition after_deepsleep (cfg : Config) (w : World) : World :=
  {| trace := trace w
              ++ [EvPrintf "Going into deepsleep for {} seconds..."
                    [Plain (VInt (INTERVAL cfg))];
                  EvSleep 2; EvDeepSleep (INTERVAL cfg * 1000)];
     polls := polls w; scans := scans w; samples := S (samples w) |}.

(** The failure rule of the publish stage as the specification words it:
    when a step of the broker session fails, [log_readings] fails and
    the cycle is restarted. *)
Definition publish_failure_restarts (failure : option lib_exn)
    (publish_out run_out : outcome unit) : Prop :=
  forall x, failure = Some x ->
    (exists e, publish_out = Raise e) /\ run_out = Stopped HardReset.

(** The value with which a computation ended, or [default]. *)
Definition returned {A} (x : outcome A * World) (default : A) : A :=
  match x.1 with
  | Ret a => a
  | _ => default
  end.

(** ** Vocabulary of the further properties *)

Definition is_http_request (e : event) : bool :=
  match e with
  | EvHttpGet _ => true
  | _ => false
  end.

Definition is_scan (e : event) : bool :=
  match e with
  | EvI2CScan => true
  | _ => false
  end.

(** The world before the last [isconnected()] of [connect_wifi], run from
    the world [w], when the loop made [k] rounds. *)
Definition before_last_poll (cfg : Config) (env : Env) (k : nat) (w : World) : World :=
  if wlan_isconnected env (polls w) then polled (logged (EvApActive false) w)
  else
    after_polling k
      (logged (EvWlanConnect (SSID cfg) (PASS cfg))
         (logged (EvStaActive true)
            (logged (EvPrint "connecting to WiFi network...")
               (polled (logged (EvApActive false) w))))).

(** The world in which [connect_wifi] ends, from the world [w1] before its
    last [isconnected()]. *)
Definition after_last_poll (cfg : Config) (env : Env) (w1 : World) : World :=
  if wlan_isconnected env (polls w1) then
    logged (EvPrintf "connected to {} network with ip address {}"
              [Plain (VStr (SSID cfg)); Plain (VStr (wlan_ip env))])
      (logged (EvPrint "") (polled w1))
  else
    logged (EvPrintf "no connection to {} network" [Plain (VStr (SSID cfg))])
      (logged (EvPrint "") (polled w1)).

(** The reading set made of the six sensor readings and of the ADC
    count [u]. *)
Definition reading_set (cfg : Config) (t1 h1 t2 p2 a2 l3 : Q) (u : Z)
    : gmap string value :=
  {[ "am2320_temp" := VFloat (temperature_2_unit cfg t1);
     "am2320_hum" := VFloat h1;
     "bmp180_temp" := VFloat (temperature_2_unit cfg t2);
     "bmp180_pres" := VFloat (p2 / 100);
     "bmp180_alt" := VFloat a2;
     "bh1750_lum" := VFloat l3;
     "bat_volt" := VFloat (3.3 * 1.27 * (inject_Z u / inject_Z (2 ^ 16))) ]}.

(** The three sensors are on the bus at the scans that decide on them,
    from the world [w]. *)
Definition sensors_found (env : Env) (w : World) : Prop :=
  92%Z ∈ i2c_scan env (1 + scans w)
  /\ 119%Z ∈ i2c_scan env (2 + scans w)
  /\ 35%Z ∈ i2c_scan env (3 + scans w).

(** The drivers answer the measurement and the six reads. *)
Definition sensors_answer (env : Env) (t1 h1 t2 p2 a2 l3 : Q) : Prop :=
  sensor_measure env = Done tt
  /\ sensor_read env AM2320 Temperature = Done t1
  /\ sensor_read env AM2320 Humidity = Done h1
  /\ sensor_read env BMP180 Temperature = Done t2
  /\ sensor_read env BMP180 Pressure = Done p2
  /\ sensor_read env BMP180 Altitude = Done a2
  /\ sensor_read env BH1750 Luminance = Done l3.

(** One of the three acquisition stages of a cycle started in the world
    [w] raises the exception [e], in the world [w']; the stages before
    it returned. *)
Definition acquisition_fails (cfg : Config) (env : Env) (w : World) (e : exn) (w' : World)
    : Prop :=
  connect_wifi cfg env w = (Raise e, w')
  \/ exists wifi_rssi w1,
       connect_wifi cfg env w = (Ret wifi_rssi, w1)
       /\ (get_weather_data cfg env w1 = (Raise e, w')
           \/ exists ow_data w2,
                get_weather_data cfg env w1 = (Ret ow_data, w2)
                /\ get_sensor_readings cfg env w2 = (Raise e, w')).

(** The three steps of a broker session. *)
Definition is_broker_connect (e : event) : bool :=
  match e with
  | EvMqttConnect _ _ _ => true
  | _ => false
  end.

Definition is_broker_publish (e : event) : bool :=
  match e with
  | EvMqttPublish _ _ => true
  | _ => false
  end.

Definition is_broker_disconnect (e : event) : bool :=
  match e with
  | EvMqttDisconnect => true
  | _ => false
  end.

(** Two reading sets hold the same five readings that are published. *)
Definition same_published_readings (sd sd' : gmap string value) : Prop :=
  sd !! "am2320_temp" = sd' !! "am2320_temp"
  /\ sd !! "am2320_hum" = sd' !! "am2320_hum"
  /\ sd !! "bmp180_pres" = sd' !! "bmp180_pres"
  /\ sd !! "bh1750_lum" = sd' !! "bh1750_lum"
  /\ sd !! "bat_volt" = sd' !! "bat_volt".

(** As [fair_weather], but the measurement of the AM2320 fails. *)
Definition deaf_sensor : Env := {|
  wlan_isconnected := wlan_isconnected fair_weather;
  wlan_ip := wlan_ip fair_weather;
  wlan_rssi := wlan_rssi fair_weather;
  http_get := http_get fair_weather;
  format_beyond := format_beyond fair_weather;
  debug_pin := debug_pin fair_weather;
  i2c_scan := i2c_scan fair_weather;
  sensor_measure := Fails (LibExn "OSError" "[Errno 19] ENODEV");
  sensor_read := sensor_read fair_weather;
  adc_read_u16 := adc_read_u16 fair_weather;
  mqtt_connect := mqtt_connect fair_weather;
  mqtt_publish := mqtt_publish fair_weather;
  mqtt_disconnect := mqtt_disconnect fair_weather
|}.

(** As [fair_weather], but the broker fails to take the message. *)
Definition broker_drops : Env := {|
  wlan_isconnected := wlan_isconnected fair_weather;
  wlan_ip := wlan_ip fair_weather;
  wlan_rssi := wlan_rssi fair_weather;
  http_get := http_get fair_weather;
  format_beyond := format_beyond fair_weather;
  debug_pin := debug_pin fair_weather;
  i2c_scan := i2c_scan fair_weather;
  sensor_measure := sensor_measure fair_weather;
  sensor_read := sensor_read fair_weather;
  adc_read_u16 := adc_read_u16 fair_weather;
  mqtt_connect := mqtt_connect fair_weather;
  mqtt_publish := fun _ _ => Fails (LibExn "OSError" "-1");
  mqtt_disconnect := mqtt_disconnect fair_weather
|}.

(** * Properties *)

(** ** Sequencing *)

Section Basics.

Context {A B : Type}.
Implicit Types (m : M A) (f : A -> M B) (w : World).

Lemma bind_Ret m f w a w' : m w = (Ret a, w') -> bind m f w = f a w'.
Proof. unfold bind. intros ->. reflexivity. Qed.

Lemma bind_Raise m f w e w' : m w = (Raise e, w') -> bind m f w = (Raise e, w').
Proof. unfold bind. intros ->. reflexivity. Qed.

Lemma bind_Stopped m f w p w' : m w = (Stopped p, w') -> bind m f w = (Stopped p, w').
Proof. unfold bind. intros ->. reflexivity. Qed.

Lemma bind_inv_Ret m f w b w'' :
  bind m f w = (Ret b, w'') ->
  exists a w', m w = (Ret a, w') /\ f a w' = (Ret b, w'').
Proof.
  unfold bind. destruct (m w) as [[a|e|p] w'] eqn:E; intros H; try discriminate.
  exists a, w'. split; [reflexivity | exact H].
Qed.

Lemma bind_inv_Raise m f w e w'' :
  bind m f w = (Raise e, w'') ->
  m w = (Raise e, w'') \/ exists a w', m w = (Ret a, w') /\ f a w' = (Raise e, w'').
Proof.
  unfold bind. destruct (m w) as [[a|e'|p] w'] eqn:E; intros H; try discriminate.
  - right. exists a, w'. split; [reflexivity | exact H].
  - left. injection H as -> ->. reflexivity.
Qed.

Lemma bind_assoc {C} m f (g : B -> M C) w :
  bind (bind m f) g w = bind m (fun a => bind (f a) g) w.
Proof. unfold bind. destruct (m w) as [[a|e|p] w']; reflexivity. Qed.

Lemma behaves_bind m f P Q S (R : B -> Prop) (R' : A -> Prop) :
  behaves m P Q S R' -> (forall a, R' a -> behaves (f a) P Q S R) ->
  behaves (bind m f) P Q S R.
Proof.
  intros Hm Hf w. unfold bind.
  destruct (Hm w) as (evs & Ht & HP & Ho).
  destruct (m w) as [[a|e|p] w']; simpl in *;
    try (exists evs; repeat split; assumption).
  destruct (Hf a Ho w') as (evs' & Ht' & HP' & Ho').
  exists (evs ++ evs'). split; [ | split ].
  - rewrite Ht', Ht, app_assoc. reflexivity.
  - apply Forall_app; split; assumption.
  - exact Ho'.
Qed.

Lemma scan_blind_bind k m m' f (f' : A -> M B) :
  scan_blind k m m' -> (forall a, scan_blind k (f a) (f' a)) ->
  scan_blind k (bind m f) (bind m' f').
Proof.
  intros Hm Hf w Hk. unfold bind.
  destruct (Hm w Hk) as [-> Hk'].
  destruct (m w) as [[a|e|p] w']; simpl in *; try (split; [reflexivity | exact Hk']).
  apply Hf, Hk'.
Qed.

End Basics.

Section Behaviour.

Context {A : Type} (P : event -> Prop) (Q : exn -> Prop) (S : power -> Prop)
  (R : A -> Prop).

Lemma behaves_ret (a : A) : R a -> behaves (ret a) P Q S R.
Proof. intros H w. exists []. rewrite app_nil_r. repeat split; [constructor | exact H]. Qed.

Lemma behaves_raise (e : exn) : Q e -> behaves (raise e) P Q S R.
Proof. intros H w. exists []. rewrite app_nil_r. repeat split; [constructor | exact H]. Qed.

Lemma behaves_stop (p : power) : S p -> behaves (stop p) P Q S R.
Proof. intros H w. exists []. rewrite app_nil_r. repeat split; [constructor | exact H]. Qed.

Lemma behaves_lift (r : result A) :
  match r with Ok a => R a | Err e => Q e end -> behaves (lift r) P Q S R.
Proof. destruct r; [apply behaves_ret | apply behaves_raise]. Qed.

Lemma behaves_call (e : event) (r : reply A) :
  P e -> match r with Done a => R a | Fails x => Q (Foreign x) end ->
  behaves (call e r) P Q S R.
Proof.
  intros He Hr w. exists [e]. unfold call, bind, emit. simpl.
  destruct r; simpl; repeat split; try (repeat constructor; exact He); exact Hr.
Qed.

Lemma behaves_try_except (body : M A) (handler : exn -> M A) (Q' : exn -> Prop) :
  behaves body P Q' S R -> (forall e, Q' e -> behaves (handler e) P Q S R) ->
  behaves (try_except body handler) P Q S R.
Proof.
  intros Hb Hh w. unfold try_except.
  destruct (Hb w) as (evs & Ht & HP & Ho).
  destruct (body w) as [[a|e|p] w']; simpl in *;
    try (exists evs; repeat split; assumption).
  destruct (Hh e Ho w') as (evs' & Ht' & HP' & Ho').
  exists (evs ++ evs'). split; [ | split ].
  - rewrite Ht', Ht, app_assoc. reflexivity.
  - apply Forall_app; split; assumption.
  - exact Ho'.
Qed.

End Behaviour.

Section BehaviourOfPrimitives.

Context (P : event -> Prop) (Q : exn -> Prop) (S : power -> Prop).

Lemma behaves_emit (e : event) (R : unit -> Prop) : P e -> R tt -> behaves (emit e) P Q S R.
Proof. intros He Hr w. exists [e]. repeat split; [repeat constructor; exact He | exact Hr]. Qed.

Lemma behaves_printf fmt args (R : unit -> Prop) :
  (if forallb farg_ok args then P (EvPrintf fmt args) /\ R tt else Q ValueError) ->
  behaves (printf fmt args) P Q S R.
Proof.
  unfold printf. destruct (forallb farg_ok args).
  - intros [He Hr]. apply behaves_emit; assumption.
  - apply behaves_raise.
Qed.

Lemma behaves_for_range_from (body : nat -> M unit) n :
  (forall i, behaves (body i) P Q S any) ->
  forall i, behaves (for_range_from i n body) P Q S any.
Proof.
  intros Hb. induction n as [|n IH]; intros i; simpl.
  - apply behaves_ret. exact I.
  - eapply behaves_bind; [apply Hb | intros _ _; apply IH].
Qed.

Lemma behaves_isconnected env : behaves (isconnected env) P Q S any.
Proof. intros w. exists []. rewrite app_nil_r. repeat split; constructor. Qed.

Lemma behaves_debug_on env : behaves (debug_on env) P Q S any.
Proof.
  intros w. exists []. rewrite app_nil_r. unfold debug_on, bind, debug_value. simpl.
  destruct (_ =? 0)%Z; repeat split; constructor.
Qed.

Lemma behaves_scan env : P EvI2CScan -> behaves (scan env) P Q S any.
Proof.
  intros H w. exists [EvI2CScan]. repeat split. repeat constructor. exact H.
Qed.

Lemma behaves_wait_connected env n :
  P (EvPrintRaw ".") -> P (EvSleep 1) -> behaves (wait_connected env n) P Q S any.
Proof.
  intros Hdot Hsleep. induction n as [|n IH]; cbn [wait_connected].
  - eapply behaves_bind; [apply behaves_isconnected | ].
    intros c _. destruct c; apply behaves_ret; exact I.
  - eapply behaves_bind; [apply behaves_isconnected | ].
    intros c _. destruct c; [apply behaves_ret; exact I | ].
    eapply (behaves_bind _ _ _ _ _ _ any);
      [apply behaves_emit; [exact Hdot | exact I] | intros _ _].
    eapply (behaves_bind _ _ _ _ _ _ any);
      [apply behaves_emit; [exact Hsleep | exact I] | intros _ _].
    exact IH.
Qed.

End BehaviourOfPrimitives.

(** Discharges [behaves m P Q S R] for a program [m] built from the
    primitives; what is left are the conditions on the actions, the
    exceptions and the values of [m]. *)
Ltac behaves_step :=
  lazymatch goal with
  | |- behaves (bind _ _) _ _ _ _ => eapply (behaves_bind _ _ _ _ _ _ any); [ | intros ? _ ]
  | |- behaves (ret _) _ _ _ _ => apply behaves_ret
  | |- behaves (raise _) _ _ _ _ => apply behaves_raise
  | |- behaves (stop _) _ _ _ _ => apply behaves_stop
  | |- behaves (lift _) _ _ _ _ => apply behaves_lift
  | |- behaves (emit _) _ _ _ _ => apply behaves_emit
  | |- behaves (sleep _) _ _ _ _ => apply behaves_emit
  | |- behaves (call _ _) _ _ _ _ => apply behaves_call
  | |- behaves (printf _ _) _ _ _ _ => apply behaves_printf
  | |- behaves (isconnected _) _ _ _ _ => apply behaves_isconnected
  | |- behaves (debug_on _) _ _ _ _ => apply behaves_debug_on
  | |- behaves (scan _) _ _ _ _ => apply behaves_scan
  | |- behaves (for_range _ _) _ _ _ _ => apply behaves_for_range_from; intros ?
  | |- behaves (wait_connected _ _) _ _ _ _ => apply behaves_wait_connected
  | |- behaves (try_except _ _) _ _ _ _ =>
      eapply (behaves_try_except _ _ _ _ _ _ any); [ | intros ? _ ]
  | |- behaves (show_error _) _ _ _ _ => unfold show_error
  | |- behaves reset _ _ _ _ => unfold reset
  | |- behaves (deepsleep _) _ _ _ _ => unfold deepsleep
  | |- behaves (deepsleep_till_next_cycle _) _ _ _ _ => unfold deepsleep_till_next_cycle
  | |- behaves (recover _ _) _ _ _ _ => unfold recover
  | |- behaves (mqtt_session _ _ _) _ _ _ _ => unfold mqtt_session
  | |- behaves (connect_wifi _ _) _ _ _ _ => unfold connect_wifi
  | |- behaves (get_weather_data _ _) _ _ _ _ => unfold get_weather_data
  | |- behaves (get_sensor_readings _ _) _ _ _ _ => unfold get_sensor_readings
  | |- behaves (log_readings _ _ _ _ _ _) _ _ _ _ => unfold log_readings
  | |- behaves (stages _ _ _) _ _ _ _ => unfold stages
  | |- behaves (if ?b then _ else _) _ _ _ _ => destruct b
  | |- behaves (match ?x with _ => _ end) _ _ _ _ => destruct x
  end.

Ltac behaves_side :=
  lazymatch goal with
  | |- any _ => exact I
  | |- True => exact I
  | |- _ /\ _ => split
  | |- _ <> _ => discriminate
  | |- _ = _ => reflexivity
  | |- match ?x with _ => _ end => destruct x
  | |- if ?x then _ else _ => destruct x
  end.

Ltac behaves_auto := repeat behaves_step; repeat behaves_side.

(** ** Programs that do not look at an early scan *)

Lemma scan_blind_quiet k {A} (m : M A) :
  (forall w, scans (m w).2 = scans w) -> scan_blind k m m.
Proof. intros H w Hk. rewrite H. split; [reflexivity | exact Hk]. Qed.

Lemma scan_blind_scan k env found : scan_blind k (scan env) (scan (with_scan env k found)).
Proof.
  intros w Hk. unfold scan. simpl. split; [ | lia ].
  destruct (Nat.eqb_spec (scans w) k) as [E|_]; [lia | reflexivity].
Qed.

Lemma scans_call {A} (e : event) (r : reply A) w : scans (call e r w).2 = scans w.
Proof. unfold call, bind, emit. simpl. destruct r; reflexivity. Qed.

Lemma scans_printf fmt args w : scans (printf fmt args w).2 = scans w.
Proof. unfold printf. destruct (forallb farg_ok args); reflexivity. Qed.

Lemma scans_debug_on env w : scans (debug_on env w).2 = scans w.
Proof. unfold debug_on, bind, debug_value. simpl. destruct (_ =? 0)%Z; reflexivity. Qed.

Ltac scan_blind_step :=
  lazymatch goal with
  | |- scan_blind _ (bind _ _) _ => apply scan_blind_bind; [ | intros ? ]
  | |- scan_blind _ (scan _) _ => apply scan_blind_scan
  | |- scan_blind _ (call _ _) _ => apply scan_blind_quiet, scans_call
  | |- scan_blind _ (printf _ _) _ => apply scan_blind_quiet, scans_printf
  | |- scan_blind _ (debug_on _) _ => apply scan_blind_quiet, scans_debug_on
  | |- scan_blind _ (if ?b then _ else _) _ => destruct b
  | |- scan_blind _ _ _ => apply scan_blind_quiet; reflexivity
  end.

(** ** Unit conversion *)

(** C7. [temperature_2_unit] is a function of the configuration and of
    its argument alone (it neither reads nor changes the world, and it
    has a value for every input): with the Fahrenheit preference it is
    [c * 9 / 5 + 32], so that 0 is mapped to 32 and 100 to 212; without
    it, it is the identity. *)
Theorem temperature_2_unit_spec (cfg : Config) (c : Q) :
  (FAHRENHEIT cfg = true ->
     temperature_2_unit cfg c = (c * 9 / 5 + 32)%Q
     /\ (temperature_2_unit cfg 0 == 32)%Q
     /\ (temperature_2_unit cfg 100 == 212)%Q)
  /\ (FAHRENHEIT cfg = false -> temperature_2_unit cfg c = c).
Proof.
  unfold temperature_2_unit. split; intros ->.
  - split; [reflexivity | split; reflexivity].
  - reflexivity.
Qed.

Lemma temperature_2_unit_spec_witness :
  (FAHRENHEIT fahrenheit_config = true
   /\ temperature_2_unit fahrenheit_config 37 = (37 * 9 / 5 + 32)%Q
   /\ (temperature_2_unit fahrenheit_config 0 == 32)%Q
   /\ (temperature_2_unit fahrenheit_config 100 == 212)%Q)
  /\ (FAHRENHEIT config = false /\ temperature_2_unit config 37 = 37%Q).
Proof.
  split.
  - split; [reflexivity | ].
    apply (temperature_2_unit_spec fahrenheit_config 37). reflexivity.
  - split; [reflexivity | ].
    apply (temperature_2_unit_spec config 37). reflexivity.
Defined.

(** ** Joining the network *)

Lemma count_events_app f evs evs' :
  count_events f (evs ++ evs') = count_events f evs + count_events f evs'.
Proof. induction evs as [|e evs IH]; simpl; [reflexivity | rewrite IH; lia]. Qed.

Lemma count_events_rounds f (round : list event) n :
  count_events f (mjoin (replicate n round)) = n * count_events f round.
Proof.
  induction n as [|n IH]; simpl; [reflexivity | ].
  rewrite count_events_app, IH. reflexivity.
Qed.

Lemma wait_connected_in_vain env :
  (forall k, wlan_isconnected env k = false) ->
  forall n w, wait_connected env n w = (Ret tt, after_polling n w).
Proof.
  intros Hoff. induction n as [|n IH]; intros w.
  - unfold wait_connected, bind, isconnected. rewrite Hoff.
    unfold ret, after_polling, polled. simpl. rewrite app_nil_r. reflexivity.
  - cbn [wait_connected]. unfold bind at 1. unfold isconnected at 1. rewrite Hoff.
    unfold sleep. erewrite !bind_Ret; [ | reflexivity | reflexivity ].
    rewrite IH. unfold after_polling, logged, polled. simpl.
    f_equal. f_equal; [ | lia ].
    rewrite <- !app_assoc. reflexivity.
Qed.

(** C3. When [isconnected()] never answers true, [connect_wifi] issues
    one connect request, waits one second [MAX_TRIES] times (no time when
    [MAX_TRIES] is not positive), neither fewer nor more, and fails with
    [RuntimeError('WiFi connection failed')]. *)
Theorem connect_wifi_gives_up (cfg : Config) (env : Env) (w : World) :
  (forall k, wlan_isconnected env k = false) ->
  exists w' evs,
    connect_wifi cfg env w = (Raise (RuntimeError "WiFi connection failed"), w')
    /\ trace w' = trace w ++ evs
    /\ evs = [EvApActive false; EvPrint "connecting to WiFi network...";
              EvStaActive true; EvWlanConnect (SSID cfg) (PASS cfg)]
             ++ mjoin (replicate (Z.to_nat (MAX_TRIES cfg)) [EvPrintRaw "."; EvSleep 1])
             ++ [EvPrint ""; EvPrintf "no connection to {} network" [Plain (VStr (SSID cfg))]]
    /\ count_events is_connect_request evs = 1
    /\ count_events is_poll_wait evs = Z.to_nat (MAX_TRIES cfg).
Proof.
  intros Hoff.
  eexists _, _. split; [ | split; [ | split; [reflexivity | ] ] ].
  - unfold connect_wifi.
    erewrite bind_Ret; [ | reflexivity ].
    erewrite bind_Ret; [ | unfold isconnected; rewrite Hoff; reflexivity ].
    simpl negb. cbv iota.
    erewrite bind_Ret; cycle 1.
    { erewrite !bind_Ret; [ | reflexivity | reflexivity | reflexivity ].
      apply wait_connected_in_vain, Hoff. }
    erewrite bind_Ret; [ | unfold isconnected; rewrite Hoff; reflexivity ].
    cbv iota.
    erewrite bind_Ret; [ | reflexivity ].
    erewrite bind_Ret; [ | reflexivity ].
    reflexivity.
  - simpl. rewrite <- !app_assoc. reflexivity.
  - split.
    + rewrite !count_events_app, count_events_rounds. simpl. lia.
    + rewrite !count_events_app, count_events_rounds. simpl. lia.
Qed.

Lemma connect_wifi_gives_up_witness :
  exists w' evs,
    connect_wifi config out_of_range boot = (Raise (RuntimeError "WiFi connection failed"), w')
    /\ trace w' = trace boot ++ evs
    /\ evs = [EvApActive false; EvPrint "connecting to WiFi network...";
              EvStaActive true; EvWlanConnect (SSID config) (PASS config)]
             ++ mjoin (replicate (Z.to_nat (MAX_TRIES config)) [EvPrintRaw "."; EvSleep 1])
             ++ [EvPrint ""; EvPrintf "no connection to {} network" [Plain (VStr (SSID config))]]
    /\ count_events is_connect_request evs = 1
    /\ count_events is_poll_wait evs = Z.to_nat (MAX_TRIES config).
Proof.
  apply (connect_wifi_gives_up config out_of_range boot).
  intros k. reflexivity.
Defined.

(** ** Collecting the sensor readings *)

(** The answer of the first scan of the bus has no influence on what
    [get_sensor_readings] does. *)
Lemma first_scan_is_discarded cfg env w found :
  get_sensor_readings cfg (with_scan env (scans w) found) w = get_sensor_readings cfg env w.
Proof.
  unfold get_sensor_readings.
  do 2 (erewrite bind_Ret; [ | reflexivity ]). symmetry.
  do 2 (erewrite bind_Ret; [ | reflexivity ]). symmetry.
  lazymatch goal with
  | |- ?m' ?w2 = ?m ?w2 =>
      enough (scan_blind (scans w) m m') as H by (apply H; simpl; lia)
  end.
  repeat scan_blind_step.
Qed.

Lemma debug_on_eq env w :
  debug_on env w = (Ret (debug_pin env (samples w) =? 0)%Z, sampled w).
Proof. unfold debug_on, bind, debug_value. destruct (_ =? 0)%Z; reflexivity. Qed.

(** Runs a program on a world, step by step, as far as the answers of
    the environment are known. *)
Ltac run_step :=
  first
    [ erewrite bind_Ret; [ | first [ reflexivity | apply debug_on_eq ] ]
    | erewrite bind_Raise; [ | reflexivity ]
    | erewrite bind_Stopped; [ | reflexivity ] ].

(** [get_sensor_readings] up to the presence check of the AM2320. *)
Lemma get_sensor_readings_am2320_absent cfg env w :
  92%Z ∉ i2c_scan env (S (scans w)) ->
  get_sensor_readings cfg env w
  = (Raise (RuntimeError "Cannot find AM2320 sensor"),
     scanned (scanned (logged (EvPrint "Getting sensor readings") w))).
Proof.
  intros Habsent. unfold get_sensor_readings.
  do 3 run_step. simpl scans.
  rewrite bool_decide_eq_true_2 by exact Habsent.
  run_step. reflexivity.
Qed.

Lemma get_sensor_readings_am2320_present cfg env w :
  92%Z ∈ i2c_scan env (S (scans w)) ->
  exists rest : M (gmap string value),
    get_sensor_readings cfg env w
    = rest (logged (EvMeasure AM2320)
              (scanned (scanned (logged (EvPrint "Getting sensor readings") w))))
    /\ behaves rest any (fun e => e <> RuntimeError "Cannot find AM2320 sensor") any any.
Proof.
  intros Hpresent. eexists. split.
  - unfold get_sensor_readings.
    do 3 run_step. simpl scans.
    rewrite bool_decide_eq_false_2 by (intros H; exact (H Hpresent)).
    run_step. unfold call at 1. rewrite bind_assoc.
    run_step. reflexivity.
  - behaves_auto.
Qed.

(** With the three sensors on the bus and answering, the collection
    returns a reading set. *)
Lemma get_sensor_readings_returns cfg env w :
  92%Z ∈ i2c_scan env (1 + scans w) ->
  119%Z ∈ i2c_scan env (2 + scans w) ->
  35%Z ∈ i2c_scan env (3 + scans w) ->
  sensor_measure env = Done tt ->
  (forall s q, exists v, sensor_read env s q = Done v) ->
  returns (get_sensor_readings cfg env w).
Proof.
  intros H92 H119 H35 Hmeasure Hread.
  unfold get_sensor_readings. rewrite Hmeasure.
  destruct (Hread AM2320 Temperature) as [t1 ->].
  destruct (Hread AM2320 Humidity) as [h1 ->].
  destruct (Hread BMP180 Temperature) as [t2 ->].
  destruct (Hread BMP180 Pressure) as [p2 ->].
  destruct (Hread BMP180 Altitude) as [a2 ->].
  destruct (Hread BH1750 Luminance) as [l3 ->].
  repeat first
    [ run_step
    | progress cbn [scans scanned logged sampled]
    | rewrite bool_decide_eq_false_2 by (intros Hn; apply Hn; assumption)
    | match goal with
      | |- context [(?x =? 0)%Z] => destruct (x =? 0)%Z
      end ].
  all: eexists _, _; reflexivity.
Qed.

(** C4. In [get_sensor_readings] the answer of the first scan of the bus
    is discarded and the second scan decides on the AM2320:
    [RuntimeError('Cannot find AM2320 sensor')] is raised exactly when
    the second scan does not report address 92; replacing the answer of
    the first scan by any other changes nothing; and when the first scan
    misses the sensor and the second reports it, the collection goes on
    to the measurement and, with the other collaborators answering,
    returns a reading set. *)
Theorem am2320_second_probe_is_authoritative (cfg : Config) (env : Env) (w : World) :
  ((get_sensor_readings cfg env w).1 = Raise (RuntimeError "Cannot find AM2320 sensor")
   <-> 92%Z ∉ i2c_scan env (1 + scans w))
  /\ (forall found,
        get_sensor_readings cfg (with_scan env (scans w) found) w
        = get_sensor_readings cfg env w)
  /\ (92%Z ∉ i2c_scan env (scans w) ->
      92%Z ∈ i2c_scan env (1 + scans w) ->
      (exists evs,
         trace (get_sensor_readings cfg env w).2
         = trace w ++ [EvPrint "Getting sensor readings"; EvI2CScan; EvI2CScan;
                       EvMeasure AM2320] ++ evs)
      /\ (119%Z ∈ i2c_scan env (2 + scans w) ->
          35%Z ∈ i2c_scan env (3 + scans w) ->
          sensor_measure env = Done tt ->
          (forall s q, exists v, sensor_read env s q = Done v) ->
          returns (get_sensor_readings cfg env w))).
Proof.
  split; [ | split ].
  - split.
    + intros Hraise.
      destruct (decide (92%Z ∈ i2c_scan env (1 + scans w))) as [Hin|Hout]; [ | exact Hout ].
      exfalso.
      destruct (get_sensor_readings_am2320_present cfg env w Hin) as (rest & Heq & Hrest).
      rewrite Heq in Hraise.
      destruct (Hrest (logged (EvMeasure AM2320)
                  (scanned (scanned (logged (EvPrint "Getting sensor readings") w)))))
        as (evs & _ & _ & Ho).
      rewrite Hraise in Ho. exact (Ho eq_refl).
    + intros Hout. rewrite get_sensor_readings_am2320_absent by exact Hout. reflexivity.
  - intros found. apply first_scan_is_discarded.
  - intros _ Hin. split.
    + destruct (get_sensor_readings_am2320_present cfg env w Hin) as (rest & Heq & Hrest).
      destruct (Hrest (logged (EvMeasure AM2320)
                  (scanned (scanned (logged (EvPrint "Getting sensor readings") w)))))
        as (evs & Ht & _ & _).
      exists evs. rewrite Heq, Ht. simpl. rewrite <- !app_assoc. reflexivity.
    + intros H119 H35 Hmeasure Hread.
      apply get_sensor_readings_returns; assumption.
Qed.

Lemma am2320_second_probe_is_authoritative_witness :
  (92%Z ∉ i2c_scan fair_weather (scans boot))
  /\ (92%Z ∈ i2c_scan fair_weather (1 + scans boot))
  /\ (exists evs,
        trace (get_sensor_readings config fair_weather boot).2
        = trace boot ++ [EvPrint "Getting sensor readings"; EvI2CScan; EvI2CScan;
                         EvMeasure AM2320] ++ evs)
  /\ returns (get_sensor_readings config fair_weather boot).
Proof.
  assert (H0 : 92%Z ∉ i2c_scan fair_weather (scans boot)) by compute_done.
  assert (H1 : 92%Z ∈ i2c_scan fair_weather (1 + scans boot)) by compute_done.
  destruct (am2320_second_probe_is_authoritative config fair_weather boot)
    as (_ & _ & H).
  destruct (H H0 H1) as [Htrace Hreturns].
  split; [exact H0 | split; [exact H1 | split; [exact Htrace | ] ] ].
  apply Hreturns.
  - compute_done.
  - compute_done.
  - reflexivity.
  - intros s q. exists 10%Q. reflexivity.
Defined.

(** ** Reading a run backwards *)

Lemma lift_inv_Ret {A} (r : result A) w a w' :
  lift r w = (Ret a, w') -> r = Ok a /\ w' = w.
Proof. destruct r; simpl; intros H; inversion H; subst; split; reflexivity. Qed.

Lemma call_inv_Ret {A} (e : event) (r : reply A) w a w' :
  call e r w = (Ret a, w') -> r = Done a /\ w' = logged e w.
Proof.
  unfold call, bind, emit. destruct r; simpl; intros H; inversion H; subst.
  split; reflexivity.
Qed.

Lemma printf_inv_Ret fmt args w u w' :
  printf fmt args w = (Ret u, w') ->
  forallb farg_ok args = true /\ w' = logged (EvPrintf fmt args) w.
Proof.
  unfold printf. destruct (forallb farg_ok args); simpl; intros H; inversion H; subst.
  split; reflexivity.
Qed.

(** From a run of a program that ended with a value, the runs of its
    parts. *)
Ltac inv_run H :=
  lazymatch type of H with
  | bind _ _ _ = (Ret _, _) =>
      let H1 := fresh "Hrun" in
      apply bind_inv_Ret in H as (? & ? & H1 & H); inv_run H1; inv_run H
  | ret _ _ = (Ret _, _) => injection H as ? ?; subst
  | emit _ _ = (Ret _, _) => injection H as ?; subst
  | raise _ _ = (Ret _, _) => discriminate H
  | lift _ _ = (Ret _, _) => apply lift_inv_Ret in H as [? ?]; subst
  | call _ _ _ = (Ret _, _) => apply call_inv_Ret in H as [? ?]; subst
  | printf _ _ _ = (Ret _, _) => apply printf_inv_Ret in H as [? ?]; subst
  | debug_on _ _ = (Ret _, _) => rewrite debug_on_eq in H; injection H as ? ?; subst
  | (if ?b then _ else _) _ = (Ret _, _) => destruct b eqn:?; inv_run H
  | (match ?x with _ => _ end) _ = (Ret _, _) => destruct x eqn:?; inv_run H
  | _ => idtac
  end.

Lemma lift_inv_Raise {A} (r : result A) w e w' :
  lift r w = (Raise e, w') -> r = Err e /\ w' = w.
Proof. destruct r; simpl; intros H; inversion H; subst; split; reflexivity. Qed.

Lemma call_inv_Raise {A} (ev : event) (r : reply A) w e w' :
  call ev r w = (Raise e, w') -> exists x, r = Fails x /\ e = Foreign x /\ w' = logged ev w.
Proof.
  unfold call, bind, emit. destruct r as [a|x]; simpl; intros H; inversion H; subst.
  exists x. repeat split.
Qed.

Lemma printf_inv_Raise fmt args w e w' :
  printf fmt args w = (Raise e, w') ->
  forallb farg_ok args = false /\ e = ValueError /\ w' = w.
Proof.
  unfold printf. destruct (forallb farg_ok args); simpl; intros H; inversion H; subst.
  repeat split.
Qed.

(** From a run of a program that ended with an exception, the runs of
    its parts up to the one that raised it. *)
Ltac inv_raise H :=
  lazymatch type of H with
  | bind _ _ _ = (Raise _, _) =>
      let H1 := fresh "Hrun" in
      apply bind_inv_Raise in H as [H | (? & ? & H1 & H)];
      [ inv_raise H | inv_run H1; inv_raise H ]
  | ret _ _ = (Raise _, _) => discriminate H
  | emit _ _ = (Raise _, _) => discriminate H
  | raise _ _ = (Raise _, _) => injection H as ? ?; subst
  | lift _ _ = (Raise _, _) => apply lift_inv_Raise in H as [? ?]; subst
  | call _ _ _ = (Raise _, _) => apply call_inv_Raise in H as (? & ? & ? & ?); subst
  | printf _ _ _ = (Raise _, _) => apply printf_inv_Raise in H as (? & ? & ?); subst
  | debug_on _ _ = (Raise _, _) => rewrite debug_on_eq in H; discriminate H
  | (if ?b then _ else _) _ = (Raise _, _) => destruct b eqn:?; inv_raise H
  | (match ?x with _ => _ end) _ = (Raise _, _) => destruct x eqn:?; inv_raise H
  | _ => idtac
  end.

(** ** Fetching the forecast *)

Lemma py_getitem_inv v k x :
  py_getitem v k = Ok x -> exists d, v = VDict d /\ d !! k = Some x.
Proof.
  destruct v; simpl; try discriminate.
  destruct (d !! k) eqn:E; intros H; inversion H; subst. eauto.
Qed.

Lemma py_sub_float_inv v c q :
  py_sub_float v c = Ok q -> exists t, to_Q v = Some t /\ q = (t - c)%Q.
Proof.
  unfold py_sub_float. destruct (to_Q v) eqn:E; intros H; inversion H; subst. eauto.
Qed.

Lemma py_getitem_inv_Err v k e :
  py_getitem v k = Err e -> e = KeyError k \/ e = TypeError.
Proof.
  destruct v; simpl; try (intros H; inversion H; right; reflexivity).
  destruct (d !! k); intros H; inversion H. left. reflexivity.
Qed.

Lemma py_sub_float_inv_Err v c e :
  py_sub_float v c = Err e -> e = TypeError /\ to_Q v = None.
Proof.
  unfold py_sub_float. destruct (to_Q v); intros H; inversion H. split; reflexivity.
Qed.

(** When [get_weather_data] returns a forecast set, and which. *)
Lemma get_weather_data_Ret_iff cfg env w d :
  (get_weather_data cfg env w).1 = Ret d
  <-> exists url resp today temp h p t,
        webhook_url cfg env = Ok url /\ http_get env url = Done resp /\
        (status_code resp < 400)%Z /\ json resp = Done today /\
        forecast_fields today temp h p /\ to_Q temp = Some t /\
        (debug_pin env (S (samples w)) = 0%Z -> is_number h = true /\ is_number p = true) /\
        d = {[ "ow_temp" := VFloat (temperature_2_unit cfg (t - 273.15));
               "ow_hum" := h; "ow_pres" := p ]}.
Proof.
  split.
  - destruct (get_weather_data cfg env w) as [o w'] eqn:H. simpl. intros ->.
    unfold get_weather_data in H. inv_run H.
    all: repeat match goal with
           | H : py_getitem _ _ = Ok _ |- _ =>
               apply py_getitem_inv in H as (? & ? & ?); simplify_eq
           | H : py_sub_float _ _ = Ok _ |- _ =>
               apply py_sub_float_inv in H as (? & ? & ?); simplify_eq
           end.
    all: eexists _, _, _, _, _, _, _.
    all: repeat split; try eassumption; try reflexivity; try lia.
    all: try (eexists _, _; repeat split; eassumption).
    all: simpl in *;
      repeat match goal with
        | H : _ && _ = true |- _ => apply andb_true_iff in H as [? ?]
        end; assumption.
  - intros (url & resp & today & temp & h & p & t & Hurl & Hget & Hstatus & Hjson
            & (dd & m & -> & Hmain & Htemp & Hhum & Hpres) & Hnum & Hdebug & ->).
    unfold get_weather_data. rewrite Hurl.
    do 2 run_step. rewrite Hget.
    run_step.
    rewrite (proj2 (Z.ltb_lt _ _) Hstatus).
    run_step. rewrite Hjson.
    do 2 run_step.
    assert (Hrest : forall w1, samples w1 = S (samples w) ->
      ((main <- lift (py_getitem (VDict dd) "main");;
        temp0 <- lift (py_getitem main "temp");;
        kelvin <- lift (py_sub_float temp0 273.15);;
        main0 <- lift (py_getitem (VDict dd) "main");;
        ow_hum <- lift (py_getitem main0 "humidity");;
        main1 <- lift (py_getitem (VDict dd) "main");;
        ow_pres <- lift (py_getitem main1 "pressure");;
        d0 <- debug_on env;;
        (if d0
         then
          emit (EvPrint "");;
          printf "OpenWeather T: {:.0f} {} - H: {:.0f} % - P: {:.0f} hPa"
            [Fixed 0 (VFloat (temperature_2_unit cfg kelvin));
             Plain (unit_letter cfg); Fixed 0 ow_hum; Fixed 0 ow_pres]
         else ret ());;
        ret ({["ow_temp" := VFloat (temperature_2_unit cfg kelvin);
               "ow_hum" := ow_hum; "ow_pres" := ow_pres]} : gmap string value)) w1).1
      = Ret {["ow_temp" := VFloat (temperature_2_unit cfg (t - 273.15));
              "ow_hum" := h; "ow_pres" := p]}).
    { intros w1 Hw1.
      do 2 (simpl py_getitem; rewrite ?Hmain, ?Htemp; run_step).
      unfold py_sub_float. rewrite Hnum. run_step.
      do 4 (simpl py_getitem; rewrite ?Hmain, ?Hhum, ?Hpres; run_step).
      run_step. rewrite Hw1.
      destruct (Z.eqb_spec (debug_pin env (S (samples w))) 0) as [E|_].
      - destruct (Hdebug E) as [Hh Hp].
        erewrite bind_Ret; [ reflexivity | ].
        run_step. unfold printf. simpl. rewrite Hh, Hp. reflexivity.
      - run_step. reflexivity. }
    destruct (debug_pin env _ =? 0)%Z.
    + erewrite bind_Ret; [ | run_step; reflexivity ].
      apply Hrest. reflexivity.
    + run_step. apply Hrest. reflexivity.
Qed.

Lemma forecast_fields_unique today temp h p temp' h' p' :
  forecast_fields today temp h p -> forecast_fields today temp' h' p' ->
  temp' = temp /\ h' = h /\ p' = p.
Proof.
  intros (d & m & -> & Hm & Ht & Hh & Hp) (d' & m' & E & Hm' & Ht' & Hh' & Hp').
  simplify_eq. repeat split; reflexivity.
Qed.

Lemma get_weather_data_never_stops cfg env w p : (get_weather_data cfg env w).1 <> Stopped p.
Proof.
  assert (H : behaves (get_weather_data cfg env) any any none any).
  { unfold get_weather_data. behaves_auto. }
  destruct (H w) as (evs & _ & _ & Ho). intros E. rewrite E in Ho. exact Ho.
Qed.

(** A failure of an external library that leaves [get_weather_data] is
    a failure of the request or of the parsing of its answer. *)
Lemma get_weather_data_Foreign cfg env w url x :
  webhook_url cfg env = Ok url ->
  (get_weather_data cfg env w).1 = Raise (Foreign x) ->
  http_get env url = Fails x
  \/ exists resp, http_get env url = Done resp /\ json resp = Fails x.
Proof.
  intros Hurl. destruct (get_weather_data cfg env w) as [o w'] eqn:H. simpl. intros ->.
  unfold get_weather_data in H. rewrite Hurl in H. inv_raise H.
  all: try discriminate.
  all: repeat match goal with
         | H : py_getitem _ _ = Err _ |- _ =>
             apply py_getitem_inv_Err in H as [?|?]; try discriminate
         | H : py_sub_float _ _ = Err _ |- _ =>
             apply py_sub_float_inv_Err in H as [? _]; try discriminate
         end.
  all: simplify_eq.
  all: try (left; assumption).
  all: right; eexists; split; eassumption.
Qed.

Lemma py_getitem_KeyError v k' k :
  py_getitem v k' = Err (KeyError k) -> k = k' /\ exists d, v = VDict d /\ d !! k' = None.
Proof.
  destruct v; simpl; try discriminate.
  destruct (d !! k') eqn:E; intros H; inversion H; subst. eauto.
Qed.

(** A [KeyError] that leaves [get_weather_data] names an expected key
    that the parsed response lacks. *)
Lemma get_weather_data_KeyError cfg env w url resp today k :
  webhook_url cfg env = Ok url -> http_get env url = Done resp -> json resp = Done today ->
  (get_weather_data cfg env w).1 = Raise (KeyError k) ->
  key_missing today k.
Proof.
  intros Hurl Hget Hjson.
  destruct (get_weather_data cfg env w) as [o w'] eqn:H. simpl. intros ->.
  unfold get_weather_data in H. rewrite Hurl in H. inv_raise H.
  all: try discriminate.
  all: simplify_eq.
  all: repeat match goal with
         | H : py_sub_float _ _ = Err _ |- _ =>
             apply py_sub_float_inv_Err in H as [? _]; try discriminate
         | H : py_getitem _ _ = Ok _ |- _ =>
             apply py_getitem_inv in H as (? & ? & ?)
         | H : py_getitem _ _ = Err (KeyError _) |- _ =>
             apply py_getitem_KeyError in H as (? & ? & ? & ?)
         | H1 : ?a = Done _, H2 : ?a = Done _ |- _ =>
             rewrite H1 in H2; injection H2 as ?; subst
         end.
  all: simplify_eq.
  all: eexists; split; [reflexivity | ].
  all: first [ left; split; [reflexivity | assumption]
             | right; eexists; split; [eassumption | split; [assumption | ] ] ].
  all: auto.
Qed.

Lemma key_missing_not_accepted env w today k : key_missing today k -> ~ accepted env w today.
Proof.
  intros (d & -> & Hk) (temp & h & p & t & (d' & m & E & Hm & Ht & Hh & Hp) & _).
  simplify_eq.
  destruct Hk as [[_ Hnone] | (m' & Hm' & Hnone & Hk)]; simplify_eq.
  destruct Hk as [-> | [-> | ->]]; simplify_eq.
Qed.

(** [get_weather_data] on an answer that was received with a status
    below 400 and parsed: what is left to do is to take the readings
    out of it, in a world in which the debug pin was read once. *)
Lemma get_weather_data_parsed cfg env w url resp today
    (P : outcome (gmap string value) -> Prop) :
  webhook_url cfg env = Ok url -> http_get env url = Done resp ->
  (status_code resp < 400)%Z -> json resp = Done today ->
  (forall w1, samples w1 = S (samples w) ->
     P ((main <- lift (py_getitem today "main");;
         temp0 <- lift (py_getitem main "temp");;
         kelvin <- lift (py_sub_float temp0 273.15);;
         main0 <- lift (py_getitem today "main");;
         ow_hum <- lift (py_getitem main0 "humidity");;
         main1 <- lift (py_getitem today "main");;
         ow_pres <- lift (py_getitem main1 "pressure");;
         d0 <- debug_on env;;
         (if d0
          then
           emit (EvPrint "");;
           printf "OpenWeather T: {:.0f} {} - H: {:.0f} % - P: {:.0f} hPa"
             [Fixed 0 (VFloat (temperature_2_unit cfg kelvin));
              Plain (unit_letter cfg); Fixed 0 ow_hum; Fixed 0 ow_pres]
          else ret ());;
         ret ({["ow_temp" := VFloat (temperature_2_unit cfg kelvin);
                "ow_hum" := ow_hum; "ow_pres" := ow_pres]} : gmap string value)) w1).1) ->
  P (get_weather_data cfg env w).1.
Proof.
  intros Hurl Hget Hstatus Hjson Hrest.
  unfold get_weather_data. rewrite Hurl.
  do 2 run_step. rewrite Hget.
  run_step.
  rewrite (proj2 (Z.ltb_lt _ _) Hstatus).
  run_step. rewrite Hjson.
  do 2 run_step.
  destruct (debug_pin env _ =? 0)%Z.
  - erewrite bind_Ret; [ | run_step; reflexivity ].
    apply Hrest. reflexivity.
  - run_step. apply Hrest. reflexivity.
Qed.

(** The first defect of the parsed answer is the exception raised. *)
Lemma get_weather_data_first_defect cfg env w url resp today e :
  webhook_url cfg env = Ok url -> http_get env url = Done resp ->
  (status_code resp < 400)%Z -> json resp = Done today ->
  first_defect today e ->
  (get_weather_data cfg env w).1 = Raise e.
Proof.
  intros Hurl Hget Hstatus Hjson Hdefect.
  apply (get_weather_data_parsed cfg env w url resp today (fun o => o = Raise e)
           Hurl Hget Hstatus Hjson).
  intros w1 _.
  destruct Hdefect as [today Hno | d Hmain | d main Hmain Hno | d m Hmain Htemp
                      | d m temp Hmain Htemp Hnum | d m temp t Hmain Htemp Hnum Hhum
                      | d m temp t h Hmain Htemp Hnum Hhum Hpres].
  - destruct today; try (run_step; reflexivity). exfalso. exact (Hno _ eq_refl).
  - simpl py_getitem. rewrite Hmain. run_step. reflexivity.
  - simpl py_getitem. rewrite Hmain. run_step.
    destruct main; try (run_step; reflexivity). exfalso. exact (Hno _ eq_refl).
  - simpl py_getitem. rewrite Hmain. run_step.
    simpl py_getitem. rewrite Htemp. run_step. reflexivity.
  - simpl py_getitem. rewrite Hmain. run_step.
    simpl py_getitem. rewrite Htemp. run_step.
    unfold py_sub_float. rewrite Hnum. run_step. reflexivity.
  - simpl py_getitem. rewrite Hmain. run_step.
    simpl py_getitem. rewrite Htemp. run_step.
    unfold py_sub_float. rewrite Hnum. do 2 run_step.
    simpl py_getitem. rewrite Hhum. run_step. reflexivity.
  - simpl py_getitem. rewrite Hmain. run_step.
    simpl py_getitem. rewrite Htemp. run_step.
    unfold py_sub_float. rewrite Hnum. do 2 run_step.
    simpl py_getitem. rewrite Hhum. do 2 run_step.
    simpl py_getitem. rewrite Hpres. run_step. reflexivity.
Qed.

(** Without a defect, the second diagnostic message decides. *)
Lemma get_weather_data_no_defect cfg env w url resp today temp h p t :
  webhook_url cfg env = Ok url -> http_get env url = Done resp ->
  (status_code resp < 400)%Z -> json resp = Done today ->
  forecast_fields today temp h p -> to_Q temp = Some t ->
  (get_weather_data cfg env w).1
  = if (debug_pin env (S (samples w)) =? 0)%Z && negb (is_number h && is_number p)
    then Raise ValueError
    else Ret {[ "ow_temp" := VFloat (temperature_2_unit cfg (t - 273.15));
                "ow_hum" := h; "ow_pres" := p ]}.
Proof.
  intros Hurl Hget Hstatus Hjson (d & m & -> & Hmain & Htemp & Hhum & Hpres) Hnum.
  apply (get_weather_data_parsed cfg env w url resp (VDict d)
           (fun o => o = if (debug_pin env (S (samples w)) =? 0)%Z
                            && negb (is_number h && is_number p)
                         then Raise ValueError
                         else Ret {[ "ow_temp" := VFloat (temperature_2_unit cfg (t - 273.15));
                                     "ow_hum" := h; "ow_pres" := p ]})
           Hurl Hget Hstatus Hjson).
  intros w1 Hw1.
  do 2 (simpl py_getitem; rewrite ?Hmain, ?Htemp; run_step).
  unfold py_sub_float. rewrite Hnum. run_step.
  do 4 (simpl py_getitem; rewrite ?Hmain, ?Hhum, ?Hpres; run_step).
  run_step. rewrite Hw1.
  destruct (debug_pin env (S (samples w)) =? 0)%Z; cbn [andb].
  - destruct (is_number h) eqn:Hh, (is_number p) eqn:Hp; cbn [andb negb];
      unfold printf; cbn [forallb farg_ok]; rewrite Hh, Hp; reflexivity.
  - run_step. reflexivity.
Qed.

(** A parsed answer has a defect, or holds the three readings with a
    numeric temperature. *)
Lemma first_defect_or_fields today :
  (exists e, first_defect today e)
  \/ (exists temp h p t, forecast_fields today temp h p /\ to_Q temp = Some t).
Proof.
  destruct today as [| | | | | |d];
    try (left; exists TypeError; apply response_not_an_object; discriminate).
  destruct (d !! "main") as [main|] eqn:Hmain;
    [ | left; eexists; apply main_missing; exact Hmain ].
  destruct main as [| | | | | |m];
    try (left; exists TypeError; eapply main_not_an_object; [exact Hmain | discriminate]).
  destruct (m !! "temp") as [temp|] eqn:Htemp;
    [ | left; eexists; eapply temp_missing; eassumption ].
  destruct (to_Q temp) as [t|] eqn:Hnum;
    [ | left; eexists; eapply temp_not_a_number; eassumption ].
  destruct (m !! "humidity") as [h|] eqn:Hhum;
    [ | left; eexists; eapply humidity_missing; eassumption ].
  destruct (m !! "pressure") as [p|] eqn:Hpres;
    [ | left; eexists; eapply pressure_missing; eassumption ].
  right. exists temp, h, p, t. split; [ | exact Hnum ].
  exists d, m. repeat split; assumption.
Qed.

(** A defect is a [KeyError] that names a missing key, or a
    [TypeError]. *)
Lemma first_defect_class today e :
  first_defect today e ->
  e = TypeError \/ exists k, e = KeyError k /\ key_missing today k.
Proof.
  intros [today' Hno | d Hmain | d main Hmain Hno | d m Hmain Htemp
         | d m temp Hmain Htemp Hnum | d m temp t Hmain Htemp Hnum Hhum
         | d m temp t h Hmain Htemp Hnum Hhum Hpres];
    try (left; reflexivity); right; eexists; (split; [reflexivity | ]);
    exists d; (split; [reflexivity | ]).
  - left. split; [reflexivity | exact Hmain].
  - right. exists m. split; [exact Hmain | split; [exact Htemp | auto] ].
  - right. exists m. split; [exact Hmain | split; [exact Hhum | auto] ].
  - right. exists m. split; [exact Hmain | split; [exact Hpres | auto] ].
Qed.

(** An answer that lacks an expected key has a defect. *)
Lemma key_missing_first_defect today k :
  key_missing today k -> exists e, first_defect today e.
Proof.
  intros Hk.
  destruct (first_defect_or_fields today)
    as [He | (temp & h & p & t & (d' & m & E & Hm & Ht & Hh & Hp) & _)]; [exact He | ].
  exfalso. destruct Hk as (d & -> & Hk). simplify_eq.
  destruct Hk as [[_ Hnone] | (m' & Hm' & Hnone & Hk)]; simplify_eq.
  destruct Hk as [-> | [-> | ->]]; simplify_eq.
Qed.

(** C5 (amended). Let the formatting of the webhook url succeed.  A
    failure of the request, or of the parsing of an answer whose status
    is below 400, leaves [get_weather_data] unchanged.  On an answer that
    was received, [get_weather_data] raises a [RuntimeError] exactly when
    the status code is at least 400.  On an answer with a status below
    400 that was parsed, it raises exactly the first defect that it meets
    when it reads [main.temp], [main.humidity] and [main.pressure] in this
    order, a [KeyError] naming a missing key or a [TypeError] for a value
    of the wrong type (a response or a [main] that is not an object, a
    temperature that is not a number), or else, when the debug pin is low
    and the humidity or the pressure is not a number, the [ValueError] of
    the diagnostic message; it returns exactly when the answer is
    accepted.  An answer that lacks an expected key always has a defect,
    so the stage fails on it, with a [KeyError] or with the [TypeError] of
    an earlier defect; a [KeyError] always names a missing key.  Taken
    together, the stage fails with an error of its own exactly when the
    status code is at least 400 or the parsed answer is not accepted.  A
    forecast set that is returned holds the values of the answer, never a
    default. *)
Theorem get_weather_data_failures (cfg : Config) (env : Env) (w : World) (url : string) :
  webhook_url cfg env = Ok url ->
  let out := (get_weather_data cfg env w).1 in
  (forall x, http_get env url = Fails x -> out = Raise (Foreign x))
  /\ (forall resp, http_get env url = Done resp ->
        ((400 <= status_code resp)%Z ->
           out = Raise (RuntimeError "Webhook OpenWeather URL failed"))
        /\ ((exists msg, out = Raise (RuntimeError msg)) -> (400 <= status_code resp)%Z)
        /\ (forall x, (status_code resp < 400)%Z -> json resp = Fails x ->
              out = Raise (Foreign x))
        /\ (forall today, (status_code resp < 400)%Z -> json resp = Done today ->
              (forall e, out = Raise e
                         <-> first_defect today e
                             \/ (e = ValueError /\ unprintable env w today))
              /\ (forall e, first_defect today e ->
                    e = TypeError \/ exists k, e = KeyError k /\ key_missing today k)
              /\ (forall k, key_missing today k ->
                    exists e, first_defect today e /\ out = Raise e)
              /\ ((exists d, out = Ret d) <-> accepted env w today))
        /\ (own_failure out
            <-> (400 <= status_code resp)%Z
                \/ exists today, json resp = Done today /\ ~ accepted env w today)
        /\ (forall today k, json resp = Done today ->
              (key_missing today k -> ~ accepted env w today)
              /\ (out = Raise (KeyError k) -> key_missing today k))
        /\ (forall today d, json resp = Done today -> out = Ret d ->
              exists temp h p t,
                forecast_fields today temp h p /\ to_Q temp = Some t /\
                d = {[ "ow_temp" := VFloat (temperature_2_unit cfg (t - 273.15));
                       "ow_hum" := h; "ow_pres" := p ]})).
Proof.
  intros Hurl out.
  assert (Hfail : forall x, http_get env url = Fails x -> out = Raise (Foreign x)).
  { intros x Hget. unfold out, get_weather_data. rewrite Hurl.
    do 2 run_step. rewrite Hget. run_step. reflexivity. }
  split; [exact Hfail | ].
  intros resp Hget.
  assert (Hstatus : (400 <= status_code resp)%Z ->
                    out = Raise (RuntimeError "Webhook OpenWeather URL failed")).
  { intros Hs. unfold out, get_weather_data. rewrite Hurl.
    do 2 run_step. rewrite Hget. run_step.
    rewrite (proj2 (Z.ltb_ge _ _) Hs).
    erewrite bind_Raise; [ reflexivity | ]. run_step. reflexivity. }
  assert (Hparse : forall x, (status_code resp < 400)%Z -> json resp = Fails x ->
                   out = Raise (Foreign x)).
  { intros x Hs Hjson. unfold out, get_weather_data. rewrite Hurl.
    do 2 run_step. rewrite Hget. run_step.
    rewrite (proj2 (Z.ltb_lt _ _) Hs).
    run_step. rewrite Hjson. run_step. reflexivity. }
  assert (Hret : forall today d, json resp = Done today -> out = Ret d ->
            exists temp h p t,
              forecast_fields today temp h p /\ to_Q temp = Some t /\
              (debug_pin env (S (samples w)) = 0%Z ->
               is_number h = true /\ is_number p = true) /\
              d = {[ "ow_temp" := VFloat (temperature_2_unit cfg (t - 273.15));
                     "ow_hum" := h; "ow_pres" := p ]}).
  { intros today d Hjson Hout.
    apply get_weather_data_Ret_iff in Hout
      as (url' & resp' & today' & temp & h & p & t & Hurl' & Hget' & _ & Hjson'
          & Hfields & Hnum & Hdebug & ->).
    rewrite Hurl in Hurl'. injection Hurl' as <-.
    rewrite Hget in Hget'. injection Hget' as <-.
    rewrite Hjson in Hjson'. injection Hjson' as <-.
    eauto 10. }
  assert (Hraise : forall today, (status_code resp < 400)%Z -> json resp = Done today ->
            forall e, out = Raise e
                      <-> first_defect today e
                          \/ (e = ValueError /\ unprintable env w today)).
  { intros today Hs Hjson e. split.
    - intros Hout.
      destruct (first_defect_or_fields today)
        as [(e' & Hdefect) | (temp & h & p & t & Hfields & Hnum)].
      + left.
        pose proof (get_weather_data_first_defect cfg env w url resp today e'
                      Hurl Hget Hs Hjson Hdefect) as Hout'.
        fold out in Hout'. rewrite Hout in Hout'. injection Hout' as ->. exact Hdefect.
      + right.
        pose proof (get_weather_data_no_defect cfg env w url resp today temp h p t
                      Hurl Hget Hs Hjson Hfields Hnum) as Hout'.
        fold out in Hout'. rewrite Hout in Hout'.
        destruct (Z.eqb_spec (debug_pin env (S (samples w))) 0) as [Hlow|_];
          [ | discriminate Hout' ].
        destruct (is_number h) eqn:Hh; [ destruct (is_number p) eqn:Hp | ];
          cbn [andb negb] in Hout'; try discriminate Hout';
          injection Hout' as ->; (split; [reflexivity | ]);
          exists temp, h, p, t; repeat split; auto.
    - intros [Hdefect | (-> & temp & h & p & t & Hfields & Hnum & Hlow & Hbad)].
      + exact (get_weather_data_first_defect cfg env w url resp today e
                 Hurl Hget Hs Hjson Hdefect).
      + unfold out.
        rewrite (get_weather_data_no_defect cfg env w url resp today temp h p t
                   Hurl Hget Hs Hjson Hfields Hnum).
        rewrite Hlow. cbn [Z.eqb andb].
        destruct Hbad as [-> | Hp]; [reflexivity | ].
        rewrite Hp, andb_false_r. reflexivity. }
  split; [exact Hstatus | split; [ | split; [exact Hparse | split; [ | split; [ | split ] ] ] ] ].
  - intros (msg & Hout).
    destruct (Z.lt_ge_cases (status_code resp) 400) as [Hs|Hs]; [ exfalso | exact Hs ].
    destruct (json resp) as [today|x] eqn:Hjson.
    + apply (Hraise today Hs eq_refl) in Hout as [Hdefect | [E _] ]; [ | discriminate E ].
      destruct (first_defect_class _ _ Hdefect) as [E | (k & E & _)]; discriminate E.
    + rewrite (Hparse x Hs eq_refl) in Hout. discriminate Hout.
  - intros today Hs Hjson.
    split; [exact (Hraise today Hs Hjson) | split; [ | split ] ].
    + apply first_defect_class.
    + intros k Hk. destruct (key_missing_first_defect today k Hk) as (e & Hdefect).
      exists e. split; [exact Hdefect | ]. apply (Hraise today Hs Hjson). left. exact Hdefect.
    + split.
      * intros (d & Hout).
        destruct (Hret today d Hjson Hout) as (temp & h & p & t & ? & ? & ? & _).
        exists temp, h, p, t. auto.
      * intros (temp & h & p & t & Hfields & Hnum & Hdebug). eexists.
        apply get_weather_data_Ret_iff. exists url, resp, today, temp, h, p, t.
        repeat first [assumption | reflexivity | split].
  - split.
    + intros (e & Hout & Hown).
      destruct (Z.lt_ge_cases (status_code resp) 400) as [Hs|Hs]; [ | left; exact Hs ].
      right. destruct (json resp) as [today|x] eqn:Hjson.
      * exists today. split; [reflexivity | ].
        intros (temp & h & p & t & Hfields & Hnum & Hdebug).
        assert (Hok : out = Ret {[ "ow_temp" := VFloat (temperature_2_unit cfg (t - 273.15));
                                   "ow_hum" := h; "ow_pres" := p ]}).
        { apply get_weather_data_Ret_iff. exists url, resp, today, temp, h, p, t.
          repeat first [assumption | reflexivity | split]. }
        congruence.
      * exfalso. apply (Hown x). rewrite (Hparse x Hs eq_refl) in Hout. congruence.
    + intros [Hs | (today & Hjson & Hno)].
      * exists (RuntimeError "Webhook OpenWeather URL failed").
        split; [exact (Hstatus Hs) | discriminate].
      * destruct out as [d|e|p] eqn:Hout.
        -- exfalso. apply Hno.
           destruct (Hret today d Hjson eq_refl) as (temp & h & p & t & ? & ? & ? & _).
           exists temp, h, p, t. auto.
        -- exists e. split; [reflexivity | ]. intros x ->.
           destruct (get_weather_data_Foreign cfg env w url x Hurl Hout)
             as [Hf | (resp' & Hget' & Hjson')]; congruence.
        -- exfalso. exact (get_weather_data_never_stops cfg env w p Hout).
  - intros today k Hjson. split.
    + apply key_missing_not_accepted.
    + apply (get_weather_data_KeyError cfg env w url resp today k Hurl Hget Hjson).
  - intros today d Hjson Hout.
    destruct (Hret today d Hjson Hout) as (temp & h & p & t & ? & ? & _ & ?).
    eauto 10.
Qed.

Lemma get_weather_data_failures_witness :
  webhook_url config fair_weather = Ok sample_url
  /\ (get_weather_data config service_down boot).1
     = Raise (RuntimeError "Webhook OpenWeather URL failed")
  /\ own_failure (get_weather_data config odd_forecast boot).1
  /\ (get_weather_data config odd_forecast boot).1 = Raise TypeError.
Proof.
  assert (Hurl : webhook_url config fair_weather = Ok sample_url) by reflexivity.
  split; [exact Hurl | split; [ | split ] ].
  - destruct (get_weather_data_failures config service_down boot sample_url Hurl)
      as (_ & H).
    destruct (H error_response eq_refl) as (Hstatus & _).
    apply Hstatus. simpl. lia.
  - destruct (get_weather_data_failures config odd_forecast boot sample_url Hurl)
      as (_ & H).
    destruct (H odd_response eq_refl) as (_ & _ & _ & _ & Hown & _).
    apply Hown. right. exists odd_today. split; [reflexivity | ].
    intros (temp & h & p & t & (d & m & E & Hm & Ht & _) & Hnum & _).
    injection E as <-. vm_compute in Hm. injection Hm as <-.
    vm_compute in Ht. injection Ht as <-. discriminate Hnum.
  - destruct (get_weather_data_failures config odd_forecast boot sample_url Hurl)
      as (_ & H).
    destruct (H odd_response eq_refl) as (_ & _ & _ & Hparsed & _).
    destruct (Hparsed odd_today) as (Hraise & _); [reflexivity | reflexivity | ].
    apply Hraise. left.
    apply (temp_not_a_number _ {[ "temp" := VStr "mild"; "humidity" := VInt 80;
                                  "pressure" := VInt 1013 ]} (VStr "mild"));
      reflexivity.
Defined.

(** C5 as the specification words it does not hold: the answer
    [odd_response] has status 200 and every expected key, and
    [get_weather_data] fails on it with [TypeError], because its
    temperature is not a number. *)
Lemma get_weather_data_fails_on_odd_forecast :
  http_get odd_forecast sample_url = Done odd_response
  /\ json odd_response = Done odd_today
  /\ (get_weather_data config odd_forecast boot).1 = Raise TypeError
  /\ ~ fails_exactly_on_status_or_missing_key
         (get_weather_data config odd_forecast boot).1 odd_response odd_today.
Proof.
  split; [reflexivity | split; [reflexivity | split; [reflexivity | ] ] ].
  intros [Hclaim _].
  destruct Hclaim as [Hstatus | (k & d & E & Hk)].
  - exists TypeError. split; [reflexivity | discriminate].
  - simpl in Hstatus. lia.
  - injection E as <-.
    destruct Hk as [[_ Hnone] | (m & Hm & Hnone & Hk)].
    + vm_compute in Hnone. discriminate Hnone.
    + vm_compute in Hm. injection Hm as <-.
      destruct Hk as [-> | [-> | ->]]; vm_compute in Hnone; discriminate Hnone.
Qed.

(** C6. On a response that was received with a status below 400 and
    parsed, and that holds a numeric [main.temp] together with
    [main.humidity] and [main.pressure], the forecast set of
    [get_weather_data] is [ow_temp = temperature_2_unit (main.temp -
    273.15)], [ow_hum = main.humidity], [ow_pres = main.pressure]: no
    other set is returned, and this one is returned (unless the debug pin
    is low and the humidity or the pressure cannot be formatted as a
    number in the diagnostic message).  With the Fahrenheit preference, a
    [main.temp] of 283.15 gives an [ow_temp] of 50. *)
Theorem forecast_set_converts_temperature_only
    (cfg : Config) (env : Env) (w : World) (url : string) (resp : Response)
    (today temp h p : value) (t : Q) :
  webhook_url cfg env = Ok url ->
  http_get env url = Done resp ->
  (status_code resp < 400)%Z ->
  json resp = Done today ->
  forecast_fields today temp h p ->
  to_Q temp = Some t ->
  let ow_data : gmap string value :=
    {[ "ow_temp" := VFloat (temperature_2_unit cfg (t - 273.15));
       "ow_hum" := h; "ow_pres" := p ]} in
  ((debug_pin env (S (samples w)) = 0%Z -> is_number h = true /\ is_number p = true) ->
   (get_weather_data cfg env w).1 = Ret ow_data)
  /\ (forall d, (get_weather_data cfg env w).1 = Ret d -> d = ow_data)
  /\ (FAHRENHEIT cfg = true -> t = 283.15%Q ->
      (temperature_2_unit cfg (t - 273.15) == 50)%Q).
Proof.
  intros Hurl Hget Hstatus Hjson Hfields Hnum ow_data. split; [ | split ].
  - intros Hdebug. apply get_weather_data_Ret_iff.
    exists url, resp, today, temp, h, p, t.
    repeat first [assumption | reflexivity | split].
  - intros d Hd.
    apply get_weather_data_Ret_iff in Hd
      as (url' & resp' & today' & temp' & h' & p' & t' & Hurl' & Hget' & _ & Hjson'
          & Hfields' & Hnum' & _ & ->).
    rewrite Hurl in Hurl'. injection Hurl' as <-.
    rewrite Hget in Hget'. injection Hget' as <-.
    rewrite Hjson in Hjson'. injection Hjson' as <-.
    destruct (forecast_fields_unique _ _ _ _ _ _ _ Hfields Hfields') as (-> & -> & ->).
    rewrite Hnum in Hnum'. injection Hnum' as <-.
    reflexivity.
  - intros Hf ->. unfold temperature_2_unit. rewrite Hf. reflexivity.
Qed.

Lemma forecast_set_converts_temperature_only_witness :
  exists ow_temp,
    (get_weather_data fahrenheit_config fair_weather boot).1
    = Ret {[ "ow_temp" := VFloat ow_temp; "ow_hum" := VInt 80; "ow_pres" := VInt 1013 ]}
    /\ (ow_temp == 50)%Q.
Proof.
  exists (temperature_2_unit fahrenheit_config (283.15 - 273.15)).
  assert (Hfields : forecast_fields sample_forecast (VFloat 283.15) (VInt 80) (VInt 1013)).
  { eexists _, _. repeat split; reflexivity. }
  destruct (forecast_set_converts_temperature_only
              fahrenheit_config fair_weather boot sample_url sample_response
              sample_forecast (VFloat 283.15) (VInt 80) (VInt 1013) 283.15%Q
              eq_refl eq_refl eq_refl eq_refl Hfields eq_refl)
    as (Hret & _ & Hfifty).
  split.
  - apply Hret. intros _. split; reflexivity.
  - apply Hfifty; reflexivity.
Defined.

(** ** Publishing *)

Lemma string_app_assoc (s1 s2 s3 : string) : (s1 +:+ s2) +:+ s3 = s1 +:+ (s2 +:+ s3).
Proof.
  induction s1 as [|c s1 IH]; [reflexivity | ].
  change (String c ((s1 +:+ s2) +:+ s3) = String c (s1 +:+ (s2 +:+ s3))).
  rewrite IH. reflexivity.
Qed.

Lemma count_separators_app_no_cr s t :
  has_cr s = false -> count_separators (s +:+ t) = count_separators t.
Proof.
  induction s as [|c s IH]; [reflexivity | ].
  change (String c s +:+ t) with (String c (s +:+ t)).
  cbn [has_cr count_separators].
  intros H. apply orb_false_iff in H as [Hc Hs]. rewrite Hc. apply IH, Hs.
Qed.

Lemma count_separators_CRLF t : count_separators (CRLF +:+ t) = S (count_separators t).
Proof. reflexivity. Qed.

Lemma published_app evs evs' : published (evs ++ evs') = published evs ++ published evs'.
Proof.
  induction evs as [|e evs IH]; [reflexivity | ].
  destruct e; simpl; rewrite IH; reflexivity.
Qed.

(** The two templates of the payload are plain. *)
Lemma payload_templates_are_plain :
  plain_template forecasts_template = true /\ plain_template actuals_template = true.
Proof. split; reflexivity. Qed.

Lemma forecasts_template_format (a b c d e : string) :
  py_format forecasts_template [a; b; c; d; e] []
  = Ok ("forecasts,source=" +:+ a +:+ ",location=" +:+ b +:+ " ow_temp=" +:+ c
        +:+ ",ow_hum=" +:+ d +:+ ",ow_pres=" +:+ e +:+ " " +:+ CRLF).
Proof. reflexivity. Qed.

Lemma actuals_template_format (a b c d e f g h : string) :
  py_format actuals_template [a; b; c; d; e; f; g; h] []
  = Ok ("actuals,source=" +:+ a +:+ ",location=" +:+ b +:+ " ac_temp=" +:+ c
        +:+ ",ac_hum=" +:+ d +:+ ",ac_pres=" +:+ e +:+ ",ac_lum=" +:+ f
        +:+ ",ac_batv=" +:+ g +:+ ",ac_rssi=" +:+ h +:+ " " +:+ CRLF).
Proof. reflexivity. Qed.

(** The payload is the two records, in order. *)
Lemma payload_eq cfg py_str ow_temp ow_hum ow_pres ac_temp ac_hum ac_pres ac_lum ac_batv ac_rssi :
  payload cfg py_str ow_temp ow_hum ow_pres ac_temp ac_hum ac_pres ac_lum ac_batv ac_rssi
  = Ok ((forecasts_line cfg py_str ow_temp ow_hum ow_pres +:+ CRLF)
        +:+ (actuals_line cfg py_str ac_temp ac_hum ac_pres ac_lum ac_batv ac_rssi +:+ CRLF)).
Proof.
  unfold payload. rewrite forecasts_template_format, actuals_template_format.
  unfold forecasts_line, actuals_line.
  rewrite !string_app_assoc. reflexivity.
Qed.

(** The [try] statement of [log_readings] always completes. *)
Lemma mqtt_session_guarded cfg env pl w :
  try_except (mqtt_session cfg env pl)
    (fun exc => emit (EvPrintException exc) ;; show_error cfg) w
  = (Ret tt,
     {| trace := trace w ++ session_events cfg env pl;
        polls := polls w; scans := scans w; samples := samples w |}).
Proof.
  unfold try_except, mqtt_session, session_events, report, error_signal.
  unfold show_error, for_range, call, sleep.
  destruct (mqtt_connect env) as [[]|x1];
    [ destruct (mqtt_publish env (MQTT_TOPIC cfg) pl) as [[]|x2];
      [ destruct (mqtt_disconnect env) as [[]|x3] | ] | ].
  all: cbv [bind emit ret raise for_range_from logged trace polls scans samples].
  all: cbn [mjoin replicate app list_join list_ret list_bind].
  all: rewrite <- ?app_assoc; reflexivity.
Qed.

(** What [log_readings] does, whatever the broker answers: it returns,
    in the world [after_log_readings]. *)
Lemma log_readings_run cfg env py_str ow_data sensor_data wifi_rssi w
    ow_temp ow_hum ow_pres ac_temp ac_hum ac_pres ac_lum ac_batv :
  read_out ow_data sensor_data ow_temp ow_hum ow_pres ac_temp ac_hum ac_pres ac_lum ac_batv ->
  log_readings cfg env py_str ow_data sensor_data wifi_rssi w
  = (Ret tt,
     after_log_readings cfg env
       ((forecasts_line cfg py_str ow_temp ow_hum ow_pres +:+ CRLF)
        +:+ (actuals_line cfg py_str ac_temp ac_hum ac_pres ac_lum ac_batv wifi_rssi +:+ CRLF))
       w).
Proof.
  intros (H1 & H2 & H3 & H4 & H5 & H6 & H7 & H8).
  unfold log_readings, dict_get. rewrite H1, H2, H3, H4, H5, H6, H7, H8.
  do 9 run_step. rewrite payload_eq. run_step.
  generalize ((forecasts_line cfg py_str ow_temp ow_hum ow_pres +:+ CRLF)
              +:+ (actuals_line cfg py_str ac_temp ac_hum ac_pres ac_lum ac_batv wifi_rssi
                   +:+ CRLF)).
  intros pl.
  erewrite bind_Ret; [ | apply mqtt_session_guarded ].
  run_step. cbn [samples logged].
  unfold after_log_readings.
  destruct (debug_pin env (samples w) =? 0)%Z.
  - cbv [printf forallb farg_ok andb emit logged sampled trace polls scans samples].
    cbn [app]. rewrite <- ?app_assoc. reflexivity.
  - cbv [ret sampled logged trace polls scans samples]. cbn [app].
    rewrite ?app_nil_r, <- ?app_assoc. reflexivity.
Qed.

Lemma published_session_events cfg env pl :
  published (session_events cfg env pl)
  = match mqtt_connect env with
    | Done _ => [(MQTT_TOPIC cfg, pl)]
    | Fails _ => []
    end.
Proof.
  unfold session_events.
  destruct (mqtt_connect env) as [[]|x1]; [ | reflexivity ].
  destruct (mqtt_publish env (MQTT_TOPIC cfg) pl) as [[]|x2]; [ | reflexivity ].
  destruct (mqtt_disconnect env) as [[]|x3]; reflexivity.
Qed.

(** A failed broker session ends with the report of its failure. *)
Lemma session_events_on_failure cfg env pl x :
  session_failure cfg env pl = Some x ->
  exists done,
    session_events cfg env pl = done ++ report cfg (Foreign x)
    /\ Forall (fun ev => is_publishing ev = true) done.
Proof.
  unfold session_failure, session_events.
  destruct (mqtt_connect env) as [[]|x1].
  - destruct (mqtt_publish env (MQTT_TOPIC cfg) pl) as [[]|x2].
    + destruct (mqtt_disconnect env) as [[]|x3]; [discriminate | ].
      intros [= <-].
      exists [EvMqttConnect "effevees_weerstation" (MQTT_HOST cfg) 30;
              EvMqttPublish (MQTT_TOPIC cfg) pl; EvMqttDisconnect].
      split; [reflexivity | repeat constructor].
    + intros [= <-].
      exists [EvMqttConnect "effevees_weerstation" (MQTT_HOST cfg) 30;
              EvMqttPublish (MQTT_TOPIC cfg) pl].
      split; [reflexivity | repeat constructor].
  - intros [= <-].
    exists [EvMqttConnect "effevees_weerstation" (MQTT_HOST cfg) 30].
    split; [reflexivity | repeat constructor].
Qed.

(** C9. The payload of [log_readings] is a function of the
    configuration and of the nine readings alone: it is the forecasts
    record followed by the actuals record, each ended by the separator
    CR LF, and so holds exactly two separators when no record body holds
    a carriage return.  Whatever the environment and the world in which
    [log_readings] runs, the message that it hands to the broker (when
    the connection is accepted) is this payload, to the configured
    topic. *)
Theorem payload_is_two_records (cfg : Config) (py_str : value -> string)
    (ow_temp ow_hum ow_pres ac_temp ac_hum ac_pres ac_lum ac_batv ac_rssi : value) :
  let forecasts := forecasts_line cfg py_str ow_temp ow_hum ow_pres in
  let actuals := actuals_line cfg py_str ac_temp ac_hum ac_pres ac_lum ac_batv ac_rssi in
  let pl := (forecasts +:+ CRLF) +:+ (actuals +:+ CRLF) in
  payload cfg py_str ow_temp ow_hum ow_pres ac_temp ac_hum ac_pres ac_lum ac_batv ac_rssi
  = Ok pl
  /\ (has_cr forecasts = false -> has_cr actuals = false -> count_separators pl = 2)
  /\ (forall env w ow_data sensor_data,
        read_out ow_data sensor_data
          ow_temp ow_hum ow_pres ac_temp ac_hum ac_pres ac_lum ac_batv ->
        published (trace (log_readings cfg env py_str ow_data sensor_data ac_rssi w).2)
        = published (trace w)
          ++ match mqtt_connect env with
             | Done _ => [(MQTT_TOPIC cfg, pl)]
             | Fails _ => []
             end).
Proof.
  intros forecasts actuals pl. split; [ | split ].
  - apply payload_eq.
  - intros Hf Ha. unfold pl.
    rewrite string_app_assoc, (count_separators_app_no_cr _ _ Hf).
    rewrite count_separators_CRLF, (count_separators_app_no_cr _ _ Ha).
    reflexivity.
  - intros env w ow_data sensor_data Hread.
    rewrite (log_readings_run _ _ _ _ _ _ _ _ _ _ _ _ _ _ _ Hread).
    fold forecasts actuals pl. unfold after_log_readings. cbn [snd trace].
    rewrite !published_app, published_session_events.
    destruct (debug_pin env (samples w) =? 0)%Z; cbn [published app];
      rewrite app_nil_r; reflexivity.
Qed.

Lemma payload_is_two_records_witness :
  exists pl,
    payload config sample_str
      (VFloat 10) (VInt 80) (VInt 1013)
      (VFloat 10) (VFloat 10) (VFloat 0.1) (VFloat 10) (VFloat 2.5) (VInt (-61))
    = Ok pl
    /\ count_separators pl = 2.
Proof.
  destruct (payload_is_two_records config sample_str
              (VFloat 10) (VInt 80) (VInt 1013)
              (VFloat 10) (VFloat 10) (VFloat 0.1) (VFloat 10) (VFloat 2.5) (VInt (-61)))
    as (Hpayload & Hcount & _).
  eexists. split; [exact Hpayload | ].
  apply Hcount; vm_compute; reflexivity.
Defined.

(** ** The cycle *)

(** The stages neither reset the processor nor put it to sleep. *)
Lemma stages_stay_awake cfg env py_str :
  behaves (stages cfg env py_str) (fun ev => is_power_transition ev = false) any none any.
Proof. behaves_auto. Qed.

(** Joining the network and fetching the forecast touch neither the
    sensors nor the broker. *)
Lemma connect_wifi_is_quiet cfg env :
  behaves (connect_wifi cfg env)
    (fun ev => is_sensing ev = false /\ is_publishing ev = false) any any any.
Proof. behaves_auto. Qed.

Lemma get_weather_data_is_quiet cfg env :
  behaves (get_weather_data cfg env)
    (fun ev => is_sensing ev = false /\ is_publishing ev = false) any any any.
Proof. behaves_auto. Qed.

(** When the stages complete, [run] goes on to the power step. *)
Lemma run_when_stages_return cfg env py_str w w1 :
  stages cfg env py_str w = (Ret tt, w1) ->
  run cfg env py_str w
  = if (debug_pin env (samples w1) =? 0)%Z then (Ret tt, sampled w1)
    else (Stopped (DeepSleep (INTERVAL cfg * 1000)), after_deepsleep cfg w1).
Proof.
  intros Hstages. unfold run.
  erewrite bind_Ret; [ | unfold try_except; rewrite Hstages; reflexivity ].
  run_step. destruct (debug_pin env (samples w1) =? 0)%Z; [reflexivity | ].
  cbn [negb]. unfold deepsleep_till_next_cycle, deepsleep.
  do 3 run_step. unfold stop, after_deepsleep, logged, sampled. cbn.
  rewrite <- !app_assoc. reflexivity.
Qed.

(** When a stage raises an exception, [run] reports it and resets the
    processor. *)
Lemma run_when_stages_raise cfg env py_str w e w1 :
  stages cfg env py_str w = (Raise e, w1) ->
  run cfg env py_str w = (Stopped HardReset, after_recover cfg e w1).
Proof.
  intros Hstages. unfold run.
  erewrite bind_Stopped; [ reflexivity | ].
  unfold try_except. rewrite Hstages.
  unfold recover, reset, show_error, for_range, sleep, after_recover, report, error_signal.
  cbv [bind emit ret raise stop for_range_from logged trace polls scans samples].
  cbn [mjoin replicate app list_join list_ret list_bind].
  rewrite <- ?app_assoc. reflexivity.
Qed.

(** The dictionaries that the two acquisition stages return hold the
    readings that [log_readings] takes out of them. *)
Lemma acquired_readings cfg env w1 ow_data w2 sensor_data w3 :
  get_weather_data cfg env w1 = (Ret ow_data, w2) ->
  get_sensor_readings cfg env w2 = (Ret sensor_data, w3) ->
  exists ow_temp ow_hum ow_pres ac_temp ac_hum ac_pres ac_lum ac_batv,
    read_out ow_data sensor_data ow_temp ow_hum ow_pres ac_temp ac_hum ac_pres ac_lum ac_batv.
Proof.
  intros Hfetch Hsense.
  assert (How : behaves (get_weather_data cfg env) any any any
                  (fun d => exists a b c,
                     d !! "ow_temp" = Some a /\ d !! "ow_hum" = Some b
                     /\ d !! "ow_pres" = Some c)).
  { behaves_auto. all: eexists _, _, _; repeat split; reflexivity. }
  assert (Hsd : behaves (get_sensor_readings cfg env) any any any
                  (fun d => exists a b c e f,
                     d !! "am2320_temp" = Some a /\ d !! "am2320_hum" = Some b
                     /\ d !! "bmp180_pres" = Some c /\ d !! "bh1750_lum" = Some e
                     /\ d !! "bat_volt" = Some f)).
  { behaves_auto. all: eexists _, _, _, _, _; repeat split; reflexivity. }
  destruct (How w1) as (_ & _ & _ & Ho1). rewrite Hfetch in Ho1.
  destruct (Hsd w2) as (_ & _ & _ & Ho2). rewrite Hsense in Ho2.
  destruct Ho1 as (a & b & c & ? & ? & ?).
  destruct Ho2 as (a' & b' & c' & e' & f' & ? & ? & ? & ? & ?).
  exists a, b, c, a', b', c', e', f'. repeat split; assumption.
Qed.

(** A cycle whose three acquisition stages succeed ends in the power
    step, whatever the broker answers. *)
Lemma run_after_acquisition cfg env py_str w wifi_rssi w1 ow_data w2 sensor_data w3 :
  connect_wifi cfg env w = (Ret wifi_rssi, w1) ->
  get_weather_data cfg env w1 = (Ret ow_data, w2) ->
  get_sensor_readings cfg env w2 = (Ret sensor_data, w3) ->
  exists pl,
    log_readings cfg env py_str ow_data sensor_data wifi_rssi w3
    = (Ret tt, after_log_readings cfg env pl w3)
    /\ stages cfg env py_str w = (Ret tt, after_log_readings cfg env pl w3)
    /\ run cfg env py_str w
       = if (debug_pin env (S (samples w3)) =? 0)%Z
         then (Ret tt, sampled (after_log_readings cfg env pl w3))
         else (Stopped (DeepSleep (INTERVAL cfg * 1000)),
               after_deepsleep cfg (after_log_readings cfg env pl w3)).
Proof.
  intros Hjoin Hfetch Hsense.
  destruct (acquired_readings _ _ _ _ _ _ _ Hfetch Hsense)
    as (ow_temp & ow_hum & ow_pres & ac_temp & ac_hum & ac_pres & ac_lum & ac_batv & Hread).
  pose proof (log_readings_run cfg env py_str _ _ wifi_rssi w3 _ _ _ _ _ _ _ _ Hread) as Hlog.
  set (pl := (forecasts_line cfg py_str ow_temp ow_hum ow_pres +:+ CRLF)
             +:+ (actuals_line cfg py_str ac_temp ac_hum ac_pres ac_lum ac_batv wifi_rssi
                  +:+ CRLF)) in Hlog.
  exists pl. split; [exact Hlog | ].
  assert (Hstages : stages cfg env py_str w = (Ret tt, after_log_readings cfg env pl w3)).
  { unfold stages.
    erewrite bind_Ret; [ | exact Hjoin ].
    erewrite bind_Ret; [ | exact Hfetch ].
    erewrite bind_Ret; [ | exact Hsense ].
    exact Hlog. }
  split; [exact Hstages | ].
  rewrite (run_when_stages_return _ _ _ _ _ Hstages). reflexivity.
Qed.

(** C2. In a cycle in which the network is joined and
    [get_weather_data] fails, [run] reports the failure and resets the
    processor, and from the start of the cycle to the reset nothing of
    the sensor-collection stage and nothing of the publish stage happens:
    no entry message of either, no access to the bus, to a sensor, to the
    ADC or to the broker. *)
Theorem failed_fetch_skips_sensing_and_publishing
    (cfg : Config) (env : Env) (py_str : value -> string)
    (w : World) (wifi_rssi : value) (w1 : World) (e : exn) (w2 : World) :
  connect_wifi cfg env w = (Ret wifi_rssi, w1) ->
  get_weather_data cfg env w1 = (Raise e, w2) ->
  run cfg env py_str w = (Stopped HardReset, after_recover cfg e w2)
  /\ exists evs,
       trace (after_recover cfg e w2) = trace w ++ evs
       /\ Forall (fun ev => is_sensing ev = false /\ is_publishing ev = false) evs
       /\ published evs = [].
Proof.
  intros Hjoin Hfetch.
  assert (Hstages : stages cfg env py_str w = (Raise e, w2)).
  { unfold stages. erewrite bind_Ret; [ | exact Hjoin ].
    erewrite bind_Raise; [ reflexivity | exact Hfetch ]. }
  split; [exact (run_when_stages_raise _ _ _ _ _ _ Hstages) | ].
  destruct (connect_wifi_is_quiet cfg env w) as (evs1 & Ht1 & HP1 & _).
  destruct (get_weather_data_is_quiet cfg env w1) as (evs2 & Ht2 & HP2 & _).
  rewrite Hjoin in Ht1. rewrite Hfetch in Ht2. cbn [snd] in Ht1, Ht2.
  assert (HP3 : Forall (fun ev => is_sensing ev = false /\ is_publishing ev = false)
                  (report cfg e ++ [EvSleep 5; EvReset])).
  { unfold report, error_signal. cbn. repeat constructor. }
  exists (evs1 ++ evs2 ++ report cfg e ++ [EvSleep 5; EvReset]).
  assert (HP : Forall (fun ev => is_sensing ev = false /\ is_publishing ev = false)
                 (evs1 ++ evs2 ++ report cfg e ++ [EvSleep 5; EvReset])).
  { apply Forall_app; split; [exact HP1 | ].
    apply Forall_app; split; [exact HP2 | exact HP3]. }
  split; [ | split; [exact HP | ] ].
  - unfold after_recover. cbn [trace]. rewrite Ht2, Ht1, <- !app_assoc. reflexivity.
  - clear - HP. induction HP as [|ev evs [_ Hev] _ IH]; [reflexivity | ].
    destruct ev; try discriminate Hev; exact IH.
Qed.

Lemma failed_fetch_skips_sensing_and_publishing_witness :
  exists w2,
    run config service_down sample_str boot
    = (Stopped HardReset,
       after_recover config (RuntimeError "Webhook OpenWeather URL failed") w2)
    /\ exists evs,
         trace (after_recover config (RuntimeError "Webhook OpenWeather URL failed") w2)
         = trace boot ++ evs
         /\ Forall (fun ev => is_sensing ev = false /\ is_publishing ev = false) evs
         /\ published evs = [].
Proof.
  exists (get_weather_data config service_down (connect_wifi config service_down boot).2).2.
  apply (failed_fetch_skips_sensing_and_publishing config service_down sample_str boot
           (VInt (-61)) (connect_wifi config service_down boot).2).
  - vm_compute. reflexivity.
  - vm_compute. reflexivity.
Defined.

(** C8. When the stages of a cycle have completed, [run] reads the debug
    pin once.  If it reads low, [run] returns: the process stays active,
    nothing more is done, and no reset and no sleep has happened since
    the start of the cycle.  Otherwise the processor is put into deep
    sleep for [INTERVAL * 1000] milliseconds, that is [INTERVAL]
    seconds. *)
Theorem power_step_after_a_completed_cycle
    (cfg : Config) (env : Env) (py_str : value -> string) (w w1 : World) :
  stages cfg env py_str w = (Ret tt, w1) ->
  (debug_pin env (samples w1) = 0%Z -> run cfg env py_str w = (Ret tt, sampled w1))
  /\ (debug_pin env (samples w1) <> 0%Z ->
      run cfg env py_str w
      = (Stopped (DeepSleep (INTERVAL cfg * 1000)), after_deepsleep cfg w1))
  /\ (exists evs,
        trace w1 = trace w ++ evs /\ Forall (fun ev => is_power_transition ev = false) evs).
Proof.
  intros Hstages. split; [ | split ].
  - intros Hlow. rewrite (run_when_stages_return _ _ _ _ _ Hstages), Hlow. reflexivity.
  - intros Hhigh. rewrite (run_when_stages_return _ _ _ _ _ Hstages).
    destruct (Z.eqb_spec (debug_pin env (samples w1)) 0) as [E|_]; [contradiction | reflexivity].
  - destruct (stages_stay_awake cfg env py_str w) as (evs & Ht & HP & _).
    rewrite Hstages in Ht. exists evs. split; [exact Ht | exact HP].
Qed.

Lemma power_step_after_a_completed_cycle_witness :
  run config on_the_bench sample_str boot
  = (Ret tt, sampled (stages config on_the_bench sample_str boot).2)
  /\ run config fair_weather sample_str boot
     = (Stopped (DeepSleep 900000),
        after_deepsleep config (stages config fair_weather sample_str boot).2).
Proof.
  split.
  - apply (power_step_after_a_completed_cycle config on_the_bench sample_str boot
             (stages config on_the_bench sample_str boot).2).
    + vm_compute. reflexivity.
    + reflexivity.
  - apply (power_step_after_a_completed_cycle config fair_weather sample_str boot
             (stages config fair_weather sample_str boot).2).
    + vm_compute. reflexivity.
    + vm_compute. discriminate.
Defined.

(** The only exception that leaves [log_readings] is the [KeyError] of
    a reading that its dictionaries lack. *)
Lemma log_readings_raises_only_KeyError cfg env py_str ow_data sensor_data wifi_rssi w e w' :
  log_readings cfg env py_str ow_data sensor_data wifi_rssi w = (Raise e, w') ->
  exists k, e = KeyError k /\ (ow_data !! k = None \/ sensor_data !! k = None).
Proof.
  intros H. unfold log_readings in H. inv_raise H.
  all: try match goal with
         | H : try_except _ _ _ = (Raise _, _) |- _ =>
             rewrite mqtt_session_guarded in H; discriminate H
         | H : payload _ _ _ _ _ _ _ _ _ _ _ = Err _ |- _ =>
             rewrite payload_eq in H; discriminate H
         | H : forallb farg_ok [Plain _] = false |- _ => discriminate H
         end.
  all: match goal with
       | H : dict_get _ ?k = Err _ |- _ =>
           unfold dict_get in H; exists k;
           destruct (_ !! k) eqn:E; [discriminate H | injection H as <-]
       end.
  all: split; [reflexivity | auto].
Qed.

Lemma log_readings_never_stops cfg env py_str ow_data sensor_data wifi_rssi w p :
  (log_readings cfg env py_str ow_data sensor_data wifi_rssi w).1 <> Stopped p.
Proof.
  assert (H : behaves (log_readings cfg env py_str ow_data sensor_data wifi_rssi)
                any any none any) by behaves_auto.
  destruct (H w) as (evs & _ & _ & Ho). intros E. rewrite E in Ho. exact Ho.
Qed.

(** C10. [log_readings] never raises for the broker: given dictionaries
    that hold the readings, it returns, whatever the broker answers, and
    a failure of the broker session is caught, printed and signalled by
    the three pulses; the only exception that can leave it is the
    [KeyError] of a missing reading, and it never stops the processor.  Hence a cycle whose three
    acquisition stages succeed completes its stages even when the publish
    fails, and [run] goes on to the power step: deep sleep when the debug
    pin is not low, never the reset of the error path. *)
Theorem log_readings_never_raises (cfg : Config) (env : Env) (py_str : value -> string) :
  (forall ow_data sensor_data wifi_rssi w
          ow_temp ow_hum ow_pres ac_temp ac_hum ac_pres ac_lum ac_batv,
     read_out ow_data sensor_data ow_temp ow_hum ow_pres ac_temp ac_hum ac_pres ac_lum ac_batv ->
     let pl := (forecasts_line cfg py_str ow_temp ow_hum ow_pres +:+ CRLF)
               +:+ (actuals_line cfg py_str ac_temp ac_hum ac_pres ac_lum ac_batv wifi_rssi
                    +:+ CRLF) in
     log_readings cfg env py_str ow_data sensor_data wifi_rssi w
     = (Ret tt, after_log_readings cfg env pl w)
     /\ (forall x, session_failure cfg env pl = Some x ->
           exists done,
             session_events cfg env pl = done ++ report cfg (Foreign x)
             /\ Forall (fun ev => is_publishing ev = true) done))
  /\ (forall ow_data sensor_data wifi_rssi w,
        (forall e, (log_readings cfg env py_str ow_data sensor_data wifi_rssi w).1 = Raise e ->
           exists k, e = KeyError k /\ (ow_data !! k = None \/ sensor_data !! k = None))
        /\ (forall p, (log_readings cfg env py_str ow_data sensor_data wifi_rssi w).1
                      <> Stopped p))
  /\ (forall w wifi_rssi w1 ow_data w2 sensor_data w3,
        connect_wifi cfg env w = (Ret wifi_rssi, w1) ->
        get_weather_data cfg env w1 = (Ret ow_data, w2) ->
        get_sensor_readings cfg env w2 = (Ret sensor_data, w3) ->
        exists w4,
          stages cfg env py_str w = (Ret tt, w4)
          /\ samples w4 = S (samples w3)
          /\ run cfg env py_str w
             = if (debug_pin env (samples w4) =? 0)%Z then (Ret tt, sampled w4)
               else (Stopped (DeepSleep (INTERVAL cfg * 1000)), after_deepsleep cfg w4)).
Proof.
  split; [ | split ].
  - intros ow_data sensor_data wifi_rssi w
      ow_temp ow_hum ow_pres ac_temp ac_hum ac_pres ac_lum ac_batv Hread pl. split.
    + apply (log_readings_run _ _ _ _ _ _ _ _ _ _ _ _ _ _ _ Hread).
    + intros x. apply session_events_on_failure.
  - intros ow_data sensor_data wifi_rssi w. split.
    + intros e He.
      destruct (log_readings cfg env py_str ow_data sensor_data wifi_rssi w)
        as [o w'] eqn:H.
      cbn [fst] in He. subst o.
      exact (log_readings_raises_only_KeyError _ _ _ _ _ _ _ _ _ H).
    + intros p. apply log_readings_never_stops.
  - intros w wifi_rssi w1 ow_data w2 sensor_data w3 Hjoin Hfetch Hsense.
    destruct (run_after_acquisition cfg env py_str _ _ _ _ _ _ _ Hjoin Hfetch Hsense)
      as (pl & _ & Hstages & Hrun).
    exists (after_log_readings cfg env pl w3).
    split; [exact Hstages | split; [reflexivity | exact Hrun] ].
Qed.

Lemma log_readings_never_raises_witness :
  mqtt_connect broker_down = Fails (LibExn "OSError" "ECONNREFUSED")
  /\ log_readings config broker_down sample_str sample_ow_data sample_sensor_data
       (VInt (-61)) boot
     = (Ret tt, after_log_readings config broker_down sample_payload boot)
  /\ (exists w4,
        stages config broker_down sample_str boot = (Ret tt, w4)
        /\ run config broker_down sample_str boot
           = (Stopped (DeepSleep 900000), after_deepsleep config w4)).
Proof.
  destruct (log_readings_never_raises config broker_down sample_str)
    as (Hreturns & _ & Hrun).
  split; [reflexivity | split].
  - destruct (Hreturns sample_ow_data sample_sensor_data (VInt (-61)) boot
                (VFloat 10) (VInt 80) (VInt 1013)
                (VFloat 10) (VFloat 10) (VFloat 0.1) (VFloat 10) (VFloat 2.5))
      as [Hlog _].
    + repeat split; reflexivity.
    + rewrite Hlog. vm_compute. reflexivity.
  - destruct (Hrun boot (VInt (-61))
                (connect_wifi config broker_down boot).2
                (returned (get_weather_data config broker_down
                             (connect_wifi config broker_down boot).2) ∅)
                (get_weather_data config broker_down
                   (connect_wifi config broker_down boot).2).2
                (returned (get_sensor_readings config broker_down
                             (get_weather_data config broker_down
                                (connect_wifi config broker_down boot).2).2) ∅)
                (get_sensor_readings config broker_down
                   (get_weather_data config broker_down
                      (connect_wifi config broker_down boot).2).2).2)
      as (w4 & Hstages & Hsamples & Hrun4).
    + vm_compute. reflexivity.
    + vm_compute. reflexivity.
    + vm_compute. reflexivity.
    + exists w4. split; [exact Hstages | ].
      rewrite Hrun4, Hsamples. reflexivity.
Defined.

(** C1 (amended). When a step of the broker session (connect, publish or
    disconnect) fails, [log_readings] does not fail: the steps after the
    failed one are skipped, the exception is printed, the error signal of
    three pulses is given, and [log_readings] returns.  The failure thus
    never reaches [run]: in a cycle whose three acquisition stages
    succeeded, [run] goes on to the power step, returning when the debug
    pin is low and entering deep sleep otherwise, and does not reset the
    processor. *)
Theorem publish_failure_is_reported_not_raised
    (cfg : Config) (env : Env) (py_str : value -> string)
    (ow_data sensor_data : gmap string value) (wifi_rssi : value) (w : World)
    (ow_temp ow_hum ow_pres ac_temp ac_hum ac_pres ac_lum ac_batv : value)
    (x : lib_exn) :
  read_out ow_data sensor_data ow_temp ow_hum ow_pres ac_temp ac_hum ac_pres ac_lum ac_batv ->
  let pl := (forecasts_line cfg py_str ow_temp ow_hum ow_pres +:+ CRLF)
            +:+ (actuals_line cfg py_str ac_temp ac_hum ac_pres ac_lum ac_batv wifi_rssi
                 +:+ CRLF) in
  session_failure cfg env pl = Some x ->
  log_readings cfg env py_str ow_data sensor_data wifi_rssi w
  = (Ret tt, after_log_readings cfg env pl w)
  /\ (exists done,
        session_events cfg env pl = done ++ report cfg (Foreign x)
        /\ Forall (fun ev => is_publishing ev = true) done)
  /\ (forall w0 w1 w2,
        connect_wifi cfg env w0 = (Ret wifi_rssi, w1) ->
        get_weather_data cfg env w1 = (Ret ow_data, w2) ->
        get_sensor_readings cfg env w2 = (Ret sensor_data, w) ->
        (run cfg env py_str w0).1
        = if (debug_pin env (S (samples w)) =? 0)%Z then Ret tt
          else Stopped (DeepSleep (INTERVAL cfg * 1000))).
Proof.
  intros Hread pl Hfail. split; [ | split ].
  - apply (log_readings_run _ _ _ _ _ _ _ _ _ _ _ _ _ _ _ Hread).
  - apply session_events_on_failure, Hfail.
  - intros w0 w1 w2 Hjoin Hfetch Hsense.
    destruct (run_after_acquisition cfg env py_str _ _ _ _ _ _ _ Hjoin Hfetch Hsense)
      as (pl' & _ & _ & ->).
    destruct (debug_pin env (S (samples w)) =? 0)%Z; reflexivity.
Qed.

Lemma publish_failure_is_reported_not_raised_witness :
  session_failure config broker_down sample_payload = Some (LibExn "OSError" "ECONNREFUSED")
  /\ log_readings config broker_down sample_str sample_ow_data sample_sensor_data
       (VInt (-61)) boot
     = (Ret tt, after_log_readings config broker_down sample_payload boot)
  /\ session_events config broker_down sample_payload
     = [EvMqttConnect "effevees_weerstation" (MQTT_HOST config) 30]
       ++ report config (Foreign (LibExn "OSError" "ECONNREFUSED")).
Proof.
  assert (Hread : read_out sample_ow_data sample_sensor_data
                    (VFloat 10) (VInt 80) (VInt 1013)
                    (VFloat 10) (VFloat 10) (VFloat 0.1) (VFloat 10) (VFloat 2.5)).
  { repeat split; reflexivity. }
  destruct (publish_failure_is_reported_not_raised config broker_down sample_str
              sample_ow_data sample_sensor_data (VInt (-61)) boot
              (VFloat 10) (VInt 80) (VInt 1013)
              (VFloat 10) (VFloat 10) (VFloat 0.1) (VFloat 10) (VFloat 2.5)
              (LibExn "OSError" "ECONNREFUSED") Hread eq_refl)
    as (Hlog & _ & _).
  split; [reflexivity | split; [ | reflexivity ] ].
  rewrite Hlog. vm_compute. reflexivity.
Defined.

(** C1 as the specification words it does not hold: with a broker that
    refuses the connection and everything else working, [log_readings]
    returns and [run] ends in deep sleep, not in a reset. *)
Lemma publish_failure_does_not_restart :
  session_failure config broker_down sample_payload = Some (LibExn "OSError" "ECONNREFUSED")
  /\ (log_readings config broker_down sample_str sample_ow_data sample_sensor_data
        (VInt (-61)) boot).1 = Ret tt
  /\ (run config broker_down sample_str boot).1 = Stopped (DeepSleep 900000)
  /\ ~ publish_failure_restarts
         (session_failure config broker_down sample_payload)
         (log_readings config broker_down sample_str sample_ow_data sample_sensor_data
            (VInt (-61)) boot).1
         (run config broker_down sample_str boot).1.
Proof.
  split; [reflexivity | split; [vm_compute; reflexivity | split; [vm_compute; reflexivity | ] ] ].
  intros H. destruct (H _ eq_refl) as [_ Hrun].
  vm_compute in Hrun. discriminate Hrun.
Qed.

(** * Further properties *)

(** ** Joining the network, in general *)

(** The polling loop with a budget of [n] rounds makes some [k <= n]
    rounds: it finds the station disconnected [k] times, and stops on a
    connection unless the budget is used up. *)
Lemma wait_connected_run env n :
  forall w, exists k,
    k <= n
    /\ wait_connected env n w = (Ret tt, after_polling k w)
    /\ (forall j, j < k -> wlan_isconnected env (j + polls w) = false)
    /\ (k < n -> wlan_isconnected env (k + polls w) = true).
Proof.
  induction n as [|n IH]; intros w.
  - exists 0. split; [lia | ]. split; [ | split; [intros j Hj; lia | intros Hk; lia] ].
    unfold wait_connected, bind, isconnected.
    destruct (wlan_isconnected env (polls w));
      unfold ret, after_polling, polled; simpl; rewrite app_nil_r; reflexivity.
  - cbn [wait_connected]. unfold bind at 1. unfold isconnected at 1.
    destruct (wlan_isconnected env (polls w)) eqn:Hc.
    + exists 0. split; [lia | ]. split; [ | split; [intros j Hj; lia | intros _; exact Hc] ].
      unfold ret, after_polling, polled. simpl. rewrite app_nil_r. reflexivity.
    + destruct (IH (logged (EvSleep 1) (logged (EvPrintRaw ".") (polled w))))
        as (k & Hk & Hrun & Hoff & Hon).
      exists (S k). split; [lia | ]. split; [ | split ].
      * unfold sleep. erewrite !bind_Ret; [ | reflexivity | reflexivity ].
        rewrite Hrun. unfold after_polling, logged, polled. simpl.
        f_equal. f_equal; [ | lia ]. rewrite <- !app_assoc. reflexivity.
      * intros j Hj. destruct j as [|j]; [exact Hc | ].
        specialize (Hoff j ltac:(lia)). simpl in Hoff.
        replace (S j + polls w) with (j + S (polls w)) by lia. exact Hoff.
      * intros Hlt. specialize (Hon ltac:(lia)). simpl in Hon.
        replace (S k + polls w) with (k + S (polls w)) by lia. exact Hon.
Qed.

(** What [connect_wifi] does, whatever the network does. *)
Lemma connect_wifi_run cfg env w :
  exists k,
    k <= Z.to_nat (MAX_TRIES cfg)
    /\ (forall j, j < k -> wlan_isconnected env (j + S (polls w)) = false)
    /\ (k < Z.to_nat (MAX_TRIES cfg) -> wlan_isconnected env (polls w) = false ->
        wlan_isconnected env (k + S (polls w)) = true)
    /\ let w1 := before_last_poll cfg env k w in
       connect_wifi cfg env w
       = (if wlan_isconnected env (polls w1) then Ret (VInt (wlan_rssi env))
          else Raise (RuntimeError "WiFi connection failed"),
          after_last_poll cfg env w1).
Proof.
  unfold connect_wifi, before_last_poll.
  destruct (wlan_isconnected env (polls w)) eqn:Hc.
  - exists 0. split; [lia | ]. split; [intros j Hj; lia | ]. split; [intros _; discriminate | ].
    cbv zeta.
    erewrite bind_Ret; [ | reflexivity ].
    erewrite bind_Ret; [ | unfold isconnected; cbn [polls logged]; rewrite Hc; reflexivity ].
    cbn [negb]. run_step.
    unfold bind at 1. unfold isconnected at 1. unfold after_last_poll.
    destruct (wlan_isconnected env (polls (polled (logged (EvApActive false) w))));
      do 2 run_step; reflexivity.
  - destruct (wait_connected_run env (Z.to_nat (MAX_TRIES cfg))
                (logged (EvWlanConnect (SSID cfg) (PASS cfg))
                   (logged (EvStaActive true)
                      (logged (EvPrint "connecting to WiFi network...")
                         (polled (logged (EvApActive false) w))))))
      as (k & Hk & Hrun & Hoff & Hon).
    exists k. split; [exact Hk | ]. split; [ | split ].
    + intros j Hj. exact (Hoff j Hj).
    + intros Hlt _. exact (Hon Hlt).
    + cbv zeta.
      erewrite bind_Ret; [ | reflexivity ].
      erewrite bind_Ret; [ | unfold isconnected; cbn [polls logged]; rewrite Hc; reflexivity ].
      cbn [negb].
      erewrite bind_Ret; cycle 1.
      { erewrite !bind_Ret; [ | reflexivity | reflexivity | reflexivity ]. exact Hrun. }
      unfold bind at 1. unfold isconnected at 1. unfold after_last_poll.
      destruct (wlan_isconnected env (polls (after_polling k _)));
        do 2 run_step; reflexivity.
Qed.

Lemma polls_after_last_poll cfg env w1 : polls (after_last_poll cfg env w1) = S (polls w1).
Proof. unfold after_last_poll. destruct (wlan_isconnected env (polls w1)); reflexivity. Qed.

(** X1. Whatever the network does, the outcome of [connect_wifi] is
    decided by its last [isconnected()] alone: the signal strength when
    it answers true, [RuntimeError('WiFi connection failed')] when it
    answers false (also when the loop had seen a connection); no other
    exception, and the processor is never stopped. *)
Theorem connect_wifi_outcome (cfg : Config) (env : Env) (w : World) :
  (connect_wifi cfg env w).1
  = if wlan_isconnected env (pred (polls (connect_wifi cfg env w).2))
    then Ret (VInt (wlan_rssi env))
    else Raise (RuntimeError "WiFi connection failed").
Proof.
  destruct (connect_wifi_run cfg env w) as (k & _ & _ & _ & Hrun).
  cbv zeta in Hrun. rewrite Hrun. cbn [fst snd].
  rewrite polls_after_last_poll. reflexivity.
Qed.

(** X2. Whatever the network does, [connect_wifi] first disables the
    access-point interface, issues at most one connect request (none
    exactly when the station is connected at the first check) and waits
    at most [MAX_TRIES] times one second. *)
Theorem connect_wifi_is_bounded (cfg : Config) (env : Env) (w : World) :
  exists evs,
    trace (connect_wifi cfg env w).2 = trace w ++ EvApActive false :: evs
    /\ count_events is_connect_request evs <= 1
    /\ (count_events is_connect_request evs = 0 <-> wlan_isconnected env (polls w) = true)
    /\ count_events is_poll_wait evs <= Z.to_nat (MAX_TRIES cfg)
    /\ (wlan_isconnected env (polls w) = true -> count_events is_poll_wait evs = 0).
Proof.
  destruct (connect_wifi_run cfg env w) as (k & Hk & _ & _ & Hrun).
  cbv zeta in Hrun. rewrite Hrun. cbn [snd].
  unfold before_last_poll.
  destruct (wlan_isconnected env (polls w)) eqn:Hc.
  - assert (Hlast : exists last,
              trace (after_last_poll cfg env (polled (logged (EvApActive false) w)))
              = trace w ++ EvApActive false :: last
              /\ count_events is_connect_request last = 0
              /\ count_events is_poll_wait last = 0).
    { unfold after_last_poll.
      match goal with |- context [if ?c then _ else _] => destruct c end; eexists;
        (split; [cbn [trace logged polled]; rewrite <- !app_assoc; reflexivity
                | split; reflexivity ]). }
    destruct Hlast as (last & Ht & Hreq & Hwait).
    exists last. rewrite Ht, Hreq, Hwait.
    split; [reflexivity | ]. repeat split; try lia; reflexivity.
  - set (w0 := logged (EvWlanConnect (SSID cfg) (PASS cfg))
                 (logged (EvStaActive true)
                    (logged (EvPrint "connecting to WiFi network...")
                       (polled (logged (EvApActive false) w))))).
    assert (Hlast : exists last,
              trace (after_last_poll cfg env (after_polling k w0))
              = trace w ++ EvApActive false
                  :: [EvPrint "connecting to WiFi network..."; EvStaActive true;
                      EvWlanConnect (SSID cfg) (PASS cfg)]
                     ++ mjoin (replicate k [EvPrintRaw "."; EvSleep 1]) ++ last
              /\ count_events is_connect_request last = 0
              /\ count_events is_poll_wait last = 0).
    { unfold after_last_poll.
      match goal with |- context [if ?c then _ else _] => destruct c end; eexists;
        (split; [cbn [trace logged polled after_polling w0]; rewrite <- !app_assoc;
                 reflexivity
                | split; reflexivity ]). }
    destruct Hlast as (last & Ht & Hreq & Hwait).
    eexists. split; [exact Ht | ].
    rewrite !count_events_app, !count_events_rounds, Hreq, Hwait. cbn.
    simpl.
    repeat split; try lia; try discriminate.
Qed.

(** X3. When the station is already connected, [connect_wifi] returns the
    signal strength at once: the station interface is not activated, no
    connect request is issued and no time is spent waiting. *)
Theorem connect_wifi_when_connected (cfg : Config) (env : Env) (w : World) :
  wlan_isconnected env (polls w) = true ->
  wlan_isconnected env (S (polls w)) = true ->
  connect_wifi cfg env w
  = (Ret (VInt (wlan_rssi env)),
     {| trace := trace w
                 ++ [EvApActive false; EvPrint "";
                     EvPrintf "connected to {} network with ip address {}"
                       [Plain (VStr (SSID cfg)); Plain (VStr (wlan_ip env))]];
        polls := S (S (polls w)); scans := scans w; samples := samples w |}).
Proof.
  intros H0 H1.
  destruct (connect_wifi_run cfg env w) as (k & _ & _ & _ & Hrun).
  cbv zeta in Hrun. rewrite Hrun.
  unfold before_last_poll, after_last_poll. rewrite H0. cbn [polls polled logged].
  rewrite H1. unfold logged, polled. cbn. rewrite <- !app_assoc. reflexivity.
Qed.

Lemma connect_wifi_when_connected_witness :
  exists w',
    connect_wifi config fair_weather
      {| trace := []; polls := 2; scans := 0; samples := 0 |}
    = (Ret (VInt (-61)), w')
    /\ count_events is_connect_request (trace w') = 0.
Proof.
  eexists. split.
  - apply (connect_wifi_when_connected config fair_weather
             {| trace := []; polls := 2; scans := 0; samples := 0 |});
      reflexivity.
  - reflexivity.
Defined.

(** X4. When the station is found disconnected at the first [k + 1]
    checks and connected at every later one, with [k <= MAX_TRIES],
    [connect_wifi] issues one connect request, waits exactly [k] times
    one second and returns the signal strength. *)
Theorem connect_wifi_connects_after (cfg : Config) (env : Env) (w : World) (k : nat) :
  k <= Z.to_nat (MAX_TRIES cfg) ->
  (forall j, wlan_isconnected env (j + polls w) = (k <? j)) ->
  exists w' evs,
    connect_wifi cfg env w = (Ret (VInt (wlan_rssi env)), w')
    /\ trace w' = trace w ++ evs
    /\ count_events is_connect_request evs = 1
    /\ count_events is_poll_wait evs = k.
Proof.
  intros Hk Hstep.
  destruct (connect_wifi_run cfg env w) as (k' & Hk' & Hoff & Hon & Hrun).
  assert (Hc : wlan_isconnected env (polls w) = false).
  { pose proof (Hstep 0) as H0. cbn [Nat.add] in H0. rewrite H0.
    apply Nat.ltb_ge. lia. }
  assert (k' = k) as ->.
  { destruct (Nat.lt_trichotomy k' k) as [Hlt | [Heq | Hgt]]; [ | exact Heq | ].
    - specialize (Hon ltac:(lia) Hc).
      replace (k' + S (polls w)) with (S k' + polls w) in Hon by lia.
      rewrite Hstep in Hon. apply Nat.ltb_lt in Hon. lia.
    - specialize (Hoff k Hgt).
      replace (k + S (polls w)) with (S k + polls w) in Hoff by lia.
      rewrite Hstep in Hoff. apply Nat.ltb_ge in Hoff. lia. }
  cbv zeta in Hrun. rewrite Hrun.
  unfold before_last_poll, after_last_poll. rewrite Hc.
  cbn [polls after_polling logged polled].
  replace (S k + S (polls w)) with (S (S k) + polls w) by lia.
  rewrite Hstep. replace (k <? S (S k)) with true by (symmetry; apply Nat.ltb_lt; lia).
  eexists _, _. split; [reflexivity | ]. split.
  - cbn [trace logged polled after_polling]. rewrite <- !app_assoc. reflexivity.
  - cbn [app count_events is_connect_request is_poll_wait].
    rewrite !count_events_app, !count_events_rounds.
    simpl. split; lia.
Qed.

Lemma connect_wifi_connects_after_witness :
  exists w' evs,
    connect_wifi config fair_weather boot = (Ret (VInt (wlan_rssi fair_weather)), w')
    /\ trace w' = trace boot ++ evs
    /\ count_events is_connect_request evs = 1
    /\ count_events is_poll_wait evs = 1.
Proof.
  apply (connect_wifi_connects_after config fair_weather boot 1).
  - vm_compute. lia.
  - intros j. cbn [polls boot]. rewrite Nat.add_0_r.
    destruct j as [|[|j]]; reflexivity.
Defined.

(** ** Unit conversion, continued *)

(** X5. [temperature_2_unit] never reverses the order of two
    temperatures: when [c1] is at most [c2], the conversion of [c1] is at
    most the conversion of [c2], in either unit. *)
Theorem temperature_2_unit_keeps_order (cfg : Config) (c1 c2 : Q) :
  (c1 <= c2)%Q ->
  (temperature_2_unit cfg c1 <= temperature_2_unit cfg c2)%Q.
Proof.
  intros H. unfold temperature_2_unit. destruct (FAHRENHEIT cfg); [ | exact H ].
  assert (E : forall c : Q, (c * 9 / 5 + 32 == c * (9 # 5) + 32)%Q) by (intros c; field).
  rewrite !E. lra.
Qed.

Lemma temperature_2_unit_keeps_order_witness :
  (temperature_2_unit fahrenheit_config 10 <= temperature_2_unit fahrenheit_config 20)%Q.
Proof.
  apply (temperature_2_unit_keeps_order fahrenheit_config 10 20). discriminate.
Defined.

(** ** Collecting the sensor readings, continued *)

Lemma scan_inv_Ret env w found w' :
  scan env w = (Ret found, w') -> found = i2c_scan env (scans w) /\ w' = scanned w.
Proof. unfold scan. intros H. injection H as <- <-. split; reflexivity. Qed.

(** Runs [get_sensor_readings] as far as the answers are known, on both
    values of each debug pin sample. *)
Ltac run_sensors :=
  repeat first
    [ run_step
    | progress cbn [scans scanned logged sampled]
    | rewrite bool_decide_eq_false_2 by (intros Hn; apply Hn; assumption)
    | rewrite bool_decide_eq_true_2 by assumption
    | match goal with
      | |- context [(?x =? 0)%Z] => destruct (x =? 0)%Z
      end ].

(** From a run of [get_sensor_readings] that returned: the sensors were
    found, the drivers answered, and the reading set is made of their
    answers. *)
Lemma get_sensor_readings_inv_Ret cfg env w d :
  (get_sensor_readings cfg env w).1 = Ret d ->
  exists t1 h1 t2 p2 a2 l3,
    sensors_found env w /\ sensors_answer env t1 h1 t2 p2 a2 l3
    /\ d = reading_set cfg t1 h1 t2 p2 a2 l3 (adc_read_u16 env).
Proof.
  destruct (get_sensor_readings cfg env w) as [o w'] eqn:H. simpl. intros ->.
  unfold get_sensor_readings in H. inv_run H.
  all: repeat match goal with
         | H : scan _ _ = (Ret _, _) |- _ => apply scan_inv_Ret in H as [? ?]; subst
         | H : bool_decide _ = false |- _ => apply bool_decide_eq_false in H
         | u : unit |- _ => destruct u
         end.
  all: cbn [scans scanned logged sampled] in *.
  all: eexists _, _, _, _, _, _.
  all: split; [ | split; [ | reflexivity ] ].
  all: try (unfold sensors_answer; repeat split; eassumption).
  all: unfold sensors_found; repeat split.
  all: match goal with
       | H : ~ (?x ∉ ?l) |- ?x ∈ ?l' =>
           destruct (decide (x ∈ l')) as [Hin|Hout]; [exact Hin | exfalso; exact (H Hout)]
       end.
Qed.

(** With the sensors found and the drivers answering,
    [get_sensor_readings] returns the reading set of their answers. *)
Lemma get_sensor_readings_run cfg env w t1 h1 t2 p2 a2 l3 :
  sensors_found env w ->
  sensors_answer env t1 h1 t2 p2 a2 l3 ->
  (get_sensor_readings cfg env w).1
  = Ret (reading_set cfg t1 h1 t2 p2 a2 l3 (adc_read_u16 env)).
Proof.
  intros (H92 & H119 & H35) (Hm & Ht1 & Hh1 & Ht2 & Hp2 & Ha2 & Hl3).
  unfold get_sensor_readings. rewrite Hm, Ht1, Hh1, Ht2, Hp2, Ha2, Hl3.
  run_sensors. all: reflexivity.
Qed.

(** X6. [get_sensor_readings] returns exactly when the three sensors are
    on the bus at the second, third and fourth scan and the drivers
    answer; the reading set then holds the two temperatures converted
    once to the configured unit, the pressure divided by 100, the
    humidity, altitude and luminance as read, and the battery voltage
    [3.3 * 1.27 * u / 65536] of the ADC count [u]. *)
Theorem get_sensor_readings_Ret_iff (cfg : Config) (env : Env) (w : World)
    (d : gmap string value) :
  (get_sensor_readings cfg env w).1 = Ret d
  <-> exists t1 h1 t2 p2 a2 l3,
        sensors_found env w /\ sensors_answer env t1 h1 t2 p2 a2 l3
        /\ d = reading_set cfg t1 h1 t2 p2 a2 l3 (adc_read_u16 env).
Proof.
  split.
  - apply get_sensor_readings_inv_Ret.
  - intros (t1 & h1 & t2 & p2 & a2 & l3 & Hfound & Hanswer & ->).
    apply get_sensor_readings_run; assumption.
Qed.

(** X7. For a 16-bit ADC count, the battery voltage of a reading set
    that [get_sensor_readings] returns lies between 0 and 4.191 volts
    (3.3 V at the pin times the divider ratio 1.27), the upper bound
    being excluded. *)
Theorem bat_volt_is_bounded (cfg : Config) (env : Env) (w : World)
    (d : gmap string value) :
  (0 <= adc_read_u16 env < 2 ^ 16)%Z ->
  (get_sensor_readings cfg env w).1 = Ret d ->
  exists v, d !! "bat_volt" = Some (VFloat v) /\ (0 <= v)%Q /\ (v < 4.191)%Q.
Proof.
  intros [Hlo Hhi] Hd.
  apply get_sensor_readings_inv_Ret in Hd as (t1 & h1 & t2 & p2 & a2 & l3 & _ & _ & ->).
  eexists. split; [reflexivity | ].
  change (inject_Z (2 ^ 16)) with 65536%Q.
  assert (E : forall q : Q, (3.3 * 1.27 * (q / 65536) == q * (4191 # 65536000))%Q)
    by (intros q; field).
  rewrite E.
  assert (H0 : (inject_Z 0 <= inject_Z (adc_read_u16 env))%Q) by (rewrite <- Zle_Qle; exact Hlo).
  assert (H1 : (inject_Z (adc_read_u16 env) < inject_Z (2 ^ 16))%Q)
    by (rewrite <- Zlt_Qlt; exact Hhi).
  change (inject_Z 0) with 0%Q in H0. change (inject_Z (2 ^ 16)) with 65536%Q in H1.
  split; lra.
Qed.

Lemma bat_volt_is_bounded_witness :
  exists v,
    returned (get_sensor_readings config fair_weather boot) ∅ !! "bat_volt" = Some (VFloat v)
    /\ (0 <= v)%Q /\ (v < 4.191)%Q.
Proof.
  apply (bat_volt_is_bounded config fair_weather boot).
  - vm_compute. split; [discriminate | reflexivity].
  - vm_compute. reflexivity.
Defined.

(** X8. The exceptions of [get_sensor_readings]: a [RuntimeError] naming
    the sensor that the deciding scan did not report, or the exception
    of the driver operation that failed, unchanged.  The diagnostic
    messages never fail, and the processor is never stopped. *)
Theorem get_sensor_readings_exceptions (cfg : Config) (env : Env) (w : World) :
  (forall e, (get_sensor_readings cfg env w).1 = Raise e ->
     (e = RuntimeError "Cannot find AM2320 sensor" /\ 92%Z ∉ i2c_scan env (1 + scans w))
     \/ (e = RuntimeError "Cannot find BMP180 sensor" /\ 119%Z ∉ i2c_scan env (2 + scans w))
     \/ (e = RuntimeError "Cannot find BH1750 sensor" /\ 35%Z ∉ i2c_scan env (3 + scans w))
     \/ (exists x, e = Foreign x
                   /\ (sensor_measure env = Fails x
                       \/ exists s q, sensor_read env s q = Fails x)))
  /\ (forall p, (get_sensor_readings cfg env w).1 <> Stopped p).
Proof.
  split.
  - intros e. destruct (get_sensor_readings cfg env w) as [o w'] eqn:H. simpl. intros ->.
    unfold get_sensor_readings in H. inv_raise H.
    all: repeat match goal with
           | H : scan _ _ = (Ret _, _) |- _ => apply scan_inv_Ret in H as [? ?]; subst
           | H : scan _ _ = (Raise _, _) |- _ => discriminate H
           | H : bool_decide _ = true |- _ => apply bool_decide_eq_true in H
           | H : forallb farg_ok _ = false |- _ => discriminate H
           end.
    all: cbn [scans scanned logged sampled] in *.
    all: try (left; split; [reflexivity | assumption]).
    all: try (right; left; split; [reflexivity | assumption]).
    all: try (right; right; left; split; [reflexivity | assumption]).
    all: right; right; right; eexists; split; [reflexivity | ].
    all: first [ left; assumption | right; eexists _, _; eassumption ].
  - intros p.
    assert (H : behaves (get_sensor_readings cfg env) any any none any) by behaves_auto.
    destruct (H w) as (evs & _ & _ & Ho). intros E. rewrite E in Ho. exact Ho.
Qed.

(** X9. A sensor that the deciding scan does not report is reported by
    name, once the sensors before it were read: the BMP180 at the third
    scan (address 119), the BH1750 at the fourth (address 35). *)
Theorem missing_sensor_is_reported (cfg : Config) (env : Env) (w : World) (t1 h1 : Q) :
  92%Z ∈ i2c_scan env (1 + scans w) ->
  sensor_measure env = Done tt ->
  sensor_read env AM2320 Temperature = Done t1 ->
  sensor_read env AM2320 Humidity = Done h1 ->
  (119%Z ∉ i2c_scan env (2 + scans w) ->
   (get_sensor_readings cfg env w).1 = Raise (RuntimeError "Cannot find BMP180 sensor"))
  /\ (forall t2 p2 a2,
        119%Z ∈ i2c_scan env (2 + scans w) ->
        sensor_read env BMP180 Temperature = Done t2 ->
        sensor_read env BMP180 Pressure = Done p2 ->
        sensor_read env BMP180 Altitude = Done a2 ->
        35%Z ∉ i2c_scan env (3 + scans w) ->
        (get_sensor_readings cfg env w).1 = Raise (RuntimeError "Cannot find BH1750 sensor")).
Proof.
  intros H92 Hm Ht1 Hh1. split.
  - intros H119. unfold get_sensor_readings. rewrite Hm, Ht1, Hh1.
    run_sensors. all: reflexivity.
  - intros t2 p2 a2 H119 Ht2 Hp2 Ha2 H35.
    unfold get_sensor_readings. rewrite Hm, Ht1, Hh1, Ht2, Hp2, Ha2.
    run_sensors. all: reflexivity.
Qed.

Lemma missing_sensor_is_reported_witness :
  (get_sensor_readings config
     (with_scan (with_scan fair_weather 2 [92%Z]) 3 [92; 119]%Z) boot).1
  = Raise (RuntimeError "Cannot find BMP180 sensor")
  /\ (get_sensor_readings config (with_scan fair_weather 3 [92; 119]%Z) boot).1
     = Raise (RuntimeError "Cannot find BH1750 sensor").
Proof.
  split.
  - apply (missing_sensor_is_reported config
             (with_scan (with_scan fair_weather 2 [92%Z]) 3 [92; 119]%Z) boot 10%Q 10%Q);
      try reflexivity; compute_done.
  - apply (missing_sensor_is_reported config (with_scan fair_weather 3 [92; 119]%Z)
             boot 10%Q 10%Q) with (t2 := 10%Q) (p2 := 10%Q) (a2 := 10%Q);
      try reflexivity; compute_done.
Defined.

(** X10. A failed measurement is not retried: when the AM2320 is on the
    bus and [am2320.measure()] fails, [get_sensor_readings] raises that
    failure at once, after the entry message, two scans and the one
    measurement; nothing is read and no other sensor is approached. *)
Theorem failed_measure_aborts (cfg : Config) (env : Env) (w : World) (x : lib_exn) :
  92%Z ∈ i2c_scan env (1 + scans w) ->
  sensor_measure env = Fails x ->
  get_sensor_readings cfg env w
  = (Raise (Foreign x),
     {| trace := trace w ++ [EvPrint "Getting sensor readings"; EvI2CScan; EvI2CScan;
                             EvMeasure AM2320];
        polls := polls w; scans := 2 + scans w; samples := samples w |}).
Proof.
  intros H92 Hm. unfold get_sensor_readings. rewrite Hm.
  do 3 run_step. cbn [scans scanned logged].
  rewrite bool_decide_eq_false_2 by (intros Hn; apply Hn; assumption).
  run_step. erewrite bind_Raise; [ | reflexivity ].
  unfold logged, scanned. cbn. rewrite <- !app_assoc. reflexivity.
Qed.

Lemma failed_measure_aborts_witness :
  get_sensor_readings config deaf_sensor boot
  = (Raise (Foreign (LibExn "OSError" "[Errno 19] ENODEV")),
     {| trace := trace boot ++ [EvPrint "Getting sensor readings"; EvI2CScan; EvI2CScan;
                                EvMeasure AM2320];
        polls := polls boot; scans := 2 + scans boot; samples := samples boot |}).
Proof.
  apply (failed_measure_aborts config deaf_sensor boot).
  - compute_done.
  - reflexivity.
Defined.

(** ** The cycle, continued *)

Lemma published_none evs :
  Forall (fun ev => is_publishing ev = false) evs -> published evs = [].
Proof.
  induction 1 as [|ev evs Hev _ IH]; [reflexivity | ].
  destruct ev; try discriminate Hev; exact IH.
Qed.

Lemma count_events_none f evs :
  Forall (fun ev => f ev = false) evs -> count_events f evs = 0.
Proof.
  induction 1 as [|ev evs Hev _ IH]; [reflexivity | ].
  cbn [count_events]. rewrite Hev, IH. reflexivity.
Qed.

(** The acquisition stages do not touch the broker, and do not stop the
    processor. *)
Lemma acquisition_is_silent cfg env :
  behaves (connect_wifi cfg env) (fun ev => is_publishing ev = false) any none any
  /\ behaves (get_weather_data cfg env) (fun ev => is_publishing ev = false) any none any
  /\ behaves (get_sensor_readings cfg env) (fun ev => is_publishing ev = false) any none any.
Proof. split; [ | split ]; behaves_auto. Qed.

(** A cycle either acquires its three data sets or fails in one of the
    acquisition stages; up to there the broker was not touched. *)
Lemma acquisition_cases cfg env w :
  (exists wifi_rssi w1 ow_data w2 sensor_data w3 evs,
     connect_wifi cfg env w = (Ret wifi_rssi, w1)
     /\ get_weather_data cfg env w1 = (Ret ow_data, w2)
     /\ get_sensor_readings cfg env w2 = (Ret sensor_data, w3)
     /\ trace w3 = trace w ++ evs
     /\ Forall (fun ev => is_publishing ev = false) evs)
  \/ (exists e w' evs,
        acquisition_fails cfg env w e w'
        /\ trace w' = trace w ++ evs
        /\ Forall (fun ev => is_publishing ev = false) evs).
Proof.
  destruct (acquisition_is_silent cfg env) as (H1 & H2 & H3).
  destruct (H1 w) as (evs1 & Ht1 & HP1 & Ho1).
  destruct (connect_wifi cfg env w) as [[wifi_rssi|e|p] w1] eqn:E1; cbn [fst snd] in *;
    [ | | destruct Ho1 ].
  2: { right. exists e, w1, evs1. split; [left; exact E1 | split; assumption]. }
  destruct (H2 w1) as (evs2 & Ht2 & HP2 & Ho2).
  destruct (get_weather_data cfg env w1) as [[ow_data|e|p] w2] eqn:E2; cbn [fst snd] in *;
    [ | | destruct Ho2 ].
  2: { right. exists e, w2, (evs1 ++ evs2). split; [ | split ].
       - right. exists wifi_rssi, w1. split; [exact E1 | left; exact E2].
       - rewrite Ht2, Ht1, <- app_assoc. reflexivity.
       - apply Forall_app; split; assumption. }
  destruct (H3 w2) as (evs3 & Ht3 & HP3 & Ho3).
  assert (Ht : trace (get_sensor_readings cfg env w2).2 = trace w ++ evs1 ++ evs2 ++ evs3)
    by (rewrite Ht3, Ht2, Ht1, <- !app_assoc; reflexivity).
  assert (HP : Forall (fun ev => is_publishing ev = false) (evs1 ++ evs2 ++ evs3)).
  { apply Forall_app; split; [assumption | ]. apply Forall_app; split; assumption. }
  destruct (get_sensor_readings cfg env w2) as [[sensor_data|e|p] w3] eqn:E3;
    cbn [fst snd] in *; [ | | destruct Ho3 ].
  - left. exists wifi_rssi, w1, ow_data, w2, sensor_data, w3, (evs1 ++ evs2 ++ evs3).
    repeat first [assumption | reflexivity | split].
  - right. exists e, w3, (evs1 ++ evs2 ++ evs3). split; [ | split; assumption ].
    right. exists wifi_rssi, w1. split; [exact E1 | right].
    exists ow_data, w2. split; [exact E2 | exact E3].
Qed.

Lemma stages_when_acquisition_fails cfg env py_str w e w' :
  acquisition_fails cfg env w e w' -> stages cfg env py_str w = (Raise e, w').
Proof.
  unfold stages.
  intros [E1 | (wifi_rssi & w1 & E1 & [E2 | (ow_data & w2 & E2 & E3)])].
  - erewrite bind_Raise; [reflexivity | exact E1].
  - erewrite bind_Ret; [ | exact E1 ]. erewrite bind_Raise; [reflexivity | exact E2].
  - erewrite bind_Ret; [ | exact E1 ]. erewrite bind_Ret; [ | exact E2 ].
    erewrite bind_Raise; [reflexivity | exact E3].
Qed.

Lemma published_report cfg e : published (report cfg e ++ [EvSleep 5; EvReset]) = [].
Proof. reflexivity. Qed.

(** What a cycle publishes: the one message of [log_readings] when the
    three data sets were acquired and the broker took the connection,
    nothing otherwise. *)
Lemma published_of_run cfg env py_str w :
  (exists wifi_rssi w1 ow_data w2 sensor_data w3 pl,
     connect_wifi cfg env w = (Ret wifi_rssi, w1)
     /\ get_weather_data cfg env w1 = (Ret ow_data, w2)
     /\ get_sensor_readings cfg env w2 = (Ret sensor_data, w3)
     /\ published (trace (run cfg env py_str w).2)
        = published (trace w)
          ++ match mqtt_connect env with
             | Done _ => [(MQTT_TOPIC cfg, pl)]
             | Fails _ => []
             end)
  \/ (exists e w',
        acquisition_fails cfg env w e w'
        /\ run cfg env py_str w = (Stopped HardReset, after_recover cfg e w')
        /\ published (trace (run cfg env py_str w).2) = published (trace w)).
Proof.
  destruct (acquisition_cases cfg env w)
    as [(wifi_rssi & w1 & ow_data & w2 & sensor_data & w3 & evs & E1 & E2 & E3 & Ht & HP)
       | (e & w' & evs & Hfail & Ht & HP)].
  - left.
    destruct (run_after_acquisition cfg env py_str _ _ _ _ _ _ _ E1 E2 E3)
      as (pl & _ & _ & Hrun).
    exists wifi_rssi, w1, ow_data, w2, sensor_data, w3, pl.
    split; [exact E1 | split; [exact E2 | split; [exact E3 | ] ] ].
    rewrite Hrun.
    assert (Hpub : published (trace (after_log_readings cfg env pl w3))
                   = published (trace w)
                     ++ match mqtt_connect env with
                        | Done _ => [(MQTT_TOPIC cfg, pl)]
                        | Fails _ => []
                        end).
    { unfold after_log_readings. cbn [trace].
      rewrite Ht, !published_app, published_session_events, (published_none _ HP).
      destruct (debug_pin env (samples w3) =? 0)%Z; cbn [published app];
        rewrite !app_nil_r; reflexivity. }
    destruct (debug_pin env (S (samples w3)) =? 0)%Z; cbn [snd].
    + exact Hpub.
    + unfold after_deepsleep. cbn [trace]. rewrite published_app, Hpub.
      cbn [published]. rewrite app_nil_r. reflexivity.
  - right. exists e, w'.
    pose proof (run_when_stages_raise cfg env py_str w e w'
                  (stages_when_acquisition_fails _ _ _ _ _ _ Hfail)) as Hrun.
    split; [exact Hfail | split; [exact Hrun | ] ].
    rewrite Hrun. unfold after_recover. cbn [snd trace].
    rewrite Ht, published_app, published_report, published_app, (published_none _ HP),
      !app_nil_r.
    reflexivity.
Qed.

(** X11. Whichever acquisition stage fails (joining the network,
    fetching the forecast or reading the sensors), [run] reports that
    very exception, resets the processor five seconds later, and has
    published nothing. *)
Theorem failed_acquisition_resets
    (cfg : Config) (env : Env) (py_str : value -> string) (w : World) (e : exn) (w' : World) :
  acquisition_fails cfg env w e w' ->
  run cfg env py_str w = (Stopped HardReset, after_recover cfg e w')
  /\ trace (run cfg env py_str w).2 = trace w' ++ report cfg e ++ [EvSleep 5; EvReset]
  /\ published (trace (run cfg env py_str w).2) = published (trace w).
Proof.
  intros Hfail.
  pose proof (run_when_stages_raise cfg env py_str w e w'
                (stages_when_acquisition_fails _ _ _ _ _ _ Hfail)) as Hrun.
  split; [exact Hrun | split ].
  - rewrite Hrun. reflexivity.
  - destruct (acquisition_cases cfg env w)
      as [(wifi_rssi & w1 & ow_data & w2 & sensor_data & w3 & evs & E1 & E2 & E3 & _)
         | (e0 & w0 & evs & Hfail0 & Ht & HP)].
    + exfalso.
      destruct Hfail as [F1 | (r & v1 & F1 & [F2 | (o & v2 & F2 & F3)])].
      * rewrite E1 in F1. discriminate F1.
      * rewrite E1 in F1. injection F1 as <- <-. rewrite E2 in F2. discriminate F2.
      * rewrite E1 in F1. injection F1 as <- <-. rewrite E2 in F2. injection F2 as <- <-.
        rewrite E3 in F3. discriminate F3.
    + pose proof (stages_when_acquisition_fails _ _ py_str _ _ _ Hfail) as S1.
      pose proof (stages_when_acquisition_fails _ _ py_str _ _ _ Hfail0) as S0.
      rewrite S1 in S0. injection S0 as <- <-.
      rewrite Hrun. unfold after_recover. cbn [snd trace].
      rewrite Ht, published_app, published_report, published_app, (published_none _ HP),
      !app_nil_r.
      reflexivity.
Qed.

Lemma failed_acquisition_resets_witness :
  run config deaf_sensor sample_str boot
  = (Stopped HardReset,
     after_recover config (Foreign (LibExn "OSError" "[Errno 19] ENODEV"))
       (stages config deaf_sensor sample_str boot).2)
  /\ published (trace (run config deaf_sensor sample_str boot).2) = [].
Proof.
  destruct (failed_acquisition_resets config deaf_sensor sample_str boot
              (Foreign (LibExn "OSError" "[Errno 19] ENODEV"))
              (stages config deaf_sensor sample_str boot).2) as (Hrun & _ & Hpub).
  - right. exists (VInt (-61)), (connect_wifi config deaf_sensor boot).2.
    split; [vm_compute; reflexivity | right].
    exists (returned (get_weather_data config deaf_sensor
                        (connect_wifi config deaf_sensor boot).2) ∅),
           (get_weather_data config deaf_sensor (connect_wifi config deaf_sensor boot).2).2.
    split; vm_compute; reflexivity.
  - split; [exact Hrun | exact Hpub].
Defined.

(** X12. [run] never lets an exception out, and ends in one of three
    ways: it returns, with no reset and no sleep since the start of the
    cycle; or the processor is reset; or it is put into deep sleep for
    [INTERVAL * 1000] milliseconds.  A reset or a sleep is the last thing
    that the cycle does, and the only power transition in it. *)
Theorem run_outcomes (cfg : Config) (env : Env) (py_str : value -> string) (w : World) :
  exists evs,
    trace (run cfg env py_str w).2 = trace w ++ evs
    /\ (((run cfg env py_str w).1 = Ret tt /\ count_events is_power_transition evs = 0)
        \/ (exists evs',
              (run cfg env py_str w).1 = Stopped HardReset
              /\ evs = evs' ++ [EvReset]
              /\ count_events is_power_transition evs' = 0)
        \/ (exists evs',
              (run cfg env py_str w).1 = Stopped (DeepSleep (INTERVAL cfg * 1000))
              /\ evs = evs' ++ [EvDeepSleep (INTERVAL cfg * 1000)]
              /\ count_events is_power_transition evs' = 0)).
Proof.
  destruct (stages_stay_awake cfg env py_str w) as (evs & Ht & HP & Ho).
  apply count_events_none in HP.
  destruct (stages cfg env py_str w) as [[[]|e|p] w1] eqn:Hstages; cbn [fst snd] in *;
    [ | | destruct Ho ].
  - rewrite (run_when_stages_return _ _ _ _ _ Hstages).
    destruct (debug_pin env (samples w1) =? 0)%Z; cbn [fst snd].
    + exists evs. split; [exact Ht | left; split; [reflexivity | exact HP] ].
    + exists (evs ++ [EvPrintf "Going into deepsleep for {} seconds..."
                        [Plain (VInt (INTERVAL cfg))];
                      EvSleep 2; EvDeepSleep (INTERVAL cfg * 1000)]).
      split.
      * unfold after_deepsleep. cbn [trace]. rewrite Ht, <- app_assoc. reflexivity.
      * right; right.
        exists (evs ++ [EvPrintf "Going into deepsleep for {} seconds..."
                          [Plain (VInt (INTERVAL cfg))]; EvSleep 2]).
        split; [reflexivity | split].
        -- rewrite <- app_assoc. reflexivity.
        -- rewrite count_events_app, HP. reflexivity.
  - rewrite (run_when_stages_raise _ _ _ _ _ _ Hstages). cbn [fst snd].
    exists (evs ++ report cfg e ++ [EvSleep 5; EvReset]). split.
    + unfold after_recover. cbn [trace]. rewrite Ht, <- app_assoc. reflexivity.
    + right; left. exists (evs ++ report cfg e ++ [EvSleep 5]).
      split; [reflexivity | split].
      * rewrite <- !app_assoc. reflexivity.
      * rewrite count_events_app, HP. reflexivity.
Qed.

(** X13. Nothing is published unless the three acquisition stages
    returned and the broker took the connection; a cycle then publishes
    exactly one message, to the configured topic. *)
Theorem nothing_published_unless_acquired
    (cfg : Config) (env : Env) (py_str : value -> string) (w : World) :
  published (trace (run cfg env py_str w).2) <> published (trace w) ->
  mqtt_connect env = Done tt
  /\ exists wifi_rssi w1 ow_data w2 sensor_data w3 pl,
       connect_wifi cfg env w = (Ret wifi_rssi, w1)
       /\ get_weather_data cfg env w1 = (Ret ow_data, w2)
       /\ get_sensor_readings cfg env w2 = (Ret sensor_data, w3)
       /\ published (trace (run cfg env py_str w).2)
          = published (trace w) ++ [(MQTT_TOPIC cfg, pl)].
Proof.
  intros Hpub.
  destruct (published_of_run cfg env py_str w)
    as [(wifi_rssi & w1 & ow_data & w2 & sensor_data & w3 & pl & E1 & E2 & E3 & Hp)
       | (e & w' & _ & _ & Hp)]; [ | contradiction ].
  destruct (mqtt_connect env) as [[]|x].
  - split; [reflexivity | ].
    exists wifi_rssi, w1, ow_data, w2, sensor_data, w3, pl.
    repeat first [assumption | split].
  - rewrite app_nil_r in Hp. contradiction.
Qed.

Lemma nothing_published_unless_acquired_witness :
  mqtt_connect fair_weather = Done tt
  /\ exists wifi_rssi w1 ow_data w2 sensor_data w3 pl,
       connect_wifi config fair_weather boot = (Ret wifi_rssi, w1)
       /\ get_weather_data config fair_weather w1 = (Ret ow_data, w2)
       /\ get_sensor_readings config fair_weather w2 = (Ret sensor_data, w3)
       /\ published (trace (run config fair_weather sample_str boot).2)
          = published (trace boot) ++ [(MQTT_TOPIC config, pl)].
Proof.
  apply (nothing_published_unless_acquired config fair_weather sample_str boot).
  vm_compute. discriminate.
Defined.

(** X14. From the sensors to the broker: in a cycle that joins the
    network with signal strength [wifi_rssi], obtains the forecast set
    [ow_data] and finds and reads its three sensors, the message handed
    to the broker is the forecasts record of [ow_data] followed by the
    actuals record made of the AM2320 temperature in the configured unit,
    the AM2320 humidity, the BMP180 pressure divided by 100, the
    luminance, the battery voltage and the signal strength.  The BMP180
    temperature and altitude are not part of it. *)
Theorem run_publishes_the_readings
    (cfg : Config) (env : Env) (py_str : value -> string)
    (w : World) (wifi_rssi : value) (w1 : World) (ow_data : gmap string value) (w2 : World)
    (t1 h1 t2 p2 a2 l3 : Q) :
  connect_wifi cfg env w = (Ret wifi_rssi, w1) ->
  get_weather_data cfg env w1 = (Ret ow_data, w2) ->
  sensors_found env w2 ->
  sensors_answer env t1 h1 t2 p2 a2 l3 ->
  exists ow_temp ow_hum ow_pres,
    ow_data !! "ow_temp" = Some ow_temp
    /\ ow_data !! "ow_hum" = Some ow_hum
    /\ ow_data !! "ow_pres" = Some ow_pres
    /\ published (trace (run cfg env py_str w).2)
       = published (trace w)
         ++ match mqtt_connect env with
            | Done _ =>
                [(MQTT_TOPIC cfg,
                  (forecasts_line cfg py_str ow_temp ow_hum ow_pres +:+ CRLF)
                  +:+ (actuals_line cfg py_str
                         (VFloat (temperature_2_unit cfg t1)) (VFloat h1)
                         (VFloat (p2 / 100)) (VFloat l3)
                         (VFloat (3.3 * 1.27
                                  * (inject_Z (adc_read_u16 env) / inject_Z (2 ^ 16))))
                         wifi_rssi
                       +:+ CRLF))]
            | Fails _ => []
            end.
Proof.
  intros E1 E2 Hfound Hanswer.
  assert (E3 : (get_sensor_readings cfg env w2).1
               = Ret (reading_set cfg t1 h1 t2 p2 a2 l3 (adc_read_u16 env))).
  { apply get_sensor_readings_run; assumption. }
  destruct (get_sensor_readings cfg env w2) as [o w3] eqn:E3'. cbn [fst] in E3. subst o.
  destruct (acquired_readings _ _ _ _ _ _ _ E2 E3')
    as (ow_temp & ow_hum & ow_pres & ? & ? & ? & ? & ? & Ho1 & Ho2 & Ho3 & _).
  exists ow_temp, ow_hum, ow_pres.
  split; [exact Ho1 | split; [exact Ho2 | split; [exact Ho3 | ] ] ].
  assert (Hread : read_out ow_data (reading_set cfg t1 h1 t2 p2 a2 l3 (adc_read_u16 env))
                    ow_temp ow_hum ow_pres
                    (VFloat (temperature_2_unit cfg t1)) (VFloat h1)
                    (VFloat (p2 / 100)) (VFloat l3)
                    (VFloat (3.3 * 1.27 * (inject_Z (adc_read_u16 env) / inject_Z (2 ^ 16))))).
  { repeat first [assumption | reflexivity | split]. }
  pose proof (log_readings_run cfg env py_str _ _ wifi_rssi w3 _ _ _ _ _ _ _ _ Hread) as Hlog.
  set (pl := (forecasts_line cfg py_str ow_temp ow_hum ow_pres +:+ CRLF) +:+ _) in *.
  assert (Hstages : stages cfg env py_str w = (Ret tt, after_log_readings cfg env pl w3)).
  { unfold stages.
    erewrite bind_Ret; [ | exact E1 ].
    erewrite bind_Ret; [ | exact E2 ].
    erewrite bind_Ret; [ | exact E3' ].
    exact Hlog. }
  destruct (acquisition_is_silent cfg env) as (H1 & H2 & H3).
  destruct (H1 w) as (evs1 & Ht1 & HP1 & _). rewrite E1 in Ht1.
  destruct (H2 w1) as (evs2 & Ht2 & HP2 & _). rewrite E2 in Ht2.
  destruct (H3 w2) as (evs3 & Ht3 & HP3 & _). rewrite E3' in Ht3.
  cbn [snd] in Ht1, Ht2, Ht3.
  assert (Hpub : published (trace (after_log_readings cfg env pl w3))
                 = published (trace w)
                   ++ match mqtt_connect env with
                      | Done _ => [(MQTT_TOPIC cfg, pl)]
                      | Fails _ => []
                      end).
  { unfold after_log_readings. cbn [trace].
    rewrite Ht3, Ht2, Ht1, !published_app, published_session_events.
    rewrite (published_none _ HP1), (published_none _ HP2), (published_none _ HP3).
    destruct (debug_pin env (samples w3) =? 0)%Z; cbn [published app];
      rewrite !app_nil_r; reflexivity. }
  rewrite (run_when_stages_return _ _ _ _ _ Hstages).
  destruct (debug_pin env (samples (after_log_readings cfg env pl w3)) =? 0)%Z; cbn [snd].
  - exact Hpub.
  - unfold after_deepsleep. cbn [trace]. rewrite published_app, Hpub.
    cbn [published]. rewrite app_nil_r. reflexivity.
Qed.

Lemma run_publishes_the_readings_witness :
  exists ow_temp ow_hum ow_pres,
    returned (get_weather_data config fair_weather
                (connect_wifi config fair_weather boot).2) ∅ !! "ow_temp" = Some ow_temp
    /\ returned (get_weather_data config fair_weather
                   (connect_wifi config fair_weather boot).2) ∅ !! "ow_hum" = Some ow_hum
    /\ returned (get_weather_data config fair_weather
                   (connect_wifi config fair_weather boot).2) ∅ !! "ow_pres" = Some ow_pres
    /\ published (trace (run config fair_weather sample_str boot).2)
       = published (trace boot)
         ++ match mqtt_connect fair_weather with
            | Done _ =>
                [(MQTT_TOPIC config,
                  (forecasts_line config sample_str ow_temp ow_hum ow_pres +:+ CRLF)
                  +:+ (actuals_line config sample_str
                         (VFloat (temperature_2_unit config 10)) (VFloat 10)
                         (VFloat (10 / 100)) (VFloat 10)
                         (VFloat (3.3 * 1.27
                                  * (inject_Z (adc_read_u16 fair_weather)
                                     / inject_Z (2 ^ 16))))
                         (VInt (-61))
                       +:+ CRLF))]
            | Fails _ => []
            end.
Proof.
  apply (run_publishes_the_readings config fair_weather sample_str boot (VInt (-61))
           (connect_wifi config fair_weather boot).2
           (returned (get_weather_data config fair_weather
                        (connect_wifi config fair_weather boot).2) ∅)
           (get_weather_data config fair_weather (connect_wifi config fair_weather boot).2).2
           10 10 10 10 10 10).
  - vm_compute. reflexivity.
  - vm_compute. reflexivity.
  - unfold sensors_found. repeat split; compute_done.
  - repeat split; reflexivity.
Defined.

(** ** Publishing, continued *)

(** [log_readings] either finds its eight readings or stops at the
    first one that is missing, before it has contacted the broker. *)
Lemma log_readings_cases cfg env py_str ow_data sensor_data wifi_rssi w :
  (exists ow_temp ow_hum ow_pres ac_temp ac_hum ac_pres ac_lum ac_batv,
     read_out ow_data sensor_data ow_temp ow_hum ow_pres ac_temp ac_hum ac_pres ac_lum ac_batv)
  \/ (exists k,
        (ow_data !! k = None \/ sensor_data !! k = None)
        /\ log_readings cfg env py_str ow_data sensor_data wifi_rssi w
           = (Raise (KeyError k), logged (EvPrint "Upload readings to MQTT broker") w)).
Proof.
  unfold log_readings, dict_get, read_out.
  destruct (ow_data !! "ow_temp") as [v1|] eqn:K1;
    [ | right; exists "ow_temp"; split; [left; exact K1 | reflexivity] ].
  destruct (ow_data !! "ow_hum") as [v2|] eqn:K2;
    [ | right; exists "ow_hum"; split; [left; exact K2 | reflexivity] ].
  destruct (ow_data !! "ow_pres") as [v3|] eqn:K3;
    [ | right; exists "ow_pres"; split; [left; exact K3 | reflexivity] ].
  destruct (sensor_data !! "am2320_temp") as [v4|] eqn:K4;
    [ | right; exists "am2320_temp"; split; [right; exact K4 | reflexivity] ].
  destruct (sensor_data !! "am2320_hum") as [v5|] eqn:K5;
    [ | right; exists "am2320_hum"; split; [right; exact K5 | reflexivity] ].
  destruct (sensor_data !! "bmp180_pres") as [v6|] eqn:K6;
    [ | right; exists "bmp180_pres"; split; [right; exact K6 | reflexivity] ].
  destruct (sensor_data !! "bh1750_lum") as [v7|] eqn:K7;
    [ | right; exists "bh1750_lum"; split; [right; exact K7 | reflexivity] ].
  destruct (sensor_data !! "bat_volt") as [v8|] eqn:K8;
    [ | right; exists "bat_volt"; split; [right; exact K8 | reflexivity] ].
  left. exists v1, v2, v3, v4, v5, v6, v7, v8. repeat split.
Qed.

(** X15. [log_readings] returns exactly when its two dictionaries hold
    the eight readings that it publishes.  Otherwise it raises the
    [KeyError] of a missing reading straight after its entry message:
    the broker is not contacted and nothing is signalled. *)
Theorem log_readings_needs_its_readings
    (cfg : Config) (env : Env) (py_str : value -> string)
    (ow_data sensor_data : gmap string value) (wifi_rssi : value) (w : World) :
  ((log_readings cfg env py_str ow_data sensor_data wifi_rssi w).1 = Ret tt
   <-> exists ow_temp ow_hum ow_pres ac_temp ac_hum ac_pres ac_lum ac_batv,
         read_out ow_data sensor_data
           ow_temp ow_hum ow_pres ac_temp ac_hum ac_pres ac_lum ac_batv)
  /\ (forall e,
        (log_readings cfg env py_str ow_data sensor_data wifi_rssi w).1 = Raise e ->
        (exists k, e = KeyError k /\ (ow_data !! k = None \/ sensor_data !! k = None))
        /\ trace (log_readings cfg env py_str ow_data sensor_data wifi_rssi w).2
           = trace w ++ [EvPrint "Upload readings to MQTT broker"]).
Proof.
  destruct (log_readings_cases cfg env py_str ow_data sensor_data wifi_rssi w)
    as [(v1 & v2 & v3 & v4 & v5 & v6 & v7 & v8 & Hread) | (k & Hk & Hlog)].
  - pose proof (log_readings_run cfg env py_str _ _ wifi_rssi w _ _ _ _ _ _ _ _ Hread) as Hlog.
    rewrite Hlog. cbn [fst]. split.
    + split; [ | reflexivity ]. intros _. exists v1, v2, v3, v4, v5, v6, v7, v8. exact Hread.
    + intros e He. discriminate He.
  - rewrite Hlog. cbn [fst snd]. split.
    + split; [intros He; discriminate He | ].
      intros (v1 & v2 & v3 & v4 & v5 & v6 & v7 & v8 & Hread). exfalso.
      rewrite (log_readings_run cfg env py_str _ _ wifi_rssi w _ _ _ _ _ _ _ _ Hread) in Hlog.
      discriminate Hlog.
    + intros e [= <-]. split; [ | reflexivity ].
      exists k. split; [reflexivity | exact Hk].
Qed.

(** X16. [log_readings] looks at five of the seven sensor readings: on
    two reading sets that agree on the AM2320 temperature and humidity,
    the BMP180 pressure, the luminance and the battery voltage it does
    the same, whatever they hold as BMP180 temperature and altitude. *)
Theorem log_readings_ignores_unpublished_readings
    (cfg : Config) (env : Env) (py_str : value -> string)
    (ow_data sd sd' : gmap string value) (wifi_rssi : value) (w : World) :
  same_published_readings sd sd' ->
  log_readings cfg env py_str ow_data sd wifi_rssi w
  = log_readings cfg env py_str ow_data sd' wifi_rssi w.
Proof.
  intros (H1 & H2 & H3 & H4 & H5).
  unfold log_readings, dict_get. rewrite H1, H2, H3, H4, H5. reflexivity.
Qed.

Lemma log_readings_ignores_unpublished_readings_witness :
  log_readings config fair_weather sample_str sample_ow_data sample_sensor_data
    (VInt (-61)) boot
  = log_readings config fair_weather sample_str sample_ow_data
      (delete "bmp180_temp" (delete "bmp180_alt" sample_sensor_data)) (VInt (-61)) boot.
Proof.
  apply (log_readings_ignores_unpublished_readings config fair_weather sample_str
           sample_ow_data sample_sensor_data
           (delete "bmp180_temp" (delete "bmp180_alt" sample_sensor_data))).
  repeat split; vm_compute; reflexivity.
Defined.

(** X17. The steps of the broker session of [log_readings], given the
    eight readings: the connection is requested once; the message is
    sent once when the connection was taken, and not at all otherwise;
    the disconnection is requested once when the message was taken, and
    not at all otherwise, so that a session whose publish fails is left
    open. *)
Theorem broker_session_steps
    (cfg : Config) (env : Env) (py_str : value -> string)
    (ow_data sensor_data : gmap string value) (wifi_rssi : value) (w : World)
    (ow_temp ow_hum ow_pres ac_temp ac_hum ac_pres ac_lum ac_batv : value) :
  read_out ow_data sensor_data ow_temp ow_hum ow_pres ac_temp ac_hum ac_pres ac_lum ac_batv ->
  let pl := (forecasts_line cfg py_str ow_temp ow_hum ow_pres +:+ CRLF)
            +:+ (actuals_line cfg py_str ac_temp ac_hum ac_pres ac_lum ac_batv wifi_rssi
                 +:+ CRLF) in
  exists evs,
    trace (log_readings cfg env py_str ow_data sensor_data wifi_rssi w).2 = trace w ++ evs
    /\ count_events is_broker_connect evs = 1
    /\ count_events is_broker_publish evs
       = match mqtt_connect env with
         | Done _ => 1
         | Fails _ => 0
         end
    /\ count_events is_broker_disconnect evs
       = match mqtt_connect env, mqtt_publish env (MQTT_TOPIC cfg) pl with
         | Done _, Done _ => 1
         | _, _ => 0
         end.
Proof.
  intros Hread pl.
  rewrite (log_readings_run _ _ _ _ _ _ _ _ _ _ _ _ _ _ _ Hread). fold pl.
  unfold after_log_readings. cbn [snd trace]. eexists. split; [reflexivity | ].
  unfold session_events, report, error_signal.
  destruct (mqtt_connect env) as [[]|x1];
    [ destruct (mqtt_publish env (MQTT_TOPIC cfg) pl) as [[]|x2];
      [ destruct (mqtt_disconnect env) as [[]|x3] | ] | ];
    destruct (debug_pin env (samples w) =? 0)%Z;
    repeat split; reflexivity.
Qed.

Lemma broker_session_steps_witness :
  exists evs,
    trace (log_readings config broker_drops sample_str sample_ow_data sample_sensor_data
             (VInt (-61)) boot).2 = trace boot ++ evs
    /\ count_events is_broker_connect evs = 1
    /\ count_events is_broker_publish evs = 1
    /\ count_events is_broker_disconnect evs = 0.
Proof.
  apply (broker_session_steps config broker_drops sample_str sample_ow_data
           sample_sensor_data (VInt (-61)) boot
           (VFloat 10) (VInt 80) (VInt 1013)
           (VFloat 10) (VFloat 10) (VFloat 0.1) (VFloat 10) (VFloat 2.5)).
  repeat split; reflexivity.
Defined.

(** ** Fetching the forecast, continued *)

(** X18. [get_weather_data] formats the webhook url before anything
    else than its entry message.  When the formatting raises an exception
    (a [ValueError] for a single brace, a [KeyError] for a field that is
    none of [lat], [lon] and [api], ...), that exception leaves
    [get_weather_data] and no request is sent.  Otherwise one request is
    sent, to the formatted url, and no other one, whatever the forecast
    service answers. *)
Theorem get_weather_data_requests_once (cfg : Config) (env : Env) (w : World) :
  match webhook_url cfg env with
  | Err e =>
      get_weather_data cfg env w
      = (Raise e, logged (EvPrint "Invoking OpenWeather URL webhook") w)
  | Ok url =>
      exists evs,
        trace (get_weather_data cfg env w).2
        = trace w ++ [EvPrint "Invoking OpenWeather URL webhook"; EvHttpGet url] ++ evs
        /\ count_events is_http_request evs = 0
  end.
Proof.
  unfold get_weather_data. destruct (webhook_url cfg env) as [url|e].
  - do 2 run_step. unfold call at 1.
    destruct (http_get env url) as [response|x].
    + erewrite bind_Ret; [ | reflexivity ].
      match goal with
      | |- context [trace (?m ?w0).2] =>
          assert (H : behaves m (fun ev => is_http_request ev = false) any any any)
            by behaves_auto;
          destruct (H w0) as (evs & Ht & HP & _)
      end.
      exists evs. split.
      * rewrite Ht. cbn [logged trace]. rewrite <- !app_assoc. reflexivity.
      * apply count_events_none, HP.
    + erewrite bind_Raise; [ | reflexivity ].
      exists []. split; [ | reflexivity ].
      cbn [snd logged trace]. rewrite <- !app_assoc. reflexivity.
  - run_step. erewrite bind_Raise; [ reflexivity | reflexivity ].
Qed.

(** The shipped template gives the url of [sample_url] and one request;
    a template with a single closing brace gives a [ValueError] and no
    request. *)
Lemma get_weather_data_requests_once_witness :
  (exists evs,
     trace (get_weather_data config service_down boot).2
     = trace boot ++ [EvPrint "Invoking OpenWeather URL webhook"; EvHttpGet sample_url] ++ evs
     /\ count_events is_http_request evs = 0)
  /\ get_weather_data stray_brace_config fair_weather boot
     = (Raise ValueError, logged (EvPrint "Invoking OpenWeather URL webhook") boot).
Proof.
  split.
  - exact (get_weather_data_requests_once config service_down boot).
  - exact (get_weather_data_requests_once stray_brace_config fair_weather boot).
Defined.
